(** * FPV 24/7 storefront backend: catalog queries and order pricing

    A shallow embedding of [src/main.py] (the [list_products] and
    [create_order] handlers) and [src/schemas.py] (the pydantic models),
    together with the properties of the order-total computation, the product
    query path and the schema constraints.

    Python values are embedded as follows.
    - [float] is IEEE-754 binary64, as the Standard Library's [spec_float]
      with 53 bits of precision; [+], [*] and [round(x, 2)] are the correctly
      rounded operations.
    - [int] is [Z]; [str] is [string]; [dict] is an association list looked
      up by key; a BSON document is a [dict] of [value]s.
    - A raised exception is the [Raise] outcome of a computation in the
      monad [M], which threads the database handle and a log of the store
      operations performed. *)

From Stdlib Require Import ZArith QArith Qabs List String Ascii Bool Lia.
From Stdlib Require Import Floats.SpecFloat.
From Stdlib Require Import Strings.Byte.
From Stdlib Require DecimalString.
Import ListNotations.

Local Open Scope Z_scope.
Local Open Scope string_scope.

(* ================================================================== *)
(** * Python floats *)

Module PyFloat.

Definition prec : Z := 53.
Definition emax : Z := 1024.

Definition float : Type := spec_float.

Definition zero : float := S754_zero false.

Definition add : float -> float -> float := SFadd prec emax.
Definition mul : float -> float -> float := SFmul prec emax.
Definition leb : float -> float -> bool := SFleb.
Definition ltb : float -> float -> bool := SFltb.

(** The double nearest to the rational [n / d] (ties to even), with sign
    [s]: the conversion of a decimal literal. *)
Definition nearest (s : bool) (n d : positive) : float :=
  SFdiv prec emax (S754_finite s n 0) (S754_finite false d 0).

(** [float(z)] for a Python [int]: the nearest double, and
    [OverflowError] ([None]) when that is out of range. *)
Definition of_int (z : Z) : option float :=
  match binary_normalize prec emax z 0 false with
  | S754_infinity _ => None
  | f => Some f
  end.

(** [a / b] rounded to the nearest integer, ties to the even one
    ([0 < b]). *)
Definition div_half_even (a b : Z) : Z :=
  let q := a / b in
  match (2 * (a mod b) ?= b) with
  | Lt => q
  | Gt => q + 1
  | Eq => if Z.even q then q else q + 1
  end.

(** The integer nearest to [100 * m * 2^e]. *)
Definition scaled_cents (m : positive) (e : Z) : Z :=
  match e with
  | Zneg k => div_half_even (100 * Zpos m) (Z.pow_pos 2 k)
  | _ => 100 * Zpos m * 2 ^ e
  end.

(** [round(x, 2)]: the exact value of [x] is rounded to two decimals
    (ties to even) and the decimal result is converted back to the nearest
    double; infinities and NaN are returned as they are, and the sign of
    [x] is kept when the result is zero. *)
Definition round2 (x : float) : float :=
  match x with
  | S754_finite s m e =>
      match scaled_cents m e with
      | Zpos p => nearest s p 100
      | _ => S754_zero s
      end
  | _ => x
  end.

(** The rational number a float stands for: [m * 2^e], with its sign, for a
    finite float; an infinity and NaN stand for none. *)
Definition exact (x : float) : option Q :=
  match x with
  | S754_zero _ => Some 0%Q
  | S754_finite s m e =>
      let v := match e with
               | Zneg k => Zpos m # Pos.pow 2 k
               | _ => inject_Z (Zpos m * 2 ^ e)
               end in
      Some (if s then Qopp v else v)
  | _ => None
  end.

(** The representations that are binary64 numbers: a finite float has its
    canonical mantissa and exponent. *)
Definition valid (x : float) : bool := valid_binary prec emax x.

(** [bool(x)] of a float: false for [0.0] and [-0.0] only. *)
Definition truthy (x : float) : bool :=
  match x with
  | S754_zero _ => false
  | _ => true
  end.

Definition eqb (x y : float) : bool :=
  match x, y with
  | S754_zero s, S754_zero t => Bool.eqb s t
  | S754_infinity s, S754_infinity t => Bool.eqb s t
  | S754_nan, S754_nan => true
  | S754_finite s m e, S754_finite t n f =>
      Bool.eqb s t && Pos.eqb m n && Z.eqb e f
  | _, _ => false
  end.

(** [0.0], the initial total and the bound of [ge=0]. *)
Definition f0 : float := zero.

(** [1.0] *)
Definition f1 : float := Eval vm_compute in nearest false 1 1.

(** [5.0], the bound of [le=5]. *)
Definition f5 : float := Eval vm_compute in nearest false 5 1.

(** [4.8], the default rating. *)
Definition f4_8 : float := Eval vm_compute in nearest false 48 10.

End PyFloat.

(* ================================================================== *)
(** * Strings and hexadecimal *)

Definition hex_val (c : ascii) : option N :=
  let n := N_of_ascii c in
  if (48 <=? n)%N && (n <=? 57)%N then Some (n - 48)%N
  else if (97 <=? n)%N && (n <=? 102)%N then Some (n - 87)%N
  else if (65 <=? n)%N && (n <=? 70)%N then Some (n - 55)%N
  else None.

Definition hex_digit (n : N) : ascii :=
  if (n <? 10)%N then ascii_of_N (48 + n) else ascii_of_N (87 + n).

(** ASCII whitespace, as [bytes.fromhex] skips it between bytes. *)
Definition is_space (c : ascii) : bool :=
  let n := N_of_ascii c in
  ((9 <=? n)%N && (n <=? 13)%N) || (n =? 32)%N.

Definition byte_of_nibbles (h l : N) : byte :=
  match Byte.of_N (16 * h + l) with
  | Some b => b
  | None => x00
  end.

(** [bytes.fromhex(s)]; [None] is [ValueError]. *)
Fixpoint fromhex (s : string) : option (list byte) :=
  match s with
  | EmptyString => Some []
  | String c rest =>
      if is_space c then fromhex rest
      else
        match rest with
        | EmptyString => None
        | String c' rest' =>
            match hex_val c, hex_val c', fromhex rest' with
            | Some h, Some l, Some bs => Some (byte_of_nibbles h l :: bs)
            | _, _, _ => None
            end
        end
  end.

(** [bytes.hex()] in lower case. *)
Fixpoint hexlify (bs : list byte) : string :=
  match bs with
  | [] => EmptyString
  | b :: rest =>
      let n := Byte.to_N b in
      String (hex_digit (n / 16)) (String (hex_digit (n mod 16)) (hexlify rest))
  end.

(* ================================================================== *)
(** * bson.ObjectId *)

Record ObjectId : Type := { binary : list byte }.

Module ObjectIdOps.

(** [ObjectId(s)] for a [str]: the string must have 24 characters and be
    accepted by [bytes.fromhex]; [None] is the [InvalidId] exception. *)
Definition of_str (s : string) : option ObjectId :=
  if Nat.eqb (String.length s) 24
  then match fromhex s with
       | Some bs => Some {| binary := bs |}
       | None => None
       end
  else None.

(** [str(oid)]. *)
Definition to_str (o : ObjectId) : string := hexlify (binary o).

Definition eqb (a b : ObjectId) : bool :=
  if list_eq_dec Byte.byte_eq_dec (binary a) (binary b) then true else false.

End ObjectIdOps.

(* ================================================================== *)
(** * BSON values and Python dicts *)

#[local] Set Warnings "-register-all".

(** The values a stored document or a keyword argument can hold. *)
Inductive value : Type :=
| VNone
| VBool (b : bool)
| VInt (z : Z)
| VFloat (f : PyFloat.float)
| VStr (s : string)
| VObjectId (o : ObjectId)
| VList (l : list value)
| VDict (d : list (string * value)).

(** A Python [dict] with [str] keys; a key is looked up at its first
    binding. *)
Definition dict : Type := list (string * value).

(** [d.get(k)] *)
Fixpoint dict_get (k : string) (d : dict) : option value :=
  match d with
  | [] => None
  | (k', v) :: rest => if String.eqb k k' then Some v else dict_get k rest
  end.

(** [d.get(k, default)] *)
Definition dict_get_default (k : string) (default : value) (d : dict) : value :=
  match dict_get k d with
  | Some v => v
  | None => default
  end.

Definition dict_remove (k : string) (d : dict) : dict :=
  filter (fun kv => negb (String.eqb k (fst kv))) d.

(** [d.pop(k, None)]: the value removed (or [None]) and the dict left. *)
Definition dict_pop (k : string) (d : dict) : value * dict :=
  (dict_get_default k VNone d, dict_remove k d).

Definition dict_has (k : string) (d : dict) : bool :=
  match dict_get k d with
  | Some _ => true
  | None => false
  end.

(** [bool(v)]: Python truthiness. *)
Definition truthy (v : value) : bool :=
  match v with
  | VNone => false
  | VBool b => b
  | VInt z => negb (z =? 0)%Z
  | VFloat f => PyFloat.truthy f
  | VStr s => negb (String.eqb s "")
  | VObjectId _ => true
  | VList l => match l with [] => false | _ => true end
  | VDict d => match d with [] => false | _ => true end
  end.

(** Equality of values, as an equality filter compares them. *)
Fixpoint value_eqb (a b : value) : bool :=
  let fix list_eqb (l1 l2 : list value) : bool :=
    match l1, l2 with
    | [], [] => true
    | x :: xs, y :: ys => value_eqb x y && list_eqb xs ys
    | _, _ => false
    end in
  let fix dict_eqb (d1 d2 : list (string * value)) : bool :=
    match d1, d2 with
    | [], [] => true
    | (k1, x) :: xs, (k2, y) :: ys =>
        String.eqb k1 k2 && value_eqb x y && dict_eqb xs ys
    | _, _ => false
    end in
  match a, b with
  | VNone, VNone => true
  | VBool x, VBool y => Bool.eqb x y
  | VInt x, VInt y => (x =? y)%Z
  | VFloat x, VFloat y => PyFloat.eqb x y
  | VStr x, VStr y => String.eqb x y
  | VObjectId x, VObjectId y => ObjectIdOps.eqb x y
  | VList x, VList y => list_eqb x y
  | VDict x, VDict y => dict_eqb x y
  | _, _ => false
  end.

(** A document matches an equality filter when every field of the filter
    is present in the document with an equal value; the empty filter matches
    every document. *)
Definition matches (query : dict) (doc : dict) : bool :=
  forallb (fun kv => match dict_get (fst kv) doc with
                     | Some v => value_eqb v (snd kv)
                     | None => false
                     end) query.

(* ================================================================== *)
(** * Library behaviour taken as a parameter

    What the Python runtime and pydantic do with an input whose type is not
    the annotated one (pydantic's lax-mode coercions), how a [str] is parsed
    as a number or as a URL, and how a value other than a string or an
    [ObjectId] prints, is not code of this repository; the handlers are
    embedded for every such behaviour. *)
Class Runtime : Type := {
  (** [float(s)] for a [str]; [None] is [ValueError] *)
  float_of_str : string -> option PyFloat.float;
  (** [str(v)] for a value that is neither a [str], an [ObjectId], [None],
      a [bool] nor an [int]; [None] is an exception raised by [str] *)
  str_other : value -> option string;
  (** pydantic's coercion of a value that is not an [int] to an [int] field *)
  lax_int : value -> option Z;
  (** pydantic's coercion of a value that is not a [float] to a [float] field *)
  lax_float : value -> option PyFloat.float;
  (** pydantic's coercion of a value that is not a [bool] to a [bool] field *)
  lax_bool : value -> option bool;
  (** pydantic's coercion of a value that is not a [str] to a [str] field *)
  lax_str : value -> option string;
  (** pydantic's [HttpUrl] validation of a [str]: the normalised URL *)
  http_url : string -> option string
}.

(* ================================================================== *)
(** * Exceptions and the handler monad *)

(** A pydantic error: the location of the offending input (field name,
    then index or key inside it) and the error type. *)
Definition error_detail : Type := (list string * string)%type.

Inductive exn : Type :=
| HTTPException (status_code : Z) (detail : string)
| ValidationError (errors : list error_detail)
| TypeError
| ValueError
| OverflowError
| StoreUnavailable.

Inductive outcome (A : Type) : Type :=
| Return (a : A)
| Raise (e : exn).
Arguments Return {A} a.
Arguments Raise {A} e.

(** A collection is the list of its documents in store order; a database
    maps collection names to collections and holds the counter from which
    the next identifier is drawn. *)
Record Database : Type := {
  collections : list (string * list dict);
  next_oid : N
}.

(** The operations performed on the store. *)
Inductive store_op : Type :=
| FindOne (collection : string) (query : dict)
| Find (collection : string) (query : dict) (limit : Z)
| InsertOne (collection : string) (doc : dict).

(** The world a handler runs in: the global [db] of [database.py] ([None]
    when no connection is configured) and the log of store operations. *)
Record World : Type := {
  db : option Database;
  oplog : list store_op
}.

Definition M (A : Type) : Type := World -> outcome A * World.

Definition ret {A} (a : A) : M A := fun w => (Return a, w).
Definition raise {A} (e : exn) : M A := fun w => (Raise e, w).
Definition bind {A B} (m : M A) (k : A -> M B) : M B :=
  fun w => match m w with
           | (Return a, w') => k a w'
           | (Raise e, w') => (Raise e, w')
           end.

Notation "x <- m ;; k" := (bind m (fun x => k))
  (at level 100, m at next level, right associativity).

Definition lift {A} (o : outcome A) : M A := fun w => (o, w).

(** [for x in l: acc = body(acc, x)] *)
Fixpoint for_each {A S} (body : S -> A -> M S) (l : list A) (acc : S) : M S :=
  match l with
  | [] => ret acc
  | x :: rest => acc' <- body acc x ;; for_each body rest acc'
  end.

(* ------------------------------------------------------------------ *)
(** ** The store *)

Definition collection (d : Database) (name : string) : list dict :=
  match find (fun c => String.eqb name (fst c)) (collections d) with
  | Some c => snd c
  | None => []
  end.

Fixpoint set_collection (name : string) (docs : list dict)
    (cs : list (string * list dict)) : list (string * list dict) :=
  match cs with
  | [] => [(name, docs)]
  | (n, ds) :: rest =>
      if String.eqb name n then (n, docs) :: rest
      else (n, ds) :: set_collection name docs rest
  end.

(** The big-endian bytes of a number. *)
Fixpoint bytes_of_N (len : nat) (n : N) (acc : list byte) : list byte :=
  match len with
  | O => acc
  | S len' =>
      bytes_of_N len' (n / 256)
        (byte_of_nibbles ((n mod 256) / 16) (n mod 16) :: acc)
  end.

(** Modelled from the spec: the identifier the store assigns on insert is
    opaque (section 3); it is drawn here from the counter of the database,
    as its twelve bytes. *)
Definition oid_of_counter (n : N) : ObjectId :=
  {| binary := bytes_of_N 12 n [] |}.

(** pymongo's [db[name].find_one({"_id": oid})]: the first document of the
    collection matching the filter. *)
Definition find_one (d : Database) (name : string) (query : dict) : option dict :=
  find (matches query) (collection d name).

(* ================================================================== *)
(** * pydantic: field validation *)

(** The result of validating an input: the value, or the errors of every
    offending field (pydantic reports them all, in field order). *)
Inductive validated (A : Type) : Type :=
| Valid (a : A)
| Invalid (errors : list error_detail).
Arguments Valid {A} a.
Arguments Invalid {A} errors.

Definition v_map {A B} (f : A -> B) (v : validated A) : validated B :=
  match v with
  | Valid a => Valid (f a)
  | Invalid es => Invalid es
  end.

Definition v_ap {A B} (vf : validated (A -> B)) (va : validated A) : validated B :=
  match vf, va with
  | Valid f, Valid a => Valid (f a)
  | Valid _, Invalid es => Invalid es
  | Invalid es, Valid _ => Invalid es
  | Invalid es, Invalid es' => Invalid (es ++ es')%list
  end.

Definition v_bind {A B} (v : validated A) (k : A -> validated B) : validated B :=
  match v with
  | Valid a => k a
  | Invalid es => Invalid es
  end.

Notation "f <*> a" := (v_ap f a) (at level 61, left associativity).

(** Calling the model class: the instance, or [ValidationError]. *)
Definition construct {A} (v : validated A) : outcome A :=
  match v with
  | Valid a => Return a
  | Invalid es => Raise (ValidationError es)
  end.

Definition loc : Type := list string.

Definition string_of_nat (n : nat) : string :=
  DecimalString.NilZero.string_of_uint (Nat.to_uint n).

Definition string_of_Z (z : Z) : string :=
  DecimalString.NilZero.string_of_int (Z.to_int z).

Section Validators.
Context {RT : Runtime}.

Definition from_option {A} (l : loc) (type : string) (o : option A) : validated A :=
  match o with
  | Some a => Valid a
  | None => Invalid [(l, type)]
  end.

(** [str] *)
Definition validate_str (l : loc) (v : value) : validated string :=
  match v with
  | VStr s => Valid s
  | _ => from_option l "string_type" (lax_str v)
  end.

(** [int]: a [str] that does not read as an integer is [int_parsing], a
    [float] with a fractional part [int_from_float], an infinite or NaN
    [float] [finite_number], and a value of another type [int_type]. *)
Definition validate_int (l : loc) (v : value) : validated Z :=
  match v with
  | VInt z => Valid z
  | VStr _ => from_option l "int_parsing" (lax_int v)
  | VFloat (S754_infinity _) | VFloat S754_nan =>
      from_option l "finite_number" (lax_int v)
  | VFloat _ => from_option l "int_from_float" (lax_int v)
  | _ => from_option l "int_type" (lax_int v)
  end.

(** [float] *)
Definition validate_float (l : loc) (v : value) : validated PyFloat.float :=
  match v with
  | VFloat f => Valid f
  | VStr _ => from_option l "float_parsing" (lax_float v)
  | _ => from_option l "float_type" (lax_float v)
  end.

(** [bool]: a [str] or a number that is not one of the accepted spellings
    of true and false is [bool_parsing], a value of another type
    [bool_type]. *)
Definition validate_bool (l : loc) (v : value) : validated bool :=
  match v with
  | VBool b => Valid b
  | VStr _ | VInt _ | VFloat _ => from_option l "bool_parsing" (lax_bool v)
  | _ => from_option l "bool_type" (lax_bool v)
  end.

(** [Optional[str]] *)
Definition validate_optional_str (l : loc) (v : value) : validated (option string) :=
  match v with
  | VNone => Valid None
  | _ => v_map Some (validate_str l v)
  end.

(** [HttpUrl] *)
Definition validate_url (l : loc) (v : value) : validated string :=
  match v with
  | VStr s => from_option l "url_parsing" (http_url s)
  | _ => Invalid [(l, "url_type")]
  end.

(** [Field(ge=bound)] on a float: the value must compare greater than or
    equal to the bound. *)
Definition ge_float (bound : PyFloat.float) (l : loc) (f : PyFloat.float)
  : validated PyFloat.float :=
  if PyFloat.leb bound f then Valid f else Invalid [(l, "greater_than_equal")].

(** [Field(le=bound)] on a float *)
Definition le_float (bound : PyFloat.float) (l : loc) (f : PyFloat.float)
  : validated PyFloat.float :=
  if PyFloat.leb f bound then Valid f else Invalid [(l, "less_than_equal")].

(** [Field(ge=bound)] on an int *)
Definition ge_int (bound : Z) (l : loc) (z : Z) : validated Z :=
  if (bound <=? z)%Z then Valid z else Invalid [(l, "greater_than_equal")].

(** The items of a list, each validated at its index. *)
Fixpoint validate_items {A} (elem : loc -> value -> validated A)
    (l : loc) (i : nat) (vs : list value) : validated (list A) :=
  match vs with
  | [] => Valid []
  | v :: rest =>
      Valid cons <*> elem (l ++ [string_of_nat i])%list v
                 <*> validate_items elem l (S i) rest
  end.

(** [List[A]] *)
Definition validate_list {A} (elem : loc -> value -> validated A)
    (l : loc) (v : value) : validated (list A) :=
  match v with
  | VList vs => validate_items elem l 0 vs
  | _ => Invalid [(l, "list_type")]
  end.

(** The entries of a dict, each value validated at its key. *)
Fixpoint validate_entries {A} (elem : loc -> value -> validated A)
    (l : loc) (d : list (string * value)) : validated (list (string * A)) :=
  match d with
  | [] => Valid []
  | (k, v) :: rest =>
      Valid (fun a r => (k, a) :: r) <*> elem (l ++ [k])%list v
                                     <*> validate_entries elem l rest
  end.

(** [Dict[str, A]] *)
Definition validate_dict {A} (elem : loc -> value -> validated A)
    (l : loc) (v : value) : validated (list (string * A)) :=
  match v with
  | VDict d => validate_entries elem l d
  | _ => Invalid [(l, "dict_type")]
  end.

(** A field declared [Field(...)]: required. *)
Definition required {A} (name : string) (validator : loc -> value -> validated A)
    (kwargs : dict) : validated A :=
  match dict_get name kwargs with
  | Some v => validator [name] v
  | None => Invalid [([name], "missing")]
  end.

(** A field declared with a default: the default is taken, as it is, when
    the field is omitted. *)
Definition optional {A} (name : string) (validator : loc -> value -> validated A)
    (default : A) (kwargs : dict) : validated A :=
  match dict_get name kwargs with
  | Some v => validator [name] v
  | None => Valid default
  end.

End Validators.

(** [BaseModel.model_dump] *)
Class BaseModel (A : Type) : Type := { model_dump : A -> dict }.

(* ================================================================== *)
(** * schemas.py *)

Module DroneProduct.

Record t : Type := {
  title : string;
  description : option string;
  price : PyFloat.float;
  category : string;
  images : list string;
  in_stock : bool;
  stock_qty : Z;
  rating : PyFloat.float;
  featured : bool;
  tags : list string;
  specs : list (string * string)
}.

Section Validate.
Context {RT : Runtime}.

Definition validate (kwargs : dict) : validated t :=
  Valid Build_t
    <*> required "title" validate_str kwargs
    <*> optional "description" validate_optional_str None kwargs
    <*> required "price"
          (fun l v => v_bind (validate_float l v) (ge_float PyFloat.f0 l)) kwargs
    <*> required "category" validate_str kwargs
    <*> optional "images" (validate_list validate_url) [] kwargs
    <*> optional "in_stock" validate_bool true kwargs
    <*> optional "stock_qty"
          (fun l v => v_bind (validate_int l v) (ge_int 0 l)) 10 kwargs
    <*> optional "rating"
          (fun l v => v_bind (validate_float l v)
             (fun f => v_bind (le_float PyFloat.f5 l f) (ge_float PyFloat.f0 l)))
          PyFloat.f4_8 kwargs
    <*> optional "featured" validate_bool false kwargs
    <*> optional "tags" (validate_list validate_str) [] kwargs
    <*> optional "specs" (validate_dict validate_str) [] kwargs.

(** Calling [DroneProduct] with keyword arguments [kwargs]. *)
Definition new (kwargs : dict) : outcome t := construct (validate kwargs).

End Validate.

#[global] Instance dump : BaseModel t := {
  model_dump p :=
    [("title", VStr (title p));
     ("description", match description p with Some s => VStr s | None => VNone end);
     ("price", VFloat (price p));
     ("category", VStr (category p));
     ("images", VList (map VStr (images p)));
     ("in_stock", VBool (in_stock p));
     ("stock_qty", VInt (stock_qty p));
     ("rating", VFloat (rating p));
     ("featured", VBool (featured p));
     ("tags", VList (map VStr (tags p)));
     ("specs", VDict (map (fun kv => (fst kv, VStr (snd kv))) (specs p)))]
}.

End DroneProduct.

Module Order.

Record t : Type := {
  email : string;
  items : list (list (string * Z));
  total : PyFloat.float;
  status : string
}.

Section Validate.
Context {RT : Runtime}.

Definition validate (kwargs : dict) : validated t :=
  Valid Build_t
    <*> required "email" validate_str kwargs
    <*> required "items" (validate_list (validate_dict validate_int)) kwargs
    <*> required "total"
          (fun l v => v_bind (validate_float l v) (ge_float PyFloat.f0 l)) kwargs
    <*> optional "status" validate_str "pending" kwargs.

(** Calling [Order] with keyword arguments [kwargs]. *)
Definition new (kwargs : dict) : outcome t := construct (validate kwargs).

End Validate.

#[global] Instance dump : BaseModel t := {
  model_dump o :=
    [("email", VStr (email o));
     ("items", VList (map (fun it => VDict (map (fun kv => (fst kv, VInt (snd kv))) it))
                          (items o)));
     ("total", VFloat (total o));
     ("status", VStr (status o))]
}.

End Order.

(* ================================================================== *)
(** * database.py *)

Definition log (op : store_op) (w : World) : World :=
  {| db := db w; oplog := (oplog w ++ [op])%list |}.

(** What the store can hold of a value: a BSON integer has at most 8
    bytes, and the driver raises [OverflowError] when it is asked to encode
    an [int] outside [-2^63, 2^63 - 1]. *)
Fixpoint bson_encodable (v : value) : bool :=
  match v with
  | VInt z => (-9223372036854775808 <=? z)%Z && (z <=? 9223372036854775807)%Z
  | VList l => forallb bson_encodable l
  | VDict d => forallb (fun kv => bson_encodable (snd kv)) d
  | _ => true
  end.

(** A document the store can encode: each of its values is. *)
Definition document_encodable (doc : dict) : bool :=
  forallb (fun kv => bson_encodable (snd kv)) doc.

(** Modelled from the spec: [create_document] of [database.py], which is not
    among the sources; the Adapter's [insert] of section 4.1. It serialises
    the validated entity, inserts it as one new record of the named
    collection under a newly assigned identifier and returns that identifier
    as a string. It fails with [StoreUnavailable] when no connection is
    configured, and on the underlying failure the data of this program can
    run into (the [WriteError] of section 4.1): a document that holds an
    integer the store cannot encode is not written, and the driver's
    [OverflowError] is raised. *)
Definition create_document {A} {BM : BaseModel A}
    (collection_name : string) (data : A) : M string :=
  fun w =>
    match db w with
    | None => (Raise StoreUnavailable, w)
    | Some d =>
        let oid := oid_of_counter (next_oid d) in
        let doc := (model_dump data ++ [("_id", VObjectId oid)])%list in
        let d' := {| collections :=
                       set_collection collection_name
                         (collection d collection_name ++ [doc])%list
                         (collections d);
                     next_oid := (next_oid d + 1)%N |} in
        if document_encodable (model_dump data)
        then (Return (ObjectIdOps.to_str oid),
              {| db := Some d';
                 oplog := (oplog w ++ [InsertOne collection_name doc])%list |})
        else (Raise OverflowError, w)
    end.

(** Modelled from the spec: [get_documents] of [database.py], which is not
    among the sources; the Adapter's [query] of section 4.1. It returns up
    to [limit] documents of the named collection matching the equality
    filter, in store order (the empty filter matches all, and no match gives
    the empty sequence); it fails with [StoreUnavailable] when no connection
    is configured. Section 4.1 says nothing of a limit of zero or less, for
    which [up to limit] is read here as no document. *)
Definition get_documents (collection_name : string) (filter_dict : dict)
    (limit : Z) : M (list dict) :=
  fun w =>
    match db w with
    | None => (Raise StoreUnavailable, w)
    | Some d =>
        (Return (firstn (Z.to_nat limit)
                   (filter (matches filter_dict) (collection d collection_name))),
         log (Find collection_name filter_dict limit) w)
    end.

(* ================================================================== *)
(** * main.py *)

Module Main.

(** [class DroneProductOut(DroneProduct)]: the product's fields and [id]. *)
Record DroneProductOut : Type := {
  product : DroneProduct.t;
  id : string
}.

Record CartItem : Type := {
  product_id : string;
  qty : Z
}.

Record CreateOrderRequest : Type := {
  email : string;
  items : list CartItem
}.

(** The response of [create_order]: [{"status": ..., "order_id": ...}]. *)
Record OrderCreated : Type := {
  status : string;
  order_id : string
}.

Section Handlers.
Context {RT : Runtime}.

Definition DroneProductOut_validate (kwargs : dict) : validated DroneProductOut :=
  Valid Build_DroneProductOut
    <*> DroneProduct.validate kwargs
    <*> required "id" validate_str kwargs.

(** [DroneProductOut(id=id_str, **d)]: a key [id] of [d] clashes with
    the keyword and is a [TypeError]. *)
Definition DroneProductOut_new (id_str : string) (d : dict)
  : outcome DroneProductOut :=
  if dict_has "id" d then Raise TypeError
  else construct (DroneProductOut_validate (("id", VStr id_str) :: d)).

(** [str(v)]; [None] is an exception raised by [str]. *)
Definition py_str (v : value) : option string :=
  match v with
  | VStr s => Some s
  | VObjectId o => Some (ObjectIdOps.to_str o)
  | VNone => Some "None"
  | VBool true => Some "True"
  | VBool false => Some "False"
  | VInt z => Some (string_of_Z z)
  | _ => str_other v
  end.

(** The [try] block of the loop of [list_products]:
    [id_str = str(_id) if _id else ""], and [id_str = ""] in the handler
    of [except Exception], entered when [str] raises. *)
Definition id_str_of (_id : value) : string :=
  if truthy _id then
    match py_str _id with
    | Some s => s
    | None => ""
    end
  else "".

(** The body of the loop of [list_products] for one document. *)
Definition reshape (d : dict) : outcome DroneProductOut :=
  let '(_id, d_copy) := dict_pop "_id" d in
  DroneProductOut_new (id_str_of _id) d_copy.

(** The filter [list_products] builds from its parameters. *)
Definition build_query (category : option string) (featured : option bool)
  : dict :=
  let query := [] in
  let query :=
    match category with
    | Some c => if negb (String.eqb c "")
                then (query ++ [("category", VStr c)])%list else query
    | None => query
    end in
  match featured with
  | Some b => (query ++ [("featured", VBool b)])%list
  | None => query
  end.

Definition default_limit : Z := 50.

(** [GET /products] *)
Definition list_products (category : option string) (featured : option bool)
    (limit : option Z) : M (list DroneProductOut) :=
  let limit := match limit with Some n => n | None => default_limit end in
  docs <- get_documents "droneproduct" (build_query category featured) limit ;;
  for_each (fun out d => o <- lift (reshape d) ;; ret (out ++ [o])%list)
           docs [].

(** The lookup of one cart item:
    [db["droneproduct"].find_one({"_id": ObjectId(product_id)})], with
    every exception (no database, a malformed identifier) turned into
    [None]. *)
Definition lookup_product (product_id : string) : M (option dict) :=
  fun w =>
    match db w with
    | None => (Return None, w)
    | Some d =>
        match ObjectIdOps.of_str product_id with
        | None => (Return None, w)
        | Some oid =>
            let query := [("_id", VObjectId oid)] in
            (Return (find_one d "droneproduct" query),
             log (FindOne "droneproduct" query) w)
        end
    end.

(** [not doc] *)
Definition not_doc (doc : option dict) : bool :=
  match doc with
  | None => true
  | Some d => negb (truthy (VDict d))
  end.

(** [float(v)] *)
Definition py_float (v : value) : outcome PyFloat.float :=
  match v with
  | VFloat f => Return f
  | VInt z => match PyFloat.of_int z with
              | Some f => Return f
              | None => Raise OverflowError
              end
  | VBool b => Return (if b then PyFloat.f1 else PyFloat.f0)
  | VStr s => match float_of_str s with
              | Some f => Return f
              | None => Raise ValueError
              end
  | _ => Raise TypeError
  end.

(** [f * n] for a float [f] and an int [n] *)
Definition mul_int (f : PyFloat.float) (n : Z) : outcome PyFloat.float :=
  match PyFloat.of_int n with
  | Some g => Return (PyFloat.mul f g)
  | None => Raise OverflowError
  end.

Definition not_found (product_id : string) : exn :=
  HTTPException 404 ("Product " ++ product_id ++ " not found").

(** The body of the loop of [create_order] for one cart item. *)
Definition add_line (total : PyFloat.float) (item : CartItem) : M PyFloat.float :=
  doc <- lookup_product (product_id item) ;;
  if not_doc doc then raise (not_found (product_id item))
  else
    let doc := match doc with Some d => d | None => [] end in
    unit_price <- lift (py_float (dict_get_default "price" (VInt 0) doc)) ;;
    line <- lift (mul_int unit_price (Z.max 1 (qty item))) ;;
    ret (PyFloat.add total line).

(** The loop of [create_order]: the total before rounding. *)
Definition order_total (items : list CartItem) : M PyFloat.float :=
  for_each add_line items PyFloat.f0.

Definition order_kwargs (payload : CreateOrderRequest) (total : PyFloat.float)
  : dict :=
  [("email", VStr (email payload));
   ("items", VList (map (fun i => VDict [("product_id", VStr (product_id i));
                                         ("qty", VInt (qty i))])
                        (items payload)));
   ("total", VFloat (PyFloat.round2 total))].

(** [POST /orders] *)
Definition create_order (payload : CreateOrderRequest) : M OrderCreated :=
  total <- order_total (items payload) ;;
  order <- lift (Order.new (order_kwargs payload total)) ;;
  order_id <- create_document "order" order ;;
  ret {| status := "ok"; order_id := order_id |}.

End Handlers.

End Main.

(* ================================================================== *)
(** * A runtime and a store to run the handlers on *)

Definition digit_val (c : ascii) : option Z :=
  let n := N_of_ascii c in
  if (48 <=? n)%N && (n <=? 57)%N then Some (Z.of_N (n - 48)) else None.

Fixpoint digits_val (s : string) (acc : Z) : option Z :=
  match s with
  | EmptyString => Some acc
  | String c rest =>
      match digit_val c with
      | Some v => digits_val rest (10 * acc + v)
      | None => None
      end
  end.

(** A string of decimal digits, with an optional sign, read as an integer. *)
Definition int_of_str (s : string) : option Z :=
  match s with
  | EmptyString => None
  | String "-" (String c rest) => option_map Z.opp (digits_val (String c rest) 0)
  | String "+" (String c rest) => digits_val (String c rest) 0
  | _ => digits_val s 0
  end.

(** A runtime in which a string of decimal digits coerces to a number and
    nothing else is coerced. *)
Definition plain_runtime : Runtime := {|
  float_of_str := fun s => match int_of_str s with
                           | Some z => PyFloat.of_int z
                           | None => None
                           end;
  str_other := fun _ => Some "";
  lax_int := fun v => match v with VStr s => int_of_str s | _ => None end;
  lax_float := fun v => match v with
                        | VInt z => PyFloat.of_int z
                        | VStr s => match int_of_str s with
                                    | Some z => PyFloat.of_int z
                                    | None => None
                                    end
                        | _ => None
                        end;
  lax_bool := fun _ => None;
  lax_str := fun _ => None;
  http_url := fun s => Some s
|}.

Definition oid_raven : string := "65a1f0c2b3d4e5f60718293a".
Definition oid_whoop : string := "65a1f0c2b3d4e5f60718293b".
Definition oid_motor : string := "65a1f0c2b3d4e5f60718293c".

Definition stored_product (oid title category : string) (price : PyFloat.float)
    (featured : bool) : dict :=
  [("_id", match ObjectIdOps.of_str oid with
           | Some o => VObjectId o
           | None => VNone
           end);
   ("title", VStr title);
   ("price", VFloat price);
   ("category", VStr category);
   ("featured", VBool featured)].

(** The three products of the demo catalogue, priced 499.00, 389.00 and
    23.90. *)
Definition demo_products : list dict :=
  [stored_product oid_raven "FPV 24/7 Raven 5" "custom-drones"
     (PyFloat.nearest false 499 1) true;
   stored_product oid_whoop "CineWhoop Mini" "custom-drones"
     (PyFloat.nearest false 389 1) true;
   stored_product oid_motor "2207 1950KV Pro Motor" "motors"
     (PyFloat.nearest false 239 10) false].

Definition demo_db : Database :=
  {| collections := [("droneproduct", demo_products)]; next_oid := 1 |}.

Definition demo_world : World := {| db := Some demo_db; oplog := [] |}.

(** A product document stored without a [price] field. *)
Definition oid_frame : string := "65a1f0c2b3d4e5f60718293d".

Definition unpriced_product : dict :=
  [("_id", match ObjectIdOps.of_str oid_frame with
           | Some o => VObjectId o
           | None => VNone
           end);
   ("title", VStr "Prototype frame");
   ("category", VStr "frames")].

Definition unpriced_db : Database :=
  {| collections := [("droneproduct", (demo_products ++ [unpriced_product])%list)];
     next_oid := 1 |}.

(* ================================================================== *)
(** * The vocabulary of the properties *)

(** The stored product a [product_id] resolves to: the identifier must parse
    and a document of the product collection must carry it. *)
Definition resolve (d : Database) (product_id : string) : option dict :=
  match ObjectIdOps.of_str product_id with
  | Some oid => find_one d "droneproduct" [("_id", VObjectId oid)]
  | None => None
  end.

(** The sum of a sequence of floats, accumulated in order from [0.0]. *)
Definition float_sum (xs : list PyFloat.float) : PyFloat.float :=
  fold_left PyFloat.add xs PyFloat.f0.

(** The value of a line given as the pair of a unit price and a clamped
    quantity. *)
Definition line_value (l : PyFloat.float * PyFloat.float) : PyFloat.float :=
  PyFloat.mul (fst l) (snd l).

(** The total of an order for the lines of its cart: their binary64 sum,
    accumulated in order, rounded by [round(., 2)]. *)
Definition spec_total (lines : list (PyFloat.float * PyFloat.float)) : PyFloat.float :=
  PyFloat.round2 (float_sum (map line_value lines)).

(** The float [r] is the rational [v] rounded to two decimal places: for the
    integer [n] nearest to [100 * v] (the even one of the two when [100 * v]
    lies half-way between them), [r] is the double nearest to [n / 100];
    the sign of a zero is left open. *)
Definition rounded_to_cents (v : Q) (r : PyFloat.float) : Prop :=
  exists n : Z,
    (Qabs (100 * v - inject_Z n) <= 1 # 2)%Q /\
    ((Qabs (100 * v - inject_Z n) == 1 # 2)%Q -> Z.even n = true) /\
    match n with
    | Zpos p => r = PyFloat.nearest false p 100
    | Zneg p => r = PyFloat.nearest true p 100
    | Z0 => exists s, r = S754_zero s
    end.

(** The sum of the lines computed exactly, in the rationals: the sum over
    the lines of the price times the quantity, with no rounding of a
    product or of a partial sum. *)
Fixpoint exact_sum (lines : list (PyFloat.float * PyFloat.float)) : option Q :=
  match lines with
  | [] => Some 0%Q
  | (p, q) :: rest =>
      match PyFloat.exact p, PyFloat.exact q, exact_sum rest with
      | Some a, Some b, Some c => Some (a * b + c)%Q
      | _, _, _ => None
      end
  end.

(** A cart item is priced by a line [(p, n)] when its product resolves to a
    stored document whose price reads as the float [p] and [n] is its
    quantity, clamped to at least 1, as a float. *)
Definition priced {RT : Runtime} (d : Database) (item : Main.CartItem)
    (line : PyFloat.float * PyFloat.float) : Prop :=
  exists doc,
    resolve d (Main.product_id item) = Some doc /\
    Main.py_float (dict_get_default "price" (VInt 0) doc) = Return (fst line) /\
    PyFloat.of_int (Z.max 1 (Main.qty item)) = Some (snd line).

(** The limit [list_products] queries with: 50 when the caller gives none. *)
Definition effective_limit (limit : option Z) : Z :=
  match limit with
  | Some n => n
  | None => Main.default_limit
  end.

(** The documents [list_products] is handed by the store. *)
Definition queried (d : Database) (category : option string)
    (featured : option bool) (limit : option Z) : list dict :=
  firstn (Z.to_nat (effective_limit limit))
    (filter (matches (Main.build_query category featured))
       (collection d "droneproduct")).

(** A validation reports the field at location [l] as offending. *)
Definition reports {A} (v : validated A) (l : loc) : Prop :=
  match v with
  | Invalid es => In l (map fst es)
  | Valid _ => False
  end.

(** The keyword arguments that spell out every field of a product. *)
Definition product_kwargs (p : DroneProduct.t) : dict := model_dump p.

(** The items of an order as the values handed to the constructor. *)
Definition items_value (its : list (list (string * Z))) : value :=
  VList (map (fun it => VDict (map (fun kv => (fst kv, VInt (snd kv))) it)) its).

(** An integer that fits the 8 bytes of a BSON integer. *)
Definition fits_int64 (z : Z) : Prop :=
  -9223372036854775808 <= z <= 9223372036854775807.

(** The store operations that write. *)
Definition is_write (op : store_op) : bool :=
  match op with
  | InsertOne _ _ => true
  | _ => false
  end.

Definition world_of (d : Database) (ops : list store_op) : World :=
  {| db := Some d; oplog := ops |}.

(* ================================================================== *)
(** * schemas.py: Category *)

Module Category.

Record t : Type := {
  slug : string;
  name : string;
  description : option string;
  icon : option string
}.

Section Validate.
Context {RT : Runtime}.

Definition validate (kwargs : dict) : validated t :=
  Valid Build_t
    <*> required "slug" validate_str kwargs
    <*> required "name" validate_str kwargs
    <*> optional "description" validate_optional_str None kwargs
    <*> optional "icon" validate_optional_str None kwargs.

(** Calling [Category] with keyword arguments [kwargs]. *)
Definition new (kwargs : dict) : outcome t := construct (validate kwargs).

End Validate.

Definition optional_str_value (o : option string) : value :=
  match o with
  | Some s => VStr s
  | None => VNone
  end.

#[global] Instance dump : BaseModel t := {
  model_dump c :=
    [("slug", VStr (slug c));
     ("name", VStr (name c));
     ("description", optional_str_value (description c));
     ("icon", optional_str_value (icon c))]
}.

End Category.

(* ================================================================== *)
(** * main.py: the cart item model and the seeding of demo data *)

(** [CartItem]: [product_id: str] and [qty: int = 1]. *)
Definition CartItem_validate {RT : Runtime} (kwargs : dict) : validated Main.CartItem :=
  Valid Main.Build_CartItem
    <*> required "product_id" validate_str kwargs
    <*> optional "qty" validate_int 1 kwargs.

(** Calling [CartItem] with keyword arguments [kwargs]. *)
Definition CartItem_new {RT : Runtime} (kwargs : dict) : outcome Main.CartItem :=
  construct (CartItem_validate kwargs).

(** [d[k] = v] *)
Fixpoint dict_set (k : string) (v : value) (d : dict) : dict :=
  match d with
  | [] => [(k, v)]
  | (k', v') :: rest =>
      if String.eqb k k' then (k, v) :: rest else (k', v') :: dict_set k v rest
  end.

(** The update [{"$set": fields}] applied to a document. *)
Definition dict_update (doc fields : dict) : dict :=
  fold_left (fun acc kv => dict_set (fst kv) (snd kv) acc) fields doc.

(** The collection after the first document matching the filter has been
    updated; [None] when no document matches. *)
Fixpoint update_first (query fields : dict) (docs : list dict) : option (list dict) :=
  match docs with
  | [] => None
  | doc :: rest =>
      if matches query doc then Some (dict_update doc fields :: rest)
      else option_map (cons doc) (update_first query fields rest)
  end.

(** pymongo's [db[name].update_one(query, {"$set": fields}, upsert=True)]:
    the first document matching the filter is updated; when none matches, a
    document made of a new identifier, the fields of the filter and the
    fields set is inserted. Subscripting a [db] that is [None] is a
    [TypeError]. The log of store operations records the operations of the
    catalogue and order paths and is left as it is. *)
Definition update_one_upsert (name : string) (query fields : dict) : M unit :=
  fun w =>
    match db w with
    | None => (Raise TypeError, w)
    | Some d =>
        match update_first query fields (collection d name) with
        | Some docs =>
            (Return tt,
             {| db := Some {| collections := set_collection name docs (collections d);
                              next_oid := next_oid d |};
                oplog := oplog w |})
        | None =>
            let doc := dict_update
                         (("_id", VObjectId (oid_of_counter (next_oid d))) :: query)
                         fields in
            (Return tt,
             {| db := Some {| collections :=
                                set_collection name (collection d name ++ [doc])%list
                                  (collections d);
                              next_oid := (next_oid d + 1)%N |};
                oplog := oplog w |})
        end
    end.

(** pymongo's [list(db[name].find(query).limit(n))]. *)
Definition find_limit (name : string) (query : dict) (n : nat) : M (list dict) :=
  fun w =>
    match db w with
    | None => (Raise TypeError, w)
    | Some d =>
        (Return (firstn n (filter (matches query) (collection d name))),
         log (Find name query (Z.of_nat n)) w)
    end.

(** A list display of constructor calls: they are evaluated in order and
    the first exception is raised. *)
Fixpoint construct_all {A} (calls : list (outcome A)) : outcome (list A) :=
  match calls with
  | [] => Return []
  | Return a :: rest =>
      match construct_all rest with
      | Return l => Return (a :: l)
      | Raise e => Raise e
      end
  | Raise e :: _ => Raise e
  end.

(** The double-quote character. *)
Definition dquote : string := String (ascii_of_N 34) EmptyString.

Definition category_kwargs (slug name description icon : string) : dict :=
  [("slug", VStr slug); ("name", VStr name);
   ("description", VStr description); ("icon", VStr icon)].

(** The keyword arguments of the five categories of [seed_demo]. *)
Definition seed_categories : list dict :=
  [category_kwargs "custom-drones" "Custom Drones"
     "Fully built quads tuned for performance" "drone";
   category_kwargs "frames" "Frames" "Lightweight and durable" "box";
   category_kwargs "motors" "Motors" "High KV, smooth bearings" "cpu";
   category_kwargs "batteries" "Batteries" "High C LiPos" "battery";
   category_kwargs "goggles" "Goggles" "Digital & analog" "eye"].

(** The keyword arguments of the three products of [seed_demo]. *)
Definition seed_products : list dict :=
  [[("title", VStr "FPV 24/7 Raven 5");
    ("description",
     VStr "5-inch freestyle beast with F7 FC, 2207 1950KV motors, tune by pros.");
    ("price", VFloat (PyFloat.nearest false 499 1));
    ("category", VStr "custom-drones");
    ("images",
     VList [VStr "https://images.unsplash.com/photo-1512820790803-83ca734da794?q=80&w=1200&auto=format&fit=crop";
            VStr "https://images.unsplash.com/photo-1484704849700-f032a568e944?q=80&w=1200&auto=format&fit=crop"]);
    ("in_stock", VBool true);
    ("stock_qty", VInt 12);
    ("rating", VFloat (PyFloat.nearest false 49 10));
    ("featured", VBool true);
    ("tags", VList [VStr "freestyle"; VStr "5-inch"; VStr "raven"]);
    ("specs", VDict [("Weight", VStr "410g"); ("Flight Time", VStr "6-8 min");
                     ("Props", VStr ("5" ++ dquote))])];
   [("title", VStr "CineWhoop Mini");
    ("description", VStr "Ducted 3-inch cinematic rig. Ultra stable for indoors.");
    ("price", VFloat (PyFloat.nearest false 389 1));
    ("category", VStr "custom-drones");
    ("images",
     VList [VStr "https://images.unsplash.com/photo-1548438294-1ad5d5f4f063?q=80&w=1200&auto=format&fit=crop"]);
    ("in_stock", VBool true);
    ("stock_qty", VInt 9);
    ("rating", VFloat (PyFloat.nearest false 47 10));
    ("featured", VBool true);
    ("tags", VList [VStr "cinewhoop"; VStr "3-inch"; VStr "ducted"]);
    ("specs", VDict [("Weight", VStr "290g"); ("Flight Time", VStr "5-7 min");
                     ("Props", VStr ("3" ++ dquote))])];
   [("title", VStr "2207 1950KV Pro Motor");
    ("description", VStr "Smooth and powerful. Durable bell, N52H magnets.");
    ("price", VFloat (PyFloat.nearest false 239 10));
    ("category", VStr "motors");
    ("images",
     VList [VStr "https://images.unsplash.com/photo-1601203227133-14f42f67d03a?q=80&w=1200&auto=format&fit=crop"]);
    ("in_stock", VBool true);
    ("stock_qty", VInt 120);
    ("rating", VFloat (PyFloat.nearest false 48 10));
    ("featured", VBool false);
    ("tags", VList [VStr "motor"; VStr "2207"; VStr "1950KV"]);
    ("specs", VDict [("Shaft", VStr "5mm"); ("Stator", VStr "2207");
                     ("KV", VStr "1950")])]].

Definition already_seeded : dict :=
  [("status", VStr "ok"); ("message", VStr "Products already seeded")].

(** The upsert of one category, keyed on its slug. *)
Definition upsert_category (c : Category.t) : M unit :=
  update_one_upsert "category" [("slug", VStr (Category.slug c))] (model_dump c).

(** [POST /seed] *)
Definition seed_demo {RT : Runtime} : M dict :=
  fun w =>
    match db w with
    | None => (Raise (HTTPException 500 "Database not configured"), w)
    | Some _ =>
        (existing <- find_limit "droneproduct" [] 1 ;;
         match existing with
         | _ :: _ => ret already_seeded
         | [] =>
             categories <- lift (construct_all (map Category.new seed_categories)) ;;
             u <- for_each (fun (u : unit) c => upsert_category c) categories tt ;;
             products <- lift (construct_all (map DroneProduct.new seed_products)) ;;
             u <- for_each (fun (u : unit) p =>
                              i <- create_document "droneproduct" p ;; ret tt)
                           products tt ;;
             ret [("status", VStr "ok");
                  ("inserted", VInt (Z.of_nat (List.length products)))]
         end) w
    end.

(* ================================================================== *)
(** * More vocabulary *)

(** The store operations the lookups of a cart amount to: one [find_one]
    for each item whose identifier parses. *)
Definition lookup_log (items : list Main.CartItem) : list store_op :=
  flat_map (fun item =>
              match ObjectIdOps.of_str (Main.product_id item) with
              | Some oid => [FindOne "droneproduct" [("_id", VObjectId oid)]]
              | None => []
              end) items.

(** A cart item with its quantity raised to one when it is below. *)
Definition at_least_one (item : Main.CartItem) : Main.CartItem :=
  {| Main.product_id := Main.product_id item;
     Main.qty := Z.max 1 (Main.qty item) |}.

(** The names of the fields of [DroneProductOut]. *)
Definition product_fields : list string :=
  ["title"; "description"; "price"; "category"; "images"; "in_stock";
   "stock_qty"; "rating"; "featured"; "tags"; "specs"; "id"].

(** A category is stored: the first document of the category collection
    under its slug carries its name, description and icon. *)
Definition category_stored (d : Database) (c : Category.t) : Prop :=
  exists doc,
    find_one d "category" [("slug", VStr (Category.slug c))] = Some doc /\
    dict_get "name" doc = Some (VStr (Category.name c)) /\
    dict_get "description" doc =
      Some (Category.optional_str_value (Category.description c)) /\
    dict_get "icon" doc = Some (Category.optional_str_value (Category.icon c)).

(** A seed product is stored as a document: the document holds every
    keyword argument of the product as it was given, except that each image
    is the URL its string was validated to, and it carries an [ObjectId]. *)
Definition seeded_as {RT : Runtime} (kwargs doc : dict) : Prop :=
  (forall k, k <> "images" -> k <> "_id" -> dict_get k doc = dict_get k kwargs) /\
  (exists oid, dict_get "_id" doc = Some (VObjectId oid)) /\
  (exists urls images,
     dict_get "images" kwargs = Some (VList urls) /\
     dict_get "images" doc = Some (VList images) /\
     Forall2 (fun u i => exists s t, u = VStr s /\ i = VStr t /\ http_url s = Some t)
             urls images).

(** A validation reports the error [err] (a location and an error type). *)
Definition reports_error {A} (v : validated A) (err : error_detail) : Prop :=
  match v with
  | Invalid es => In err es
  | Valid _ => False
  end.

(** A store whose only product has a negative price. *)
Definition oid_refund : string := "65a1f0c2b3d4e5f60718293e".

Definition negative_price_db : Database :=
  {| collections :=
       [("droneproduct",
         [stored_product oid_refund "Trade-in credit" "frames"
            (PyFloat.nearest true 5 1) false])];
     next_oid := 1 |}.

(** A store whose products have identifiers made of decimal digits, which
    read as the integers 101, 102 and 103: a spare motor at 23.90, a prop
    nut at 1.00 and a washer at 0.005. *)
Definition oid_digits : string := "000000000000000000000101".
Definition oid_nut : string := "000000000000000000000102".
Definition oid_washer : string := "000000000000000000000103".

Definition digits_db : Database :=
  {| collections :=
       [("droneproduct",
         [stored_product oid_digits "Spare motor" "motors"
            (PyFloat.nearest false 239 10) false;
          stored_product oid_nut "Prop nut" "frames"
            (PyFloat.nearest false 1 1) false;
          stored_product oid_washer "Washer" "frames"
            (PyFloat.nearest false 5 1000) false])];
     next_oid := 1 |}.

(** A digit of a hexadecimal string in lower case: [0-9] or [a-f]. *)
Definition is_lower_hex (c : ascii) : bool :=
  let n := N_of_ascii c in
  ((48 <=? n)%N && (n <=? 57)%N) || ((97 <=? n)%N && (n <=? 102)%N).

(** Every character of the string satisfies [P]. *)
Fixpoint string_forall (P : ascii -> bool) (s : string) : bool :=
  match s with
  | EmptyString => true
  | String c rest => P c && string_forall P rest
  end.

(** A runtime in which [str] raises on every value [plain_runtime] prints
    as the empty string. *)
Definition raising_str_runtime : Runtime := {|
  float_of_str := @float_of_str plain_runtime;
  str_other := fun _ => None;
  lax_int := @lax_int plain_runtime;
  lax_float := @lax_float plain_runtime;
  lax_bool := @lax_bool plain_runtime;
  lax_str := @lax_str plain_runtime;
  http_url := @http_url plain_runtime
|}.

(** A store whose product documents carry, in turn: an [ObjectId], no
    [_id], the number [0], a string, and a float. *)
Definition odd_ids_db : Database :=
  {| collections :=
       [("droneproduct",
         [stored_product oid_raven "FPV 24/7 Raven 5" "custom-drones"
            (PyFloat.nearest false 499 1) true;
          [("title", VStr "CineWhoop Mini");
           ("price", VFloat (PyFloat.nearest false 389 1));
           ("category", VStr "custom-drones")];
          [("_id", VInt 0);
           ("title", VStr "2207 1950KV Pro Motor");
           ("price", VFloat (PyFloat.nearest false 239 10));
           ("category", VStr "motors")];
          [("_id", VStr "sku-5mm");
           ("title", VStr "Prop nut");
           ("price", VFloat (PyFloat.nearest false 1 1));
           ("category", VStr "frames")];
          [("_id", VFloat (PyFloat.nearest false 15 10));
           ("title", VStr "Washer");
           ("price", VFloat (PyFloat.nearest false 5 1000));
           ("category", VStr "frames")]])];
     next_oid := 1 |}.

(** A store whose second product document carries a field named [id]. *)
Definition clash_db : Database :=
  {| collections :=
       [("droneproduct",
         [stored_product oid_raven "FPV 24/7 Raven 5" "custom-drones"
            (PyFloat.nearest false 499 1) true;
          (stored_product oid_motor "2207 1950KV Pro Motor" "motors"
             (PyFloat.nearest false 239 10) false ++ [("id", VStr "sku-2207")])%list])];
     next_oid := 1 |}.

(* ================================================================== *)
(** * Properties of the monad and of the store *)

Lemma bind_return {A B} (m : M A) (k : A -> M B) (w w' : World) (a : A) :
  m w = (Return a, w') -> bind m k w = k a w'.
Proof. unfold bind; intros ->; reflexivity. Qed.

Lemma bind_raise {A B} (m : M A) (k : A -> M B) (w w' : World) (e : exn) :
  m w = (Raise e, w') -> bind m k w = (Raise e, w').
Proof. unfold bind; intros ->; reflexivity. Qed.

Lemma bind_inv {A B} (m : M A) (k : A -> M B) (w w2 : World) (r : outcome B) :
  bind m k w = (r, w2) ->
  (exists a w1, m w = (Return a, w1) /\ k a w1 = (r, w2)) \/
  (exists e, m w = (Raise e, w2) /\ r = Raise e).
Proof.
  unfold bind. destruct (m w) as [[a|e] w1]; intros H.
  - left; eauto.
  - right; exists e; inversion H; subst; auto.
Qed.

Lemma lift_run {A} (o : outcome A) (w : World) : lift o w = (o, w).
Proof. reflexivity. Qed.

(** A document found under an [_id] filter is not empty. *)
Lemma find_one_id_nonempty (d : Database) (name : string) (v : value) (doc : dict) :
  find_one d name [("_id", v)] = Some doc -> doc <> [].
Proof.
  unfold find_one; intros H.
  apply find_some in H as [_ H].
  destruct doc; [discriminate H | discriminate].
Qed.

Lemma resolve_nonempty (d : Database) (pid : string) (doc : dict) :
  resolve d pid = Some doc -> doc <> [].
Proof.
  unfold resolve. destruct (ObjectIdOps.of_str pid); [|discriminate].
  apply find_one_id_nonempty.
Qed.

Lemma resolve_stored (d : Database) (pid : string) (doc : dict) :
  resolve d pid = Some doc -> In doc (collection d "droneproduct").
Proof.
  unfold resolve, find_one. destruct (ObjectIdOps.of_str pid); [|discriminate].
  intros H; apply find_some in H; tauto.
Qed.

Section HandlerFacts.
Context {RT : Runtime}.

(** The lookup of a cart item on a configured store is [resolve]. *)
Lemma lookup_product_resolve (d : Database) (ops : list store_op) (pid : string) :
  exists ops',
    Main.lookup_product pid (world_of d ops) = (Return (resolve d pid), world_of d ops') /\
    (forall op, In op ops' -> In op ops \/ is_write op = false).
Proof.
  unfold Main.lookup_product, resolve, world_of; simpl.
  destruct (ObjectIdOps.of_str pid) as [oid|].
  - eexists; split; [reflexivity|].
    unfold log; simpl. intros op Hin. apply in_app_or in Hin as [Hin|[<-|[]]]; auto.
  - exists ops; split; [reflexivity|auto].
Qed.

Lemma not_doc_resolve (d : Database) (pid : string) :
  Main.not_doc (resolve d pid) = match resolve d pid with Some _ => false | None => true end.
Proof.
  destruct (resolve d pid) as [doc|] eqn:E; [|reflexivity].
  apply resolve_nonempty in E. destruct doc; [congruence|reflexivity].
Qed.

(** One turn of the loop of [create_order] on a configured store. *)
Lemma add_line_run (d : Database) (ops : list store_op) (total : PyFloat.float)
    (item : Main.CartItem) :
  exists ops',
    (forall op, In op ops' -> In op ops \/ is_write op = false) /\
    Main.add_line total item (world_of d ops) =
      (match resolve d (Main.product_id item) with
       | None => Raise (Main.not_found (Main.product_id item))
       | Some doc =>
           match Main.py_float (dict_get_default "price" (VInt 0) doc) with
           | Raise e => Raise e
           | Return p =>
               match Main.mul_int p (Z.max 1 (Main.qty item)) with
               | Raise e => Raise e
               | Return line => Return (PyFloat.add total line)
               end
           end
       end, world_of d ops').
Proof.
  destruct (lookup_product_resolve d ops (Main.product_id item)) as (ops' & Hl & Hops).
  exists ops'; split; [exact Hops|].
  unfold Main.add_line.
  rewrite (bind_return _ _ _ _ _ Hl).
  rewrite not_doc_resolve.
  destruct (resolve d (Main.product_id item)) as [doc|]; [|reflexivity].
  unfold bind, lift, ret.
  destruct (Main.py_float _) as [p|e]; [|reflexivity].
  destruct (Main.mul_int _ _) as [line|e]; reflexivity.
Qed.

End HandlerFacts.

Section OrderFacts.
Context {RT : Runtime}.

(** The loop over a cart of priced items accumulates the line values. *)
Lemma for_each_add_line_priced (d : Database) (items : list Main.CartItem)
    (lines : list (PyFloat.float * PyFloat.float)) :
  Forall2 (priced d) items lines ->
  forall (acc : PyFloat.float) (ops : list store_op),
  exists ops',
    (forall op, In op ops' -> In op ops \/ is_write op = false) /\
    for_each Main.add_line items acc (world_of d ops) =
      (Return (fold_left PyFloat.add (map line_value lines) acc), world_of d ops').
Proof.
  induction 1 as [|item line items lines Hp _ IH]; intros acc ops.
  - exists ops; split; [auto|reflexivity].
  - destruct Hp as (doc & Hres & Hprice & Hqty).
    destruct (add_line_run d ops acc item) as (ops1 & Hops1 & Hrun).
    rewrite Hres, Hprice in Hrun. unfold Main.mul_int in Hrun. rewrite Hqty in Hrun.
    destruct (IH (PyFloat.add acc (line_value line)) ops1) as (ops2 & Hops2 & Hrest).
    exists ops2; split.
    + intros op Hin. destruct (Hops2 op Hin) as [Hin1|]; auto.
    + simpl. rewrite (bind_return _ _ _ _ _ Hrun). exact Hrest.
Qed.

(** The loop never changes the database, whatever it returns. *)
Lemma for_each_add_line_db (items : list Main.CartItem) :
  forall (acc : PyFloat.float) (w w' : World) (r : outcome PyFloat.float),
  for_each Main.add_line items acc w = (r, w') ->
  db w' = db w /\
  (forall op, In op (oplog w') -> In op (oplog w) \/ is_write op = false).
Proof.
  assert (Hlook : forall pid w r w', Main.lookup_product pid w = (r, w') ->
            db w' = db w /\
            (forall op, In op (oplog w') -> In op (oplog w) \/ is_write op = false)).
  { intros pid w r w'. unfold Main.lookup_product.
    destruct (db w) as [d|] eqn:Ed.
    - destruct (ObjectIdOps.of_str pid).
      + intros H; inversion H; subst; simpl. split; [auto|].
        intros op Hin. apply in_app_or in Hin as [Hin|[<-|[]]]; auto.
      + intros H; inversion H; subst; auto.
    - intros H; inversion H; subst; auto. }
  assert (Hline : forall acc item w r w', Main.add_line acc item w = (r, w') ->
            db w' = db w /\
            (forall op, In op (oplog w') -> In op (oplog w) \/ is_write op = false)).
  { intros acc item w r w' H. unfold Main.add_line in H.
    apply bind_inv in H as [(doc & w1 & Hl & Hk)|(e & Hl & _)];
      [|eapply Hlook; eauto].
    apply Hlook in Hl.
    assert (w' = w1); [|subst; exact Hl].
    destruct (Main.not_doc doc).
    - inversion Hk; auto.
    - unfold bind, lift, ret in Hk.
      destruct (Main.py_float _); [|inversion Hk; auto].
      destruct (Main.mul_int _ _); inversion Hk; auto. }
  induction items as [|item items IH]; intros acc w w' r H.
  - inversion H; subst; auto.
  - simpl in H. apply bind_inv in H as [(a & w1 & H1 & H2)|(e & H1 & _)].
    + apply Hline in H1 as [Hd1 Ho1]. apply IH in H2 as [Hd2 Ho2].
      split; [congruence|].
      intros op Hin. destruct (Ho2 op Hin) as [Hin1|]; auto.
    + eapply Hline; eauto.
Qed.

(** What the [Order] constructor makes of the arguments of [create_order]. *)
Lemma order_new_inv (payload : Main.CreateOrderRequest) (t : PyFloat.float)
    (o : Order.t) :
  Order.new (Main.order_kwargs payload t) = Return o ->
  Order.email o = Main.email payload /\
  Order.total o = PyFloat.round2 t /\
  Order.status o = "pending" /\
  PyFloat.leb PyFloat.f0 (PyFloat.round2 t) = true.
Proof.
  unfold Order.new, Order.validate, Main.order_kwargs, required, optional.
  cbn [dict_get String.eqb Ascii.eqb Bool.eqb fst snd].
  cbn [validate_str validate_float v_bind].
  unfold ge_float.
  destruct (validate_list _ _ _) as [its|es];
    destruct (PyFloat.leb PyFloat.f0 (PyFloat.round2 t)); cbn; intros H;
    inversion H; subst; cbn; auto.
Qed.

Lemma create_document_run {A} {BM : BaseModel A} (d : Database)
    (ops : list store_op) (name : string) (data : A) :
  let oid := oid_of_counter (next_oid d) in
  let doc := (model_dump data ++ [("_id", VObjectId oid)])%list in
  create_document name data (world_of d ops) =
    if document_encodable (model_dump data)
    then (Return (ObjectIdOps.to_str oid),
          world_of {| collections := set_collection name (collection d name ++ [doc])%list
                                       (collections d);
                      next_oid := (next_oid d + 1)%N |}
                   (ops ++ [InsertOne name doc])%list)
    else (Raise OverflowError, world_of d ops).
Proof. reflexivity. Qed.

Lemma collection_set_same (cs : list (string * list dict)) (name : string)
    (docs : list dict) (n : N) :
  collection {| collections := set_collection name docs cs; next_oid := n |} name = docs.
Proof.
  unfold collection; simpl.
  induction cs as [|[k ds] cs IH]; simpl.
  - rewrite String.eqb_refl; reflexivity.
  - destruct (String.eqb name k) eqn:E; simpl; rewrite E; auto.
Qed.

Lemma collection_set_other (cs : list (string * list dict)) (name other : string)
    (docs : list dict) (n m : N) :
  other <> name ->
  collection {| collections := set_collection name docs cs; next_oid := n |} other =
  collection {| collections := cs; next_oid := m |} other.
Proof.
  intros Hne. unfold collection; simpl.
  induction cs as [|[k ds] cs IH]; simpl.
  - destruct (String.eqb other name) eqn:E; [apply String.eqb_eq in E; congruence|reflexivity].
  - destruct (String.eqb name k) eqn:E; simpl.
    + apply String.eqb_eq in E; subst k.
      destruct (String.eqb other name) eqn:E'; [apply String.eqb_eq in E'; congruence|reflexivity].
    + destruct (String.eqb other k); auto.
Qed.

End OrderFacts.

(* ================================================================== *)
(** * The order total *)

Lemma digits2_pos_iter_xO (m n : positive) :
  Z.pos (digits2_pos (Pos.iter xO m n)) = Z.pos (digits2_pos m) + Z.pos n.
Proof.
  induction n using Pos.peano_ind.
  - simpl. lia.
  - rewrite Pos.iter_succ. cbn [digits2_pos]. rewrite Pos2Z.inj_succ, IHn. lia.
Qed.

(** [x * 1.0] is [x]. *)
Lemma mul_one (x : PyFloat.float) :
  PyFloat.valid x = true -> PyFloat.mul x PyFloat.f1 = x.
Proof.
  unfold PyFloat.valid, PyFloat.mul, PyFloat.f1.
  destruct x as [s|s| |s m e]; simpl; intros Hv.
  - destruct s; reflexivity.
  - destruct s; reflexivity.
  - reflexivity.
  - unfold bounded, canonical_mantissa in Hv.
    apply andb_true_iff in Hv as [Hc He].
    apply Z.eqb_eq in Hc.
    rewrite xorb_false_r.
    change (Pos.mul m 4503599627370496) with (Pos.mul m (Pos.iter xO 1%positive 52)).
    rewrite Pos.mul_comm.
    change (Pos.mul (Pos.iter xO 1%positive 52) m) with (Pos.iter xO m 52).
    unfold binary_round_aux, shr_fexp.
    cbn [Zdigits2].
    rewrite digits2_pos_iter_xO.
    replace (Z.pos (digits2_pos m) + 52 + (e + -52)) with (Z.pos (digits2_pos m) + e)
      by lia.
    match goal with |- context [fexp _ _ ?a - (e + -52)] =>
      replace (fexp PyFloat.prec PyFloat.emax a) with e by (symmetry; exact Hc) end.
    replace (e - (e + -52)) with 52 by lia.
    cbn [Pos.iter shr shr_record_of_loc iter_pos shr_1 fst snd orb].
    replace (e + -52 + 52) with e by lia.
    cbn [round_nearest_even loc_of_shr_record shr_m Zdigits2].
    match goal with |- context [fexp _ _ ?a - e] =>
      replace (fexp PyFloat.prec PyFloat.emax a) with e by (symmetry; exact Hc) end.
    rewrite Z.sub_diag. cbn [shr shr_record_of_loc shr_m].
    match goal with |- (if ?c then _ else _) = _ =>
      replace c with true by (symmetry; exact He) end.
    reflexivity.
Qed.

(** [div_half_even a b] is an integer nearest to [a / b], and the even one
    when [a / b] lies half-way between two integers. *)
Lemma div_half_even_spec (a b : Z) :
  0 < b ->
  2 * Z.abs (a - PyFloat.div_half_even a b * b) <= b /\
  (2 * Z.abs (a - PyFloat.div_half_even a b * b) = b ->
   Z.even (PyFloat.div_half_even a b) = true).
Proof.
  intros Hb. unfold PyFloat.div_half_even.
  pose proof (Z.div_mod a b ltac:(lia)) as Hdm.
  pose proof (Z.mod_pos_bound a b Hb) as Hr.
  set (q := a / b) in *. set (r := a mod b) in *. clearbody q r.
  destruct (2 * r ?= b)%Z eqn:E; cbv beta iota.
  - apply Z.compare_eq in E.
    destruct (Z.even q) eqn:Ev; cbv beta iota.
    + split; [|auto]. replace (a - q * b) with r by lia. lia.
    + split.
      * replace (a - (q + 1) * b) with (r - b) by lia. lia.
      * intros _. rewrite Z.even_add, Ev. reflexivity.
  - rewrite Z.compare_lt_iff in E.
    replace (a - q * b) with r by lia. split; [lia|intros; exfalso; lia].
  - rewrite Z.compare_gt_iff in E.
    replace (a - (q + 1) * b) with (r - b) by lia. split; [lia|intros; exfalso; lia].
Qed.

Lemma scaled_cents_nonneg (m : positive) (e : Z) : 0 <= PyFloat.scaled_cents m e.
Proof.
  unfold PyFloat.scaled_cents. destruct e as [|k|k].
  - lia.
  - pose proof (Z.pow_pos_nonneg 2 (Z.pos k)). lia.
  - unfold PyFloat.div_half_even.
    assert (Hb : 0 < Z.pow_pos 2 k)
      by (rewrite Z.pow_pos_fold; apply Z.pow_pos_nonneg; lia).
    pose proof (Z.div_pos (100 * Z.pos m) (Z.pow_pos 2 k) ltac:(lia) Hb).
    destruct (_ ?= _)%Z; [destruct (Z.even _)| |]; lia.
Qed.

(** The distance of a hundred times [m / b] to the integer [k], as a
    fraction of integers. *)
Lemma Qabs_cents (s : bool) (m b : positive) (k : Z) :
  (Qabs (100 * (if s then - (Zpos m # b) else Zpos m # b)
         - inject_Z (if s then (- k)%Z else k)) ==
   Z.abs (100 * Zpos m - k * Zpos b) # b)%Q.
Proof.
  destruct s.
  - unfold Qeq, Qabs, Qminus, Qplus, Qmult, Qopp, inject_Z. cbn [Qnum Qden].
    rewrite !Pos.mul_1_r, !Pos.mul_1_l.
    replace (100 * - Z.pos m * 1 + - - k * Z.pos b)
      with (- (100 * Z.pos m - k * Z.pos b)) by lia.
    rewrite Z.abs_opp. reflexivity.
  - unfold Qeq, Qabs, Qminus, Qplus, Qmult, Qopp, inject_Z. cbn [Qnum Qden].
    rewrite !Pos.mul_1_r, !Pos.mul_1_l.
    replace (100 * Z.pos m * 1 + - k * Z.pos b)
      with (100 * Z.pos m - k * Z.pos b) by lia.
    reflexivity.
Qed.

Lemma rounded_to_cents_of (s : bool) (m b : positive) (k : Z) (r : PyFloat.float) :
  0 <= k ->
  2 * Z.abs (100 * Zpos m - k * Zpos b) <= Zpos b ->
  (2 * Z.abs (100 * Zpos m - k * Zpos b) = Zpos b -> Z.even k = true) ->
  r = match k with
      | Zpos p => PyFloat.nearest s p 100
      | _ => S754_zero s
      end ->
  rounded_to_cents (if s then - (Zpos m # b) else Zpos m # b) r.
Proof.
  intros Hk Hle Htie Hr.
  exists (if s then - k else k).
  pose proof (Qabs_cents s m b k) as Habs.
  split; [|split].
  - rewrite Habs. unfold Qle; cbn [Qnum Qden]. lia.
  - rewrite Habs. unfold Qeq; cbn [Qnum Qden]. intros Heq.
    assert (Hev : Z.even k = true) by (apply Htie; lia).
    destruct s; [rewrite Z.even_opp|]; exact Hev.
  - destruct k as [|p|p]; [| |lia].
    + destruct s; cbn [Z.opp]; eauto.
    + destruct s; cbn [Z.opp]; exact Hr.
Qed.

Lemma round2_exact_aux (x : PyFloat.float) :
  match PyFloat.exact x with
  | Some v => rounded_to_cents v (PyFloat.round2 x)
  | None => True
  end.
Proof.
  destruct x as [s|s| |s m e]; unfold PyFloat.exact, PyFloat.round2; auto.
  - exists 0. split; [|split].
    + unfold Qle; cbn. lia.
    + unfold Qeq; cbn. lia.
    + exists s; reflexivity.
  - pose proof (scaled_cents_nonneg m e) as Hk.
    destruct e as [|k|k].
    + replace (Z.pos m * 2 ^ 0) with (Z.pos m) by lia.
      change (inject_Z (Z.pos m)) with (Z.pos m # 1).
      apply (rounded_to_cents_of s m 1 (PyFloat.scaled_cents m 0)); auto;
        unfold PyFloat.scaled_cents; try lia.
    + assert (Hpow : Z.pos m * 2 ^ Z.pos k = Z.pos (m * 2 ^ k)).
      { rewrite Pos2Z.inj_mul, Pos2Z.inj_pow. reflexivity. }
      rewrite Hpow.
      change (inject_Z (Z.pos (m * 2 ^ k))) with (Z.pos (m * 2 ^ k) # 1).
      apply (rounded_to_cents_of s (m * 2 ^ k) 1 (PyFloat.scaled_cents m (Z.pos k)));
        auto; unfold PyFloat.scaled_cents; rewrite <- ?Hpow; try lia.
    + assert (Hb : Z.pow_pos 2 k = Z.pos (2 ^ k)).
      { rewrite Pos2Z.inj_pow. reflexivity. }
      pose proof (div_half_even_spec (100 * Z.pos m) (Z.pos (2 ^ k)) ltac:(lia))
        as [Hle Htie].
      apply (rounded_to_cents_of s m (2 ^ k) (PyFloat.scaled_cents m (Z.neg k)));
        auto; unfold PyFloat.scaled_cents; rewrite Hb; auto.
Qed.

(** [round(x, 2)] is the exact value of [x] rounded to two decimal places,
    ties to even. *)
Lemma round2_exact (x : PyFloat.float) (v : Q) :
  PyFloat.exact x = Some v -> rounded_to_cents v (PyFloat.round2 x).
Proof.
  intros H. pose proof (round2_exact_aux x) as Haux. rewrite H in Haux. exact Haux.
Qed.

(** When the loop returns, every item of the cart was priced, and the value
    returned is the sum of the lines. *)
Lemma for_each_add_line_returns {RT : Runtime} (d : Database)
    (items : list Main.CartItem) :
  forall (acc : PyFloat.float) (ops : list store_op) (t : PyFloat.float) (w' : World),
  for_each Main.add_line items acc (world_of d ops) = (Return t, w') ->
  exists lines,
    Forall2 (priced d) items lines /\
    t = fold_left PyFloat.add (map line_value lines) acc.
Proof.
  induction items as [|item items IH]; intros acc ops t w' H.
  - inversion H; subst. exists []; split; [constructor|reflexivity].
  - cbn [for_each] in H.
    destruct (add_line_run d ops acc item) as (ops1 & _ & Hrun).
    destruct (resolve d (Main.product_id item)) as [doc|] eqn:Eres;
      [|rewrite (bind_raise _ _ _ _ _ Hrun) in H; discriminate].
    destruct (Main.py_float (dict_get_default "price" (VInt 0) doc)) as [p|e] eqn:Ep;
      [|rewrite (bind_raise _ _ _ _ _ Hrun) in H; discriminate].
    unfold Main.mul_int in Hrun.
    destruct (PyFloat.of_int (Z.max 1 (Main.qty item))) as [g|] eqn:Eq;
      [|rewrite (bind_raise _ _ _ _ _ Hrun) in H; discriminate].
    rewrite (bind_return _ _ _ _ _ Hrun) in H.
    apply IH in H as (lines & Hlines & Ht).
    exists ((p, g) :: lines). split; [|exact Ht].
    constructor; [|exact Hlines].
    exists doc. auto.
Qed.

(** C1, amended. For a cart all of whose items resolve to stored products
    (with a price that reads as a float, and a quantity that fits one), the
    loop of [create_order] ends with the binary64 sum, accumulated in cart
    order from [0.0], of the stored unit price times [max(1, qty)], each
    product being a binary64 product; the total handed to the [Order] is
    that sum rounded to two decimal places (its exact value brought to the
    nearest hundredth, ties to even, and that decimal to the nearest
    double); it is the total of the order document whenever one is
    persisted; and a quantity of zero or less counts as one unit: its line
    is worth the unit price. Conversely the loop returns a total for priced
    carts only. *)
Theorem create_order_total {RT : Runtime} (d : Database) (ops : list store_op)
    (payload : Main.CreateOrderRequest) :
  (forall lines : list (PyFloat.float * PyFloat.float),
     Forall2 (priced d) (Main.items payload) lines ->
     (exists ops',
        Main.order_total (Main.items payload) (world_of d ops) =
          (Return (float_sum (map line_value lines)), world_of d ops')) /\
     dict_get "total"
       (Main.order_kwargs payload (float_sum (map line_value lines))) =
       Some (VFloat (spec_total lines)) /\
     (forall v,
        PyFloat.exact (float_sum (map line_value lines)) = Some v ->
        rounded_to_cents v (spec_total lines)) /\
     (forall resp w',
        Main.create_order payload (world_of d ops) = (Return resp, w') ->
        exists d' doc,
          db w' = Some d' /\
          collection d' "order" = (collection d "order" ++ [doc])%list /\
          dict_get "total" doc = Some (VFloat (spec_total lines))) /\
     Forall2 (fun item line =>
                Main.qty item <= 0 ->
                snd line = PyFloat.f1 /\
                (PyFloat.valid (fst line) = true -> line_value line = fst line))
             (Main.items payload) lines) /\
  (forall t w',
     Main.order_total (Main.items payload) (world_of d ops) = (Return t, w') ->
     exists lines,
       Forall2 (priced d) (Main.items payload) lines /\
       t = float_sum (map line_value lines)).
Proof.
  split.
  2:{ intros t w' H. unfold Main.order_total in H.
      apply for_each_add_line_returns in H. exact H. }
  intros lines Hp.
  destruct (for_each_add_line_priced d _ _ Hp PyFloat.f0 ops) as (ops1 & Hops1 & Hloop).
  fold (float_sum (map line_value lines)) in Hloop.
  split; [exists ops1; exact Hloop|].
  split; [reflexivity|].
  split; [intros v Hv; apply round2_exact; exact Hv|].
  split.
  - intros resp w' Hrun. unfold Main.create_order in Hrun.
    unfold Main.order_total in Hloop.
    unfold Main.order_total in Hrun.
    rewrite (bind_return _ _ _ _ _ Hloop) in Hrun.
    destruct (Order.new (Main.order_kwargs payload (float_sum (map line_value lines))))
      as [o|e] eqn:Enew.
    + rewrite (bind_return _ _ _ _ _ (lift_run (Return o) _)) in Hrun.
      pose proof (create_document_run d ops1 "order" o) as Hins. cbv zeta in Hins.
      destruct (document_encodable (model_dump o));
        [|rewrite (bind_raise _ _ _ _ _ Hins) in Hrun; discriminate].
      rewrite (bind_return _ _ _ _ _ Hins) in Hrun.
      inversion Hrun; subst; clear Hrun.
      apply order_new_inv in Enew as (_ & Htot & _).
      eexists; eexists; split; [reflexivity|]. split.
      * apply collection_set_same.
      * simpl. rewrite Htot. reflexivity.
    + rewrite (bind_raise _ _ _ _ _ (lift_run (Raise e) _)) in Hrun. discriminate.
  - clear Hloop. induction Hp as [|item line items lines (doc & _ & _ & Hq) _ IH];
      constructor; auto.
    intros Hle.
    rewrite Z.max_l in Hq by lia.
    change (PyFloat.of_int 1) with (Some PyFloat.f1) in Hq.
    assert (Hn : snd line = PyFloat.f1) by congruence.
    split; [exact Hn|].
    intros Hvalid. unfold line_value. rewrite Hn. apply mul_one, Hvalid.
Qed.

(** Three spare motors at 23.90 and a prop nut at 1.00 ordered with the
    quantity 0: the loop ends with 72.69999999999999, the nut counting as
    one unit, and the order is persisted with the total 72.7. *)
Lemma create_order_total_witness :
  let payload :=
    {| Main.email := "pilot@example.com";
       Main.items := [ {| Main.product_id := oid_digits; Main.qty := 3 |};
                       {| Main.product_id := oid_nut; Main.qty := 0 |} ] |} in
  Forall2 (@priced plain_runtime digits_db) (Main.items payload)
    [ (PyFloat.nearest false 239 10, PyFloat.nearest false 3 1);
      (PyFloat.nearest false 1 1, PyFloat.nearest false 1 1) ] /\
  (exists ops',
     @Main.order_total plain_runtime (Main.items payload) (world_of digits_db []) =
     (Return (PyFloat.nearest false 7269999999999999 100000000000000),
      world_of digits_db ops')) /\
  (exists resp w' d' doc,
     @Main.create_order plain_runtime payload (world_of digits_db []) =
       (Return resp, w') /\
     db w' = Some d' /\
     collection d' "order" = (collection digits_db "order" ++ [doc])%list /\
     dict_get "total" doc = Some (VFloat (PyFloat.nearest false 727 10))).
Proof.
  cbv zeta.
  assert (H : Forall2 (@priced plain_runtime digits_db)
    [ {| Main.product_id := oid_digits; Main.qty := 3 |};
      {| Main.product_id := oid_nut; Main.qty := 0 |} ]
    [ (PyFloat.nearest false 239 10, PyFloat.nearest false 3 1);
      (PyFloat.nearest false 1 1, PyFloat.nearest false 1 1) ]).
  { repeat constructor.
    - eexists; split; [vm_compute; reflexivity|]. split; vm_compute; reflexivity.
    - eexists; split; [vm_compute; reflexivity|]. split; vm_compute; reflexivity. }
  split; [exact H|].
  destruct (proj1 (@create_order_total plain_runtime digits_db []
              {| Main.email := "pilot@example.com";
                 Main.items := [ {| Main.product_id := oid_digits; Main.qty := 3 |};
                                 {| Main.product_id := oid_nut; Main.qty := 0 |} ] |})
              _ H) as ((ops' & Hloop) & _ & _ & Hpersist & _).
  split.
  - exists ops'. rewrite Hloop. vm_compute. reflexivity.
  - assert (Hrun : exists resp w',
               @Main.create_order plain_runtime
                 {| Main.email := "pilot@example.com";
                    Main.items := [ {| Main.product_id := oid_digits; Main.qty := 3 |};
                                    {| Main.product_id := oid_nut; Main.qty := 0 |} ] |}
                 (world_of digits_db []) = (Return resp, w'))
      by (eexists; eexists; vm_compute; reflexivity).
    destruct Hrun as (resp & w' & Hrun).
    destruct (Hpersist resp w' Hrun) as (d' & doc & Hdb & Hcoll & Htot).
    exists resp, w', d', doc.
    split; [exact Hrun|]. split; [exact Hdb|]. split; [exact Hcoll|].
    rewrite Htot. vm_compute. reflexivity.
Defined.

(** C1, as stated, fails when the sum is the sum of the prices: a prop nut
    at 1.00 and a washer at 0.005 add up to more than 1.005 (the double
    that stands for 0.005 lies above it), which rounds to 1.01; the loop
    adds them in binary64 to the double below 1.005, and the order is
    persisted with the total 1.0. *)
Lemma create_order_total_not_exact :
  let payload :=
    {| Main.email := "pilot@example.com";
       Main.items := [ {| Main.product_id := oid_nut; Main.qty := 1 |};
                       {| Main.product_id := oid_washer; Main.qty := 1 |} ] |} in
  let lines :=
    [ (PyFloat.nearest false 1 1, PyFloat.nearest false 1 1);
      (PyFloat.nearest false 5 1000, PyFloat.nearest false 1 1) ] in
  Forall2 (@priced plain_runtime digits_db) (Main.items payload) lines /\
  (exists resp w' d' doc,
     @Main.create_order plain_runtime payload (world_of digits_db []) =
       (Return resp, w') /\
     db w' = Some d' /\
     collection d' "order" = [doc] /\
     dict_get "total" doc = Some (VFloat PyFloat.f1)) /\
  (exists v,
     exact_sum lines = Some v /\
     rounded_to_cents v (PyFloat.nearest false 101 100) /\
     ~ rounded_to_cents v PyFloat.f1).
Proof.
  cbv zeta. split; [|split].
  - repeat constructor.
    + eexists; split; [vm_compute; reflexivity|]. split; vm_compute; reflexivity.
    + eexists; split; [vm_compute; reflexivity|]. split; vm_compute; reflexivity.
  - eexists; eexists; eexists; eexists.
    split; [vm_compute; reflexivity|].
    split; [reflexivity|]. split; [vm_compute; reflexivity|]. vm_compute; reflexivity.
  - eexists. split; [vm_compute; reflexivity|]. split.
    + exists 101. split; [|split].
      * vm_compute. discriminate.
      * intros H. vm_compute in H. discriminate.
      * reflexivity.
    + intros (n & Hle & _ & Hr).
      unfold Qle, Qabs, Qminus, Qplus, Qmult, Qopp, inject_Z in Hle.
      cbn [Qnum Qden] in Hle.
      assert (Hn : n = 101) by lia.
      subst n. vm_compute in Hr. discriminate.
Qed.

(* ================================================================== *)
(** * Unresolved products *)

Lemma resolve_malformed (d : Database) (pid : string) :
  ObjectIdOps.of_str pid = None -> resolve d pid = None.
Proof. unfold resolve; intros ->; reflexivity. Qed.

(** The loop over a cart holding an unresolved item raises, and raises the
    not-found error of that item when the items before it are priced. *)
Lemma for_each_add_line_unresolved {RT : Runtime} (d : Database)
    (bad : Main.CartItem) (post : list Main.CartItem) :
  resolve d (Main.product_id bad) = None ->
  forall (pre : list Main.CartItem) (acc : PyFloat.float) (ops : list store_op),
  exists e ops',
    for_each Main.add_line (pre ++ bad :: post) acc (world_of d ops) =
      (Raise e, world_of d ops') /\
    (forall op, In op ops' -> In op ops \/ is_write op = false) /\
    (forall lines, Forall2 (priced d) pre lines ->
                   e = Main.not_found (Main.product_id bad)).
Proof.
  intros Hbad. induction pre as [|item pre IH]; intros acc ops.
  - destruct (add_line_run d ops acc bad) as (ops1 & Hops1 & Hrun).
    rewrite Hbad in Hrun.
    exists (Main.not_found (Main.product_id bad)), ops1.
    split; [|split; auto].
    simpl. rewrite (bind_raise _ _ _ _ _ Hrun). reflexivity.
  - destruct (add_line_run d ops acc item) as (ops1 & Hops1 & Hrun).
    destruct (resolve d (Main.product_id item)) as [doc|] eqn:Eres.
    + destruct (Main.py_float (dict_get_default "price" (VInt 0) doc)) as [p|e] eqn:Ep.
      * destruct (Main.mul_int p (Z.max 1 (Main.qty item))) as [line|e] eqn:Em.
        -- destruct (IH (PyFloat.add acc line) ops1) as (e & ops2 & Hrest & Hops2 & Hnamed).
           exists e, ops2. split; [|split].
           ++ simpl. rewrite (bind_return _ _ _ _ _ Hrun). exact Hrest.
           ++ intros op Hin. destruct (Hops2 op Hin); auto.
           ++ intros lines Hl. inversion Hl; subst. eauto.
        -- exists e, ops1. split; [|split; auto].
           ++ simpl. rewrite (bind_raise _ _ _ _ _ Hrun). reflexivity.
           ++ intros lines Hl. inversion Hl as [|? line ? ? (doc' & Hr & Hp & Hq)]; subst.
              rewrite Eres in Hr; inversion Hr; subst doc'.
              rewrite Ep in Hp; inversion Hp; subst p.
              unfold Main.mul_int in Em. rewrite Hq in Em. discriminate.
      * exists e, ops1. split; [|split; auto].
        -- simpl. rewrite (bind_raise _ _ _ _ _ Hrun). reflexivity.
        -- intros lines Hl. inversion Hl as [|? line ? ? (doc' & Hr & Hp & Hq)]; subst.
           rewrite Eres in Hr; inversion Hr; subst doc'.
           rewrite Ep in Hp; discriminate.
    + exists (Main.not_found (Main.product_id item)), ops1. split; [|split; auto].
      * simpl. rewrite (bind_raise _ _ _ _ _ Hrun). reflexivity.
      * intros lines Hl. inversion Hl as [|? line ? ? (doc' & Hr & _)]; subst.
        rewrite Eres in Hr; discriminate.
Qed.

(** C3, amended. For a cart containing a [product_id] that does not
    resolve (a malformed identifier does not), [create_order] raises and
    leaves the database as it was, performing no write; when the items
    before the unresolved one are priced (so that it is the first
    unresolved one, and no earlier item fails on its price or quantity),
    the exception is the 404 naming that [product_id]. *)
Theorem create_order_unresolved {RT : Runtime} (d : Database) (ops : list store_op)
    (payload : Main.CreateOrderRequest)
    (pre post : list Main.CartItem) (bad : Main.CartItem) :
  Main.items payload = (pre ++ bad :: post)%list ->
  resolve d (Main.product_id bad) = None ->
  exists e ops',
    Main.create_order payload (world_of d ops) = (Raise e, world_of d ops') /\
    (forall op, In op ops' -> In op ops \/ is_write op = false) /\
    (forall lines,
       Forall2 (priced d) pre lines ->
       e = HTTPException 404 ("Product " ++ Main.product_id bad ++ " not found")).
Proof.
  intros Hitems Hbad.
  destruct (for_each_add_line_unresolved d bad post Hbad pre PyFloat.f0 ops)
    as (e & ops' & Hrun & Hops & Hnamed).
  exists e, ops'. split; [|split; auto].
  unfold Main.create_order, Main.order_total. rewrite Hitems.
  rewrite (bind_raise _ _ _ _ _ Hrun). reflexivity.
Qed.

(** A cart whose second item carries a malformed identifier. *)
Lemma create_order_unresolved_witness :
  resolve demo_db "not-an-object-id" = None /\
  exists ops',
    @Main.create_order plain_runtime
      {| Main.email := "pilot@example.com";
         Main.items := [ {| Main.product_id := oid_raven; Main.qty := 1 |};
                         {| Main.product_id := "not-an-object-id"; Main.qty := 3 |} ] |}
      (world_of demo_db []) =
    (Raise (HTTPException 404 "Product not-an-object-id not found"),
     world_of demo_db ops').
Proof.
  split; [reflexivity|].
  destruct (@create_order_unresolved plain_runtime demo_db []
              {| Main.email := "pilot@example.com";
                 Main.items := [ {| Main.product_id := oid_raven; Main.qty := 1 |};
                                 {| Main.product_id := "not-an-object-id"; Main.qty := 3 |} ] |}
              [ {| Main.product_id := oid_raven; Main.qty := 1 |} ] []
              {| Main.product_id := "not-an-object-id"; Main.qty := 3 |}
              eq_refl eq_refl) as (e & ops' & Hrun & _ & Hnamed).
  exists ops'.
  rewrite (Hnamed [(PyFloat.nearest false 499 1, PyFloat.nearest false 1 1)]) in Hrun.
  - exact Hrun.
  - repeat constructor.
    eexists; split; [vm_compute; reflexivity|]. split; vm_compute; reflexivity.
Defined.

(** C3, as stated, fails in two ways. An item before the unresolved one
    that cannot be priced raises its own error: a Raven ordered [10^400]
    times makes [float] of the quantity overflow, and the cart is answered
    [OverflowError], not 404. And of two unresolved identifiers the first
    only is named: the 404 for the cart of [aaa] and [bbb] does not name
    [bbb]. *)
Lemma create_order_unresolved_not_named :
  resolve demo_db "not-an-object-id" = None /\
  (exists ops',
     @Main.create_order plain_runtime
       {| Main.email := "pilot@example.com";
          Main.items := [ {| Main.product_id := oid_raven; Main.qty := 10 ^ 400 |};
                          {| Main.product_id := "not-an-object-id"; Main.qty := 1 |} ] |}
       (world_of demo_db []) =
     (Raise OverflowError, world_of demo_db ops')) /\
  resolve demo_db "bbb" = None /\
  (exists ops',
     @Main.create_order plain_runtime
       {| Main.email := "pilot@example.com";
          Main.items := [ {| Main.product_id := "aaa"; Main.qty := 1 |};
                          {| Main.product_id := "bbb"; Main.qty := 1 |} ] |}
       (world_of demo_db []) =
     (Raise (HTTPException 404 "Product aaa not found"), world_of demo_db ops')) /\
  HTTPException 404 "Product aaa not found" <> Main.not_found "bbb".
Proof.
  split; [reflexivity|]. split; [eexists; vm_compute; reflexivity|].
  split; [reflexivity|]. split; [eexists; vm_compute; reflexivity|].
  discriminate.
Qed.

(* ================================================================== *)
(** * A product stored without a price *)

Lemma shr_1_nonneg (mrs : shr_record) :
  0 <= shr_m mrs -> 0 <= shr_m (shr_1 mrs).
Proof.
  destruct mrs as [m r s]; simpl.
  destruct m as [|p|p]; [simpl; lia| |lia].
  destruct p; simpl; lia.
Qed.

Lemma iter_pos_shr_1_nonneg (p : positive) :
  forall mrs, 0 <= shr_m mrs -> 0 <= shr_m (iter_pos shr_1 p mrs).
Proof.
  induction p as [p IH|p IH|]; intros mrs H; simpl.
  - apply IH, IH, shr_1_nonneg, H.
  - apply IH, IH, H.
  - apply shr_1_nonneg, H.
Qed.

Lemma shr_fexp_nonneg (m e : Z) (l : location) :
  0 <= m -> 0 <= shr_m (fst (shr_fexp PyFloat.prec PyFloat.emax m e l)).
Proof.
  intros H. unfold shr_fexp, shr.
  assert (H0 : 0 <= shr_m (shr_record_of_loc m l))
    by (destruct l as [|[]]; simpl; exact H).
  destruct (fexp _ _ _ - e); simpl; auto.
  apply iter_pos_shr_1_nonneg, H0.
Qed.

Lemma round_nearest_even_nonneg (m : Z) (l : location) :
  0 <= m -> 0 <= round_nearest_even m l.
Proof.
  intros H. destruct l as [|[]]; simpl; try lia.
  destruct (Z.even m); lia.
Qed.

(** Rounding a non-negative mantissa with sign [+] gives a non-negative
    float, never NaN. *)
Lemma binary_round_aux_nonneg (m e : Z) (l : location) :
  0 <= m ->
  match binary_round_aux PyFloat.prec PyFloat.emax false m e l with
  | S754_zero s | S754_infinity s | S754_finite s _ _ => s = false
  | S754_nan => False
  end.
Proof.
  intros H. unfold binary_round_aux.
  pose proof (shr_fexp_nonneg m e l H) as H1.
  destruct (shr_fexp PyFloat.prec PyFloat.emax m e l) as [mrs' e'].
  simpl in H1.
  pose proof (shr_fexp_nonneg _ e' loc_Exact
                (round_nearest_even_nonneg _ (loc_of_shr_record mrs') H1)) as H2.
  destruct (shr_fexp PyFloat.prec PyFloat.emax _ e' loc_Exact) as [mrs'' e''].
  simpl in H2.
  destruct (shr_m mrs'') as [|p|p]; [reflexivity| |lia].
  destruct (Z.leb e'' _); reflexivity.
Qed.

(** [0.0 * float(n)] is [0.0] for a positive int [n] that fits a float. *)
Lemma mul_zero_of_int (z : Z) (n : PyFloat.float) :
  1 <= z -> PyFloat.of_int z = Some n -> PyFloat.mul PyFloat.f0 n = PyFloat.f0.
Proof.
  intros Hz Hn. unfold PyFloat.of_int in Hn.
  destruct z as [|p|p]; try lia.
  unfold binary_normalize, binary_round in Hn.
  destruct (shl_align p 0 _) as [mz ez].
  pose proof (binary_round_aux_nonneg (Zpos mz) ez loc_Exact ltac:(lia)) as Hs.
  destruct (binary_round_aux _ _ false (Zpos mz) ez loc_Exact) as [s|s| |s m e];
    try discriminate; try contradiction;
    inversion Hn; subst; reflexivity.
Qed.

(** C9. When the document a cart item resolves to has no [price] field, the
    turn of the loop of [create_order] for that item does not fail on the
    price: the unit price is [0.0] and the line adds [0.0] to the total (an
    [OverflowError] only for a quantity too large for a float). *)
Theorem create_order_missing_price {RT : Runtime} (d : Database)
    (ops : list store_op) (total : PyFloat.float) (item : Main.CartItem)
    (doc : dict) :
  resolve d (Main.product_id item) = Some doc ->
  dict_get "price" doc = None ->
  Main.py_float (dict_get_default "price" (VInt 0) doc) = Return PyFloat.f0 /\
  exists ops',
    Main.add_line total item (world_of d ops) =
      (match PyFloat.of_int (Z.max 1 (Main.qty item)) with
       | Some _ => Return (PyFloat.add total PyFloat.f0)
       | None => Raise OverflowError
       end, world_of d ops').
Proof.
  intros Hres Hprice.
  assert (Hp : Main.py_float (dict_get_default "price" (VInt 0) doc) = Return PyFloat.f0)
    by (unfold dict_get_default; rewrite Hprice; reflexivity).
  split; [exact Hp|].
  destruct (add_line_run d ops total item) as (ops' & _ & Hrun).
  exists ops'. rewrite Hrun, Hres, Hp. unfold Main.mul_int.
  destruct (PyFloat.of_int (Z.max 1 (Main.qty item))) as [n|] eqn:En; [|reflexivity].
  rewrite (mul_zero_of_int _ n (Z.le_max_l 1 _) En). reflexivity.
Qed.

(** Two units of the product stored without a price, after a Raven. *)
Lemma create_order_missing_price_witness :
  dict_get "price" unpriced_product = None /\
  exists ops',
    @Main.add_line plain_runtime (PyFloat.nearest false 499 1)
      {| Main.product_id := oid_frame; Main.qty := 2 |} (world_of unpriced_db []) =
    (Return (PyFloat.add (PyFloat.nearest false 499 1) PyFloat.f0),
     world_of unpriced_db ops').
Proof.
  split; [reflexivity|].
  exact (proj2 (@create_order_missing_price plain_runtime unpriced_db []
                  (PyFloat.nearest false 499 1)
                  {| Main.product_id := oid_frame; Main.qty := 2 |}
                  unpriced_product eq_refl eq_refl)).
Defined.

(* ================================================================== *)
(** * The empty cart *)

(** C10. On a configured store, [create_order] with an empty list of items
    succeeds: the only store operation it performs is the insertion of one
    order document, with total [0.0], status ["pending"], the email and an
    empty item list, and it returns the identifier assigned to that
    document. No product is looked up. *)
Theorem create_order_empty_cart {RT : Runtime} (d : Database)
    (ops : list store_op) (email : string) :
  let oid := oid_of_counter (next_oid d) in
  let doc := [("email", VStr email);
              ("items", VList []);
              ("total", VFloat PyFloat.f0);
              ("status", VStr "pending");
              ("_id", VObjectId oid)] in
  Main.create_order {| Main.email := email; Main.items := [] |} (world_of d ops) =
    (Return {| Main.status := "ok"; Main.order_id := ObjectIdOps.to_str oid |},
     world_of {| collections :=
                   set_collection "order" (collection d "order" ++ [doc])%list
                     (collections d);
                 next_oid := (next_oid d + 1)%N |}
              (ops ++ [InsertOne "order" doc])%list).
Proof. reflexivity. Qed.

(* ================================================================== *)
(** * The [Order] built from a cart *)

Lemma v_ap_invalid_r {A B} (vf : validated (A -> B)) (es : list error_detail) :
  exists es', vf <*> Invalid es = Invalid es' /\ incl es es'.
Proof.
  destruct vf as [f|es0]; simpl.
  - exists es; split; [reflexivity|apply incl_refl].
  - exists (es0 ++ es)%list; split; [reflexivity|apply incl_appr, incl_refl].
Qed.

Lemma v_ap_invalid_l {A B} (es : list error_detail) (va : validated A) :
  exists es', (Invalid es : validated (A -> B)) <*> va = Invalid es' /\ incl es es'.
Proof.
  destruct va as [a|es0]; simpl.
  - exists es; split; [reflexivity|apply incl_refl].
  - exists (es ++ es0)%list; split; [reflexivity|apply incl_appl, incl_refl].
Qed.

(** An invalid item makes the list invalid, and its errors are reported. *)
Lemma validate_items_invalid {RT : Runtime} {A}
    (elem : loc -> value -> validated A) (l : loc) (vs : list value) :
  forall (i k : nat) (v : value) (es : list error_detail),
  nth_error vs k = Some v ->
  elem (l ++ [string_of_nat (i + k)])%list v = Invalid es ->
  exists es', validate_items elem l i vs = Invalid es' /\ incl es es'.
Proof.
  induction vs as [|v0 vs IH]; intros i k v es Hnth Helem.
  - destruct k; discriminate.
  - destruct k as [|k]; simpl in Hnth.
    + inversion Hnth; subst v0. rewrite Nat.add_0_r in Helem.
      simpl. rewrite Helem. simpl. apply v_ap_invalid_l.
    + replace (i + S k)%nat with (S i + k)%nat in Helem by lia.
      destruct (IH (S i) k v es Hnth Helem) as (es1 & Hrest & Hincl).
      simpl. rewrite Hrest.
      destruct (v_ap_invalid_r (Valid cons <*> elem (l ++ [string_of_nat i])%list v0) es1)
        as (es2 & H2 & Hincl2).
      exists es2; split; [exact H2|]. eapply incl_tran; eauto.
Qed.

(** C2 (the defect). [Order.items] is declared [List[Dict[str, int]]], and
    [create_order] puts the [product_id], a [str], in those dicts: whenever
    the string of some cart item is not coerced to an [int], the [Order]
    constructor raises [ValidationError] at that [product_id], although
    every item resolves, and nothing is persisted. *)
Theorem create_order_rejects_product_id {RT : Runtime} (d : Database)
    (ops : list store_op) (payload : Main.CreateOrderRequest)
    (lines : list (PyFloat.float * PyFloat.float))
    (k : nat) (item : Main.CartItem) :
  Forall2 (priced d) (Main.items payload) lines ->
  nth_error (Main.items payload) k = Some item ->
  lax_int (VStr (Main.product_id item)) = None ->
  exists errors ops',
    Main.create_order payload (world_of d ops) =
      (Raise (ValidationError errors), world_of d ops') /\
    In (["items"; string_of_nat k; "product_id"], "int_parsing") errors /\
    (forall op, In op ops' -> In op ops \/ is_write op = false).
Proof.
  intros Hp Hnth Hlax.
  destruct (for_each_add_line_priced d _ _ Hp PyFloat.f0 ops) as (ops1 & Hops1 & Hloop).
  set (t := fold_left PyFloat.add (map line_value lines) PyFloat.f0) in Hloop.
  assert (Hitems : exists es,
             validate_list (validate_dict validate_int) ["items"]
               (VList (map (fun i => VDict [("product_id", VStr (Main.product_id i));
                                            ("qty", VInt (Main.qty i))])
                           (Main.items payload))) = Invalid es /\
             In (["items"; string_of_nat k; "product_id"], "int_parsing") es).
  { destruct (validate_items_invalid (validate_dict validate_int) ["items"]
                (map (fun i => VDict [("product_id", VStr (Main.product_id i));
                                      ("qty", VInt (Main.qty i))])
                     (Main.items payload))
                0 k
                (VDict [("product_id", VStr (Main.product_id item));
                        ("qty", VInt (Main.qty item))])
                [(["items"; string_of_nat k; "product_id"], "int_parsing")])
      as (es & Hes & Hincl).
    - rewrite nth_error_map, Hnth. reflexivity.
    - simpl. rewrite Hlax. reflexivity.
    - exists es; split; [exact Hes|]. apply Hincl; left; reflexivity. }
  destruct Hitems as (es & Hes & Hin).
  assert (Hnew : exists errors,
             Order.new (Main.order_kwargs payload t) = Raise (ValidationError errors) /\
             In (["items"; string_of_nat k; "product_id"], "int_parsing") errors).
  { unfold Order.new, Order.validate, Main.order_kwargs, required, optional.
    cbn [dict_get String.eqb Ascii.eqb Bool.eqb fst snd].
    rewrite Hes. cbn [validate_str validate_float v_bind v_ap].
    destruct (ge_float PyFloat.f0 ["total"] (PyFloat.round2 t)) as [f|es'];
      cbn [v_ap construct]; eexists; split; try reflexivity; auto.
    apply in_or_app; left; exact Hin. }
  destruct Hnew as (errors & Hnew & Hin').
  exists errors, ops1. split; [|split; auto].
  unfold Main.create_order, Main.order_total.
  rewrite (bind_return _ _ _ _ _ Hloop).
  rewrite Hnew. reflexivity.
Qed.

(** The order of one Raven on the demo catalogue: the identifier of the
    product, [65a1f0c2b3d4e5f60718293a], is no integer. *)
Lemma create_order_rejects_product_id_witness :
  @lax_int plain_runtime (VStr oid_raven) = None /\
  exists errors ops',
    @Main.create_order plain_runtime
      {| Main.email := "pilot@example.com";
         Main.items := [ {| Main.product_id := oid_raven; Main.qty := 1 |} ] |}
      (world_of demo_db []) =
      (Raise (ValidationError errors), world_of demo_db ops') /\
    In (["items"; "0"; "product_id"], "int_parsing") errors /\
    (forall op, In op ops' -> In op [] \/ is_write op = false).
Proof.
  split; [reflexivity|].
  apply (@create_order_rejects_product_id plain_runtime demo_db []
           {| Main.email := "pilot@example.com";
              Main.items := [ {| Main.product_id := oid_raven; Main.qty := 1 |} ] |}
           [(PyFloat.nearest false 499 1, PyFloat.nearest false 1 1)]
           0%nat {| Main.product_id := oid_raven; Main.qty := 1 |}).
  - repeat constructor.
    eexists; split; [vm_compute; reflexivity|]. split; vm_compute; reflexivity.
  - reflexivity.
  - reflexivity.
Defined.

(** The same order, run: the response is the validation error and the
    store has seen one lookup and no insertion. *)
Example create_order_raven_run :
  @Main.create_order plain_runtime
    {| Main.email := "pilot@example.com";
       Main.items := [ {| Main.product_id := oid_raven; Main.qty := 1 |} ] |}
    (world_of demo_db []) =
  (Raise (ValidationError [(["items"; "0"; "product_id"], "int_parsing")]),
   world_of demo_db
     [FindOne "droneproduct"
        [("_id", match ObjectIdOps.of_str oid_raven with
                 | Some o => VObjectId o
                 | None => VNone
                 end)]]).
Proof. vm_compute. reflexivity. Qed.

(* ================================================================== *)
(** * The catalogue query *)

Lemma v_ap_valid_inv {A B} (vf : validated (A -> B)) (va : validated A) (b : B) :
  vf <*> va = Valid b -> exists f a, vf = Valid f /\ va = Valid a /\ b = f a.
Proof.
  destruct vf as [f|es], va as [a|es']; simpl; intros H; inversion H; eauto.
Qed.

Lemma dict_get_remove_other (k k' : string) (d : dict) :
  k <> k' -> dict_get k (dict_remove k' d) = dict_get k d.
Proof.
  intros Hne. unfold dict_remove.
  induction d as [|[k0 v0] d IH]; simpl; [reflexivity|].
  destruct (String.eqb k' k0) eqn:E'; simpl.
  - apply String.eqb_eq in E'; subst k0.
    destruct (String.eqb k k') eqn:E; [apply String.eqb_eq in E; congruence|exact IH].
  - destruct (String.eqb k k0); [reflexivity|exact IH].
Qed.

Lemma firstn_In {A} (n : nat) (l : list A) (x : A) :
  In x (firstn n l) -> In x l.
Proof.
  intros H. rewrite <- (firstn_skipn n l). apply in_or_app; left; exact H.
Qed.

Lemma filter_idem {A} (f : A -> bool) (l : list A) :
  filter f (filter f l) = filter f l.
Proof.
  induction l as [|a l IH]; [reflexivity|].
  cbn [filter]. destruct (f a) eqn:E; [|exact IH].
  cbn [filter]. rewrite E, IH. reflexivity.
Qed.

Lemma dict_remove_idem (k : string) (d : dict) :
  dict_remove k (dict_remove k d) = dict_remove k d.
Proof. apply filter_idem. Qed.

Lemma value_eqb_str (v : value) (s : string) :
  value_eqb v (VStr s) = true -> v = VStr s.
Proof.
  destruct v; simpl; try discriminate.
  intros H; apply String.eqb_eq in H; congruence.
Qed.

Lemma value_eqb_bool (v : value) (b : bool) :
  value_eqb v (VBool b) = true -> v = VBool b.
Proof.
  destruct v; simpl; try discriminate.
  intros H; apply Bool.eqb_prop in H; congruence.
Qed.

Lemma value_eqb_str_refl (s : string) : value_eqb (VStr s) (VStr s) = true.
Proof. simpl; apply String.eqb_refl. Qed.

Lemma value_eqb_bool_refl (b : bool) : value_eqb (VBool b) (VBool b) = true.
Proof. destruct b; reflexivity. Qed.

Section CatalogFacts.
Context {RT : Runtime}.

Lemma get_documents_run (d : Database) (ops : list store_op) (name : string)
    (query : dict) (limit : Z) :
  get_documents name query limit (world_of d ops) =
    (Return (firstn (Z.to_nat limit) (filter (matches query) (collection d name))),
     world_of d (ops ++ [Find name query limit])%list).
Proof. reflexivity. Qed.

(** The loop of [list_products] leaves the world alone and returns the
    records of the documents, in order, when each of them reshapes. *)
Lemma reshape_loop (docs : list dict) :
  forall (acc : list Main.DroneProductOut) (w : World),
  snd (for_each (fun out d => o <- lift (Main.reshape d) ;; ret (out ++ [o])%list)
         docs acc w) = w /\
  forall outs,
    fst (for_each (fun out d => o <- lift (Main.reshape d) ;; ret (out ++ [o])%list)
           docs acc w) = Return outs <->
    exists new, outs = (acc ++ new)%list /\
                Forall2 (fun d o => Main.reshape d = Return o) docs new.
Proof.
  induction docs as [|d docs IH]; intros acc w.
  - simpl. split; [reflexivity|]. intros outs; split.
    + intros H; inversion H; subst. exists []; split; [symmetry; apply app_nil_r|constructor].
    + intros (new & -> & H); inversion H; subst. rewrite app_nil_r; reflexivity.
  - simpl. unfold bind at 1. unfold bind at 1. unfold lift.
    destruct (Main.reshape d) as [o|e] eqn:Er; simpl.
    + destruct (IH (acc ++ [o])%list w) as [Hw Hr]. split; [exact Hw|].
      intros outs. rewrite Hr. split.
      * intros (new & -> & H). exists (o :: new); split.
        -- rewrite <- app_assoc; reflexivity.
        -- constructor; auto.
      * intros (new & -> & H). inversion H as [|? o' ? new' Ho Hrest]; subst.
        rewrite Er in Ho; inversion Ho; subst o'.
        exists new'; split; [rewrite <- app_assoc; reflexivity|exact Hrest].
    + split; [reflexivity|]. intros outs; split; [discriminate|].
      intros (new & _ & H). inversion H; subst. congruence.
Qed.

(** The outcome of the loop does not depend on the world it runs in. *)
Lemma reshape_loop_pure (docs : list dict) :
  forall (acc : list Main.DroneProductOut) (w1 w2 : World),
  fst (for_each (fun out d => o <- lift (Main.reshape d) ;; ret (out ++ [o])%list)
         docs acc w1) =
  fst (for_each (fun out d => o <- lift (Main.reshape d) ;; ret (out ++ [o])%list)
         docs acc w2).
Proof.
  induction docs as [|d docs IH]; intros acc w1 w2; [reflexivity|].
  simpl. unfold bind at 1 3. unfold bind at 1 2. unfold lift.
  destruct (Main.reshape d); simpl; [apply IH|reflexivity].
Qed.

End CatalogFacts.

Section ListProducts.
Context {RT : Runtime}.

(** [list_products] on a configured store: one [find], then the loop. *)
Lemma list_products_run (d : Database) (ops : list store_op)
    (category : option string) (featured : option bool) (limit : option Z) :
  snd (Main.list_products category featured limit (world_of d ops)) =
    world_of d (ops ++ [Find "droneproduct" (Main.build_query category featured)
                          (effective_limit limit)])%list /\
  forall outs,
    fst (Main.list_products category featured limit (world_of d ops)) = Return outs <->
    Forall2 (fun doc o => Main.reshape doc = Return o)
            (queried d category featured limit) outs.
Proof.
  unfold Main.list_products.
  fold (effective_limit limit).
  unfold bind. rewrite get_documents_run.
  fold (queried d category featured limit).
  destruct (reshape_loop (queried d category featured limit) []
              (world_of d (ops ++ [Find "droneproduct"
                                     (Main.build_query category featured)
                                     (effective_limit limit)])%list)) as [Hw Hr].
  split; [exact Hw|].
  intros outs. rewrite Hr. simpl. split.
  - intros (new & -> & H); exact H.
  - intros H; exists outs; auto.
Qed.

Lemma validate_with_id (s : string) (d : dict) :
  Main.DroneProductOut_validate (("id", VStr s) :: d) =
  Valid Main.Build_DroneProductOut <*> DroneProduct.validate d <*> Valid s.
Proof. reflexivity. Qed.

(** What a reshaped record holds. *)
Lemma reshape_inv (doc : dict) (o : Main.DroneProductOut) :
  Main.reshape doc = Return o ->
  Main.id o = Main.id_str_of (dict_get_default "_id" VNone doc) /\
  DroneProduct.validate (dict_remove "_id" doc) = Valid (Main.product o).
Proof.
  unfold Main.reshape, dict_pop, Main.DroneProductOut_new.
  destruct (dict_has "id" (dict_remove "_id" doc)); [discriminate|].
  rewrite validate_with_id.
  destruct (DroneProduct.validate (dict_remove "_id" doc)) as [p|es]; simpl;
    intros H; inversion H; subst; simpl; auto.
Qed.

(** Whether a document reshapes does not depend on its identifier: it
    does as soon as the document without its [_id] does. *)
Lemma reshape_any_id (doc : dict) :
  (exists o, Main.reshape (dict_remove "_id" doc) = Return o) ->
  exists o, Main.reshape doc = Return o.
Proof.
  intros (o & Ho).
  unfold Main.reshape, dict_pop in *.
  rewrite dict_remove_idem in Ho.
  unfold Main.DroneProductOut_new in *.
  destruct (dict_has "id" (dict_remove "_id" doc)); [discriminate|].
  rewrite validate_with_id in *.
  destruct (DroneProduct.validate (dict_remove "_id" doc)) as [p|es]; simpl in *;
    [|discriminate].
  eexists; reflexivity.
Qed.

(** The category of a validated product is the one of its arguments. *)
Lemma validate_category (kwargs : dict) (p : DroneProduct.t) (c : string) :
  DroneProduct.validate kwargs = Valid p ->
  dict_get "category" kwargs = Some (VStr c) ->
  DroneProduct.category p = c.
Proof.
  unfold DroneProduct.validate. intros H Hc.
  repeat (apply v_ap_valid_inv in H as (? & ? & H & ? & ?)).
  subst. unfold required in *. rewrite Hc in *. simpl in *.
  match goal with H : Valid DroneProduct.Build_t = Valid _ |- _ =>
    inversion H; subst; clear H end.
  match goal with H : Valid c = Valid _ |- _ => inversion H; subst; clear H end.
  reflexivity.
Qed.

End ListProducts.

(* ------------------------------------------------------------------ *)
(** ** The category filter *)

(** C4, as stated, fails for the empty category string: [if category:]
    takes it as no filter, and the catalogue comes back whole. *)
Lemma list_products_empty_category_unfiltered :
  exists outs o,
    fst (@Main.list_products plain_runtime (Some "") None None demo_world) = Return outs /\
    In o outs /\
    DroneProduct.category (Main.product o) <> "".
Proof.
  eexists; eexists. split; [vm_compute; reflexivity|].
  split; [left; reflexivity|discriminate].
Qed.

Lemma matches_category_query (c : string) (featured : option bool) (doc : dict) :
  c <> "" ->
  matches (Main.build_query (Some c) featured) doc = true <->
  dict_get "category" doc = Some (VStr c) /\
  (forall b, featured = Some b -> dict_get "featured" doc = Some (VBool b)).
Proof.
  intros Hc. unfold Main.build_query.
  apply String.eqb_neq in Hc. rewrite Hc. cbn [negb app].
  unfold matches.
  destruct featured as [b|]; cbn [forallb fst snd]; rewrite ?andb_true_r.
  - rewrite andb_true_iff. split.
    + intros [H1 H2].
      destruct (dict_get "category" doc) as [v|]; [|discriminate].
      destruct (dict_get "featured" doc) as [v'|]; [|discriminate].
      apply value_eqb_str in H1. apply value_eqb_bool in H2. subst. split; [reflexivity|].
      intros b' Hb; inversion Hb; reflexivity.
    + intros [H1 H2]. rewrite H1, (H2 b eq_refl).
      split; [apply value_eqb_str_refl|apply value_eqb_bool_refl].
  - split.
    + intros H1. destruct (dict_get "category" doc) as [v|]; [|discriminate].
      apply value_eqb_str in H1. subst. split; [reflexivity|discriminate].
    + intros [H1 _]. rewrite H1. apply value_eqb_str_refl.
Qed.

(** C4, amended. For a non-empty category string [c], the documents
    selected are exactly the stored products whose category is [c] (and
    whose [featured] flag is the one asked for, when one is); the records
    returned are those of the first [limit] of them, one for one and in
    order, whenever the call returns, and each has category [c]; all the
    selected products are among them when the limit is not reached. The
    empty category string is no category filter: the query built for it is
    the query built for no category, and the call runs as the call without
    a category does, in every world. *)
Theorem list_products_category {RT : Runtime} (d : Database) (ops : list store_op)
    (featured : option bool) (limit : option Z) :
  (forall c : string,
     c <> "" ->
     let hits := filter (matches (Main.build_query (Some c) featured))
                   (collection d "droneproduct") in
     (forall doc,
        In doc hits <->
        In doc (collection d "droneproduct") /\
        dict_get "category" doc = Some (VStr c) /\
        (forall b, featured = Some b -> dict_get "featured" doc = Some (VBool b))) /\
     (forall outs,
        fst (Main.list_products (Some c) featured limit (world_of d ops)) = Return outs <->
        Forall2 (fun doc o => Main.reshape doc = Return o)
                (firstn (Z.to_nat (effective_limit limit)) hits) outs) /\
     (forall outs,
        fst (Main.list_products (Some c) featured limit (world_of d ops)) = Return outs ->
        Forall (fun o => DroneProduct.category (Main.product o) = c) outs) /\
     (Z.of_nat (List.length hits) <= effective_limit limit ->
      firstn (Z.to_nat (effective_limit limit)) hits = hits)) /\
  Main.build_query (Some "") featured = Main.build_query None featured /\
  (forall doc,
     In doc (queried d (Some "") featured limit) ->
     forall b, featured = Some b -> dict_get "featured" doc = Some (VBool b)) /\
  (forall w : World,
     Main.list_products (Some "") featured limit w =
     Main.list_products None featured limit w).
Proof.
  split; [|split; [reflexivity|split; [|reflexivity]]].
  2:{ intros doc Hin b ->. unfold queried in Hin. apply firstn_In in Hin.
      apply filter_In in Hin as [_ Hm].
      change (Main.build_query (Some "") (Some b)) with [("featured", VBool b)] in Hm.
      unfold matches in Hm. cbn [forallb fst snd] in Hm.
      rewrite andb_true_r in Hm.
      destruct (dict_get "featured" doc) as [v|]; [|discriminate].
      apply value_eqb_bool in Hm. subst. reflexivity. }
  intros c Hc hits.
  assert (Hhits : forall doc,
     In doc hits <->
     In doc (collection d "droneproduct") /\
     dict_get "category" doc = Some (VStr c) /\
     (forall b, featured = Some b -> dict_get "featured" doc = Some (VBool b))).
  { intros doc. unfold hits. rewrite filter_In, (matches_category_query c featured doc Hc).
    tauto. }
  split; [exact Hhits|].
  destruct (list_products_run d ops (Some c) featured limit) as [_ Hrun].
  split; [exact Hrun|]. split.
  - intros outs Houts. apply Hrun in Houts. unfold queried in Houts. fold hits in Houts.
    assert (Hall : Forall (fun doc => dict_get "category" doc = Some (VStr c))
                     (firstn (Z.to_nat (effective_limit limit)) hits)).
    { apply Forall_forall. intros doc Hin. apply firstn_In in Hin.
      apply Hhits in Hin. tauto. }
    induction Houts as [|doc o docs outs Ho _ IH]; constructor.
    + inversion Hall; subst.
      apply reshape_inv in Ho as [_ Hv].
      apply (validate_category _ _ c Hv).
      rewrite dict_get_remove_other by discriminate. assumption.
    + apply IH. inversion Hall; assumption.
  - intros Hlen. apply firstn_all2. lia.
Qed.

(** The motors of the demo catalogue. *)
Lemma list_products_category_witness :
  "motors" <> "" /\
  forall outs,
    fst (@Main.list_products plain_runtime (Some "motors") None None
           (world_of demo_db [])) = Return outs ->
    Forall (fun o => DroneProduct.category (Main.product o) = "motors") outs.
Proof.
  split; [discriminate|].
  exact (proj1 (proj2 (proj2 (proj1 (@list_products_category plain_runtime demo_db []
                                       None None)
                                "motors" ltac:(discriminate))))).
Defined.

(* ------------------------------------------------------------------ *)
(** ** The identifiers of the records *)

Lemma fromhex_hexlify_byte (b : byte) (rest : string) :
  fromhex (String (hex_digit (Byte.to_N b / 16))
             (String (hex_digit (Byte.to_N b mod 16)) rest)) =
  match fromhex rest with
  | Some bs => Some (b :: bs)
  | None => None
  end.
Proof. destruct b; reflexivity. Qed.

Lemma fromhex_hexlify (bs : list byte) : fromhex (hexlify bs) = Some bs.
Proof.
  induction bs as [|b bs IH]; [reflexivity|].
  cbn [hexlify]. rewrite fromhex_hexlify_byte, IH. reflexivity.
Qed.

Lemma length_hexlify (bs : list byte) :
  String.length (hexlify bs) = (2 * List.length bs)%nat.
Proof.
  induction bs as [|b bs IH]; [reflexivity|].
  cbn [hexlify String.length List.length]. rewrite IH. lia.
Qed.

(** [ObjectId(str(oid))] is [oid]. *)
Lemma of_str_to_str (oid : ObjectId) :
  List.length (binary oid) = 12%nat ->
  ObjectIdOps.of_str (ObjectIdOps.to_str oid) = Some oid.
Proof.
  intros Hlen. unfold ObjectIdOps.of_str, ObjectIdOps.to_str.
  rewrite length_hexlify, Hlen, fromhex_hexlify.
  destruct oid; reflexivity.
Qed.

Lemma hexlify_lower_hex (bs : list byte) :
  string_forall is_lower_hex (hexlify bs) = true.
Proof.
  induction bs as [|b bs IH]; [reflexivity|].
  cbn [hexlify string_forall]. rewrite IH.
  destruct b; reflexivity.
Qed.

(** An exception of [reshape] is never about the identifier: the document
    without its [_id] raises it as well. *)
Lemma reshape_error_not_id {RT : Runtime} (doc : dict) (e : exn) :
  Main.reshape doc = Raise e -> Main.reshape (dict_remove "_id" doc) = Raise e.
Proof.
  unfold Main.reshape, dict_pop. rewrite dict_remove_idem.
  unfold Main.DroneProductOut_new.
  destruct (dict_has "id" (dict_remove "_id" doc)); [auto|].
  rewrite !validate_with_id.
  destruct (DroneProduct.validate (dict_remove "_id" doc)) as [p|es]; simpl;
    [discriminate|auto].
Qed.

(** C7. Whenever [list_products] returns, its records are those of the
    documents the store returned, one for one and in order, and the [id] of
    each is read off the [_id] of its document. For a store-assigned
    [ObjectId] it is its string form: two lower-case hexadecimal digits for
    each byte of the identifier, 24 for its twelve bytes, which read back
    as these bytes and parse back to the identifier. It is the empty string
    when the document has no [_id], when the [_id] is falsy, and when [str]
    raises on it (the handler of the [try]); for any other [_id] it is
    [str(_id)]. The identifier never makes the call fail: an exception of
    the loop is raised by the document without its [_id] as well, and the
    call returns as soon as every document, its [_id] left out, validates
    as a product. *)
Theorem list_products_ids {RT : Runtime} (d : Database) (ops : list store_op)
    (category : option string) (featured : option bool) (limit : option Z) :
  (forall outs,
     fst (Main.list_products category featured limit (world_of d ops)) = Return outs ->
     Forall2 (fun doc o =>
                (forall oid,
                   dict_get "_id" doc = Some (VObjectId oid) ->
                   Main.id o = ObjectIdOps.to_str oid /\
                   string_forall is_lower_hex (Main.id o) = true /\
                   String.length (Main.id o) = (2 * List.length (binary oid))%nat /\
                   fromhex (Main.id o) = Some (binary oid) /\
                   (List.length (binary oid) = 12%nat ->
                    String.length (Main.id o) = 24%nat /\
                    ObjectIdOps.of_str (Main.id o) = Some oid)) /\
                (dict_get "_id" doc = None -> Main.id o = "") /\
                (forall v,
                   dict_get "_id" doc = Some v ->
                   truthy v = false \/ Main.py_str v = None ->
                   Main.id o = "") /\
                (forall v s,
                   dict_get "_id" doc = Some v ->
                   truthy v = true -> Main.py_str v = Some s ->
                   Main.id o = s))
             (queried d category featured limit) outs) /\
  (forall doc e,
     Main.reshape doc = Raise e -> Main.reshape (dict_remove "_id" doc) = Raise e) /\
  (Forall (fun doc => exists o, Main.reshape (dict_remove "_id" doc) = Return o)
          (queried d category featured limit) ->
   exists outs,
     fst (Main.list_products category featured limit (world_of d ops)) = Return outs).
Proof.
  destruct (list_products_run d ops category featured limit) as [_ Hrun].
  split; [|split; [apply reshape_error_not_id|]].
  - intros outs Houts. apply Hrun in Houts. clear Hrun.
    induction Houts as [|doc o docs outs Ho _ IH]; constructor; [|exact IH].
    apply reshape_inv in Ho as [Hid _].
    unfold dict_get_default, Main.id_str_of in Hid.
    split; [|split; [|split]].
    + intros oid Hoid. rewrite Hoid in Hid. cbn [truthy Main.py_str] in Hid.
      rewrite Hid. unfold ObjectIdOps.to_str.
      split; [reflexivity|]. split; [apply hexlify_lower_hex|].
      split; [apply length_hexlify|]. split; [apply fromhex_hexlify|].
      intros Hlen. split; [rewrite length_hexlify, Hlen; reflexivity|].
      apply (of_str_to_str oid Hlen).
    + intros Hnone. rewrite Hnone in Hid. exact Hid.
    + intros v Hv Hfalsy. rewrite Hv in Hid. rewrite Hid.
      destruct (truthy v); [|reflexivity].
      destruct Hfalsy as [Hf|Hf]; [discriminate|]. rewrite Hf. reflexivity.
    + intros v s0 Hv Ht Hs. rewrite Hv, Ht, Hs in Hid. exact Hid.
  - intros Hall.
    assert (Hex : exists outs,
               Forall2 (fun doc o => Main.reshape doc = Return o)
                       (queried d category featured limit) outs).
    { clear Hrun. induction Hall as [|doc docs Hdoc _ IH].
      - exists []; constructor.
      - destruct IH as (outs & IH).
        destruct (reshape_any_id doc Hdoc) as (o & Ho).
        exists (o :: outs); constructor; assumption. }
    destruct Hex as (outs & Hex). exists outs. apply Hrun. exact Hex.
Qed.

(** The demo catalogue: every document validates, so the listing returns,
    and each record carries the 24 hexadecimal digits of its document's
    identifier. *)
Lemma list_products_ids_witness :
  exists outs,
    fst (@Main.list_products plain_runtime None None None (world_of demo_db [])) =
      Return outs /\
    map Main.id outs =
      ["65a1f0c2b3d4e5f60718293a"; "65a1f0c2b3d4e5f60718293b";
       "65a1f0c2b3d4e5f60718293c"] /\
    Forall2 (fun doc o =>
               forall oid,
                 dict_get "_id" doc = Some (VObjectId oid) ->
                 List.length (binary oid) = 12%nat ->
                 String.length (Main.id o) = 24%nat /\
                 ObjectIdOps.of_str (Main.id o) = Some oid)
            (queried demo_db None None None) outs.
Proof.
  assert (H : Forall (fun doc => exists o,
                        @Main.reshape plain_runtime (dict_remove "_id" doc) = Return o)
                     (queried demo_db None None None)).
  { repeat constructor; eexists; vm_compute; reflexivity. }
  destruct (proj2 (proj2 (@list_products_ids plain_runtime demo_db [] None None None)) H)
    as (outs & Hrun).
  exists outs. split; [exact Hrun|].
  pose proof (proj1 (@list_products_ids plain_runtime demo_db [] None None None)
                outs Hrun) as Hids.
  split.
  - vm_compute in Hrun. inversion Hrun; subst outs. reflexivity.
  - eapply Forall2_impl; [|exact Hids].
    intros doc o (Hoid & _) oid Hdoc Hlen.
    destruct (Hoid oid Hdoc) as (_ & _ & _ & _ & H24). exact (H24 Hlen).
Defined.

(** The identifiers a listing gives documents whose [_id] is an [ObjectId],
    is missing, is [0], is a string, and is a value [str] raises on. *)
Example list_products_odd_ids :
  option_map (map Main.id)
    (match fst (@Main.list_products raising_str_runtime None None None
                  (world_of odd_ids_db [])) with
     | Return outs => Some outs
     | Raise _ => None
     end) = Some ["65a1f0c2b3d4e5f60718293a"; ""; ""; "sku-5mm"; ""].
Proof. vm_compute. reflexivity. Qed.

(** The records of the demo catalogue carry the identifiers of its
    documents. *)
Example list_products_demo_ids :
  option_map (map Main.id)
    (match fst (@Main.list_products plain_runtime None None None demo_world) with
     | Return outs => Some outs
     | Raise _ => None
     end) = Some [oid_raven; oid_whoop; oid_motor].
Proof. vm_compute. reflexivity. Qed.

(* ------------------------------------------------------------------ *)
(** ** Reading only *)

Lemma list_products_outcome {RT : Runtime} (d : Database) (ops1 ops2 : list store_op)
    (category : option string) (featured : option bool) (limit : option Z) :
  fst (Main.list_products category featured limit (world_of d ops1)) =
  fst (Main.list_products category featured limit (world_of d ops2)).
Proof.
  unfold Main.list_products, bind. rewrite !get_documents_run.
  apply reshape_loop_pure.
Qed.

(** C8. [list_products] leaves the database as it found it and performs no
    write on the store; a second call with the same arguments, run right
    after the first, has the same outcome, as has any call with these
    arguments on the same database. *)
Theorem list_products_read_only {RT : Runtime} (w : World)
    (category : option string) (featured : option bool) (limit : option Z) :
  let run1 := Main.list_products category featured limit w in
  let run2 := Main.list_products category featured limit (snd run1) in
  db (snd run1) = db w /\
  (forall op, In op (oplog (snd run1)) -> In op (oplog w) \/ is_write op = false) /\
  fst run2 = fst run1 /\
  db (snd run2) = db w /\
  (forall ops',
     fst (Main.list_products category featured limit {| db := db w; oplog := ops' |})
     = fst run1).
Proof.
  destruct w as [[d|] ops]; cbv zeta.
  - change {| db := Some d; oplog := ops |} with (world_of d ops).
    destruct (list_products_run d ops category featured limit) as [Hw1 _].
    rewrite Hw1.
    destruct (list_products_run d
                (ops ++ [Find "droneproduct" (Main.build_query category featured)
                           (effective_limit limit)])%list
                category featured limit) as [Hw2 _].
    rewrite Hw2. simpl.
    split; [reflexivity|].
    split; [|split; [apply list_products_outcome|split; [reflexivity|]]].
    + intros op Hin. apply in_app_or in Hin as [Hin|[<-|[]]]; auto.
    + intros ops'. apply (list_products_outcome d ops' ops).
  - simpl. auto.
Qed.

(* ================================================================== *)
(** * The schema constraints *)

Lemma reports_ap_l {A B} (vf : validated (A -> B)) (va : validated A) (l : loc) :
  reports vf l -> reports (vf <*> va) l.
Proof.
  destruct vf as [f|es]; [contradiction|].
  destruct va as [a|es']; simpl; auto.
  intros H. rewrite map_app. apply in_or_app; auto.
Qed.

Lemma reports_ap_r {A B} (vf : validated (A -> B)) (va : validated A) (l : loc) :
  reports va l -> reports (vf <*> va) l.
Proof.
  destruct va as [a|es']; [contradiction|].
  destruct vf as [f|es]; simpl; auto.
  intros H. rewrite map_app. apply in_or_app; auto.
Qed.

Lemma reports_construct {A} (v : validated A) (l : loc) :
  reports v l ->
  exists es, construct v = Raise (ValidationError es) /\ In l (map fst es).
Proof.
  destruct v as [a|es]; [contradiction|]. simpl. eauto.
Qed.

(** The comparison of two floats, read the other way round. *)
Lemma SFcompare_antisym (x y : PyFloat.float) :
  SFcompare y x = match SFcompare x y with
                  | Some c => Some (CompOpp c)
                  | None => None
                  end.
Proof.
  destruct x as [sx|sx| |sx mx ex], y as [sy|sy| |sy my ey]; simpl;
    try reflexivity;
    try (destruct sx; reflexivity); try (destruct sy; reflexivity);
    try (destruct sx, sy; reflexivity).
  destruct sx, sy; try reflexivity.
  all: rewrite (Z.compare_antisym ex ey).
  all: destruct (ex ?= ey)%Z; simpl; try reflexivity.
  all: change (PosDef.Pos.compare_cont Eq my mx) with (Pos.compare my mx).
  all: change (PosDef.Pos.compare_cont Eq mx my) with (Pos.compare mx my).
  all: rewrite (Pos.compare_antisym mx my).
  all: destruct (mx ?= my)%positive; reflexivity.
Qed.

Lemma ltb_not_leb (x y : PyFloat.float) :
  PyFloat.ltb x y = true -> PyFloat.leb y x = false.
Proof.
  unfold PyFloat.ltb, PyFloat.leb, SFltb, SFleb.
  rewrite (SFcompare_antisym x y).
  destruct (SFcompare x y) as [[]|]; simpl; congruence.
Qed.

Section SchemaFacts.
Context {RT : Runtime}.

Lemma validate_items_str (l : loc) (ss : list string) :
  forall i, validate_items validate_str l i (map VStr ss) = Valid ss.
Proof.
  induction ss as [|s ss IH]; intros i; simpl; [reflexivity|].
  rewrite IH. reflexivity.
Qed.

Lemma validate_items_url (l : loc) (us : list string) :
  Forall (fun u => http_url u = Some u) us ->
  forall i, validate_items validate_url l i (map VStr us) = Valid us.
Proof.
  induction 1 as [|u us Hu _ IH]; intros i; simpl; [reflexivity|].
  rewrite Hu, IH. reflexivity.
Qed.

Lemma validate_entries_str (l : loc) (kvs : list (string * string)) :
  validate_entries validate_str l (map (fun kv => (fst kv, VStr (snd kv))) kvs)
  = Valid kvs.
Proof.
  induction kvs as [|[k v] kvs IH]; simpl; [reflexivity|].
  rewrite IH. reflexivity.
Qed.

Lemma validate_entries_int (l : loc) (kvs : list (string * Z)) :
  validate_entries validate_int l (map (fun kv => (fst kv, VInt (snd kv))) kvs)
  = Valid kvs.
Proof.
  induction kvs as [|[k v] kvs IH]; simpl; [reflexivity|].
  rewrite IH. reflexivity.
Qed.

Lemma validate_items_dicts (l : loc) (its : list (list (string * Z))) :
  forall i,
  validate_items (validate_dict validate_int) l i
    (map (fun it => VDict (map (fun kv => (fst kv, VInt (snd kv))) it)) its)
  = Valid its.
Proof.
  induction its as [|it its IH]; intros i; simpl; [reflexivity|].
  rewrite validate_entries_int, IH. reflexivity.
Qed.

(** A product whose fields satisfy the constraints is constructed from
    its fields. *)
Lemma product_constructs (p : DroneProduct.t) :
  PyFloat.leb PyFloat.f0 (DroneProduct.price p) = true ->
  0 <= DroneProduct.stock_qty p ->
  PyFloat.leb PyFloat.f0 (DroneProduct.rating p) = true ->
  PyFloat.leb (DroneProduct.rating p) PyFloat.f5 = true ->
  Forall (fun u => http_url u = Some u) (DroneProduct.images p) ->
  DroneProduct.new (product_kwargs p) = Return p.
Proof.
  intros Hprice Hqty Hr0 Hr5 Hurls.
  destruct p as [title description price category images in_stock stock_qty
                 rating featured tags specs]; simpl in *.
  unfold DroneProduct.new, DroneProduct.validate, product_kwargs, required, optional.
  cbn [model_dump DroneProduct.dump dict_get String.eqb Ascii.eqb Bool.eqb
       DroneProduct.title DroneProduct.description DroneProduct.price
       DroneProduct.category DroneProduct.images DroneProduct.in_stock
       DroneProduct.stock_qty DroneProduct.rating DroneProduct.featured
       DroneProduct.tags DroneProduct.specs].
  cbn [validate_str validate_float validate_int validate_bool validate_list
       validate_dict v_bind].
  unfold ge_float, le_float, ge_int.
  rewrite Hprice, Hr5. cbn [v_bind]. unfold ge_float. rewrite Hr0.
  apply Z.leb_le in Hqty. rewrite Hqty.
  rewrite (validate_items_url _ _ Hurls), validate_items_str, validate_entries_str.
  destruct description; reflexivity.
Qed.

End SchemaFacts.

(** C5. Constructing a [DroneProduct] with a price that reads as a negative
    float, a [stock_qty] that reads as a negative int, or a rating that
    reads as a float below 0 or above 5, raises a [ValidationError] that
    reports that field; and a product whose price, [stock_qty] and rating
    satisfy the constraints (and whose image URLs are valid) is constructed
    from its fields. *)
Theorem DroneProduct_constraints {RT : Runtime} :
  (forall kwargs v p,
     dict_get "price" kwargs = Some v ->
     validate_float ["price"] v = Valid p ->
     PyFloat.ltb p PyFloat.f0 = true ->
     exists es, DroneProduct.new kwargs = Raise (ValidationError es) /\
                In ["price"] (map fst es)) /\
  (forall kwargs v n,
     dict_get "stock_qty" kwargs = Some v ->
     validate_int ["stock_qty"] v = Valid n ->
     n < 0 ->
     exists es, DroneProduct.new kwargs = Raise (ValidationError es) /\
                In ["stock_qty"] (map fst es)) /\
  (forall kwargs v r,
     dict_get "rating" kwargs = Some v ->
     validate_float ["rating"] v = Valid r ->
     PyFloat.ltb r PyFloat.f0 = true \/ PyFloat.ltb PyFloat.f5 r = true ->
     exists es, DroneProduct.new kwargs = Raise (ValidationError es) /\
                In ["rating"] (map fst es)) /\
  (forall p,
     PyFloat.leb PyFloat.f0 (DroneProduct.price p) = true ->
     0 <= DroneProduct.stock_qty p ->
     PyFloat.leb PyFloat.f0 (DroneProduct.rating p) = true ->
     PyFloat.leb (DroneProduct.rating p) PyFloat.f5 = true ->
     Forall (fun u => http_url u = Some u) (DroneProduct.images p) ->
     DroneProduct.new (product_kwargs p) = Return p).
Proof.
  split; [|split; [|split]].
  - intros kwargs v p Hget Hv Hneg. apply reports_construct.
    unfold DroneProduct.validate.
    do 8 apply reports_ap_l. apply reports_ap_r.
    unfold required. rewrite Hget, Hv. simpl.
    unfold ge_float. rewrite (ltb_not_leb _ _ Hneg). simpl; auto.
  - intros kwargs v n Hget Hv Hneg. apply reports_construct.
    unfold DroneProduct.validate.
    do 4 apply reports_ap_l. apply reports_ap_r.
    unfold optional. rewrite Hget, Hv. simpl.
    unfold ge_int. apply Z.leb_gt in Hneg. rewrite Hneg. simpl; auto.
  - intros kwargs v r Hget Hv Hout. apply reports_construct.
    unfold DroneProduct.validate.
    do 3 apply reports_ap_l. apply reports_ap_r.
    unfold optional. rewrite Hget, Hv. simpl.
    unfold le_float.
    destruct Hout as [Hlow|Hhigh].
    + destruct (PyFloat.leb r PyFloat.f5); simpl; [|auto].
      unfold ge_float. rewrite (ltb_not_leb _ _ Hlow). simpl; auto.
    + rewrite (ltb_not_leb _ _ Hhigh). simpl; auto.
  - apply @product_constructs.
Qed.

(** A product priced [-1.0] is refused at its price. *)
Lemma DroneProduct_constraints_witness :
  PyFloat.ltb (PyFloat.nearest true 1 1) PyFloat.f0 = true /\
  exists es,
    @DroneProduct.new plain_runtime
      [("title", VStr "Bench motor"); ("price", VFloat (PyFloat.nearest true 1 1));
       ("category", VStr "motors")] = Raise (ValidationError es) /\
    In ["price"] (map fst es).
Proof.
  split; [reflexivity|].
  apply (proj1 (@DroneProduct_constraints plain_runtime)
           [("title", VStr "Bench motor"); ("price", VFloat (PyFloat.nearest true 1 1));
            ("category", VStr "motors")]
           (VFloat (PyFloat.nearest true 1 1))
           (PyFloat.nearest true 1 1)); reflexivity.
Defined.

(* ================================================================== *)
(** * The schema defaults *)

Section DefaultFacts.
Context {RT : Runtime}.

Lemma optional_omitted {A} (name : string) (validator : loc -> value -> validated A)
    (default a : A) (kwargs : dict) :
  dict_get name kwargs = None ->
  optional name validator default kwargs = Valid a ->
  a = default.
Proof. unfold optional; intros ->; congruence. Qed.

(** The optional fields a constructed product was not given hold their
    defaults. *)
Lemma product_defaults (kwargs : dict) (p : DroneProduct.t) :
  DroneProduct.new kwargs = Return p ->
  (dict_get "in_stock" kwargs = None -> DroneProduct.in_stock p = true) /\
  (dict_get "stock_qty" kwargs = None -> DroneProduct.stock_qty p = 10) /\
  (dict_get "rating" kwargs = None -> DroneProduct.rating p = PyFloat.f4_8) /\
  (dict_get "featured" kwargs = None -> DroneProduct.featured p = false) /\
  (dict_get "tags" kwargs = None -> DroneProduct.tags p = []) /\
  (dict_get "specs" kwargs = None -> DroneProduct.specs p = []).
Proof.
  unfold DroneProduct.new. intros H.
  destruct (DroneProduct.validate kwargs) as [p'|es] eqn:Hv; [|discriminate].
  inversion H; subst p'; clear H.
  unfold DroneProduct.validate in Hv.
  repeat (apply v_ap_valid_inv in Hv as (? & ? & Hv & ? & ?)).
  inversion Hv; subst; simpl.
  repeat split; intros Hnone; eapply optional_omitted; eauto.
Qed.

Lemma order_defaults (kwargs : dict) (o : Order.t) :
  Order.new kwargs = Return o ->
  dict_get "status" kwargs = None ->
  Order.status o = "pending".
Proof.
  unfold Order.new. intros H Hnone.
  destruct (Order.validate kwargs) as [o'|es] eqn:Hv; [|discriminate].
  inversion H; subst o'; clear H.
  unfold Order.validate in Hv.
  repeat (apply v_ap_valid_inv in Hv as (? & ? & Hv & ? & ?)).
  inversion Hv; subst; simpl.
  eapply optional_omitted; eauto.
Qed.

End DefaultFacts.

(** C6. A [DroneProduct] constructed without its optional fields gets
    [in_stock=True], [stock_qty=10], [rating=4.8], [featured=False],
    [tags=[]] and [specs={}], each default being taken whenever that field
    is omitted; an [Order] constructed without a status gets ["pending"]. *)
Theorem schema_defaults {RT : Runtime} :
  (forall kwargs p,
     DroneProduct.new kwargs = Return p ->
     (dict_get "in_stock" kwargs = None -> DroneProduct.in_stock p = true) /\
     (dict_get "stock_qty" kwargs = None -> DroneProduct.stock_qty p = 10) /\
     (dict_get "rating" kwargs = None -> DroneProduct.rating p = PyFloat.f4_8) /\
     (dict_get "featured" kwargs = None -> DroneProduct.featured p = false) /\
     (dict_get "tags" kwargs = None -> DroneProduct.tags p = []) /\
     (dict_get "specs" kwargs = None -> DroneProduct.specs p = [])) /\
  (forall title price category,
     PyFloat.leb PyFloat.f0 price = true ->
     DroneProduct.new [("title", VStr title); ("price", VFloat price);
                       ("category", VStr category)] =
     Return {| DroneProduct.title := title;
               DroneProduct.description := None;
               DroneProduct.price := price;
               DroneProduct.category := category;
               DroneProduct.images := [];
               DroneProduct.in_stock := true;
               DroneProduct.stock_qty := 10;
               DroneProduct.rating := PyFloat.f4_8;
               DroneProduct.featured := false;
               DroneProduct.tags := [];
               DroneProduct.specs := [] |}) /\
  (forall kwargs o,
     Order.new kwargs = Return o ->
     dict_get "status" kwargs = None ->
     Order.status o = "pending") /\
  (forall email its total,
     PyFloat.leb PyFloat.f0 total = true ->
     Order.new [("email", VStr email); ("items", items_value its);
                ("total", VFloat total)] =
     Return {| Order.email := email;
               Order.items := its;
               Order.total := total;
               Order.status := "pending" |}).
Proof.
  split; [apply @product_defaults|].
  split.
  - intros title price category Hprice.
    unfold DroneProduct.new, DroneProduct.validate, required, optional.
    cbn [dict_get String.eqb Ascii.eqb Bool.eqb validate_str validate_float v_bind].
    unfold ge_float. rewrite Hprice. reflexivity.
  - split; [apply @order_defaults|].
    intros email its total Htotal.
    unfold Order.new, Order.validate, required, optional, items_value.
    cbn [dict_get String.eqb Ascii.eqb Bool.eqb validate_str validate_float
         validate_list v_bind].
    unfold ge_float. rewrite Htotal, validate_items_dicts. reflexivity.
Qed.

(** A motor given a title, a price and a category only. *)
Lemma schema_defaults_witness :
  PyFloat.leb PyFloat.f0 (PyFloat.nearest false 239 10) = true /\
  @DroneProduct.new plain_runtime
    [("title", VStr "2207 1950KV Pro Motor");
     ("price", VFloat (PyFloat.nearest false 239 10));
     ("category", VStr "motors")] =
  Return {| DroneProduct.title := "2207 1950KV Pro Motor";
            DroneProduct.description := None;
            DroneProduct.price := PyFloat.nearest false 239 10;
            DroneProduct.category := "motors";
            DroneProduct.images := [];
            DroneProduct.in_stock := true;
            DroneProduct.stock_qty := 10;
            DroneProduct.rating := PyFloat.f4_8;
            DroneProduct.featured := false;
            DroneProduct.tags := [];
            DroneProduct.specs := [] |}.
Proof.
  split; [reflexivity|].
  apply (proj1 (proj2 (@schema_defaults plain_runtime))). reflexivity.
Defined.

(* ================================================================== *)
(** * More on the order path *)

(** X1. Whenever [create_order] raises, whatever the exception, the
    database is as it was and no write was performed: the insertion is the
    last store operation of the handler, so no partial order exists. *)
Theorem create_order_raise_unchanged {RT : Runtime} (w w' : World)
    (payload : Main.CreateOrderRequest) (e : exn) :
  Main.create_order payload w = (Raise e, w') ->
  db w' = db w /\
  (forall op, In op (oplog w') -> In op (oplog w) \/ is_write op = false).
Proof.
  unfold Main.create_order. intros H.
  apply bind_inv in H as [(total & w1 & Htot & H)|(e' & Htot & _)].
  - apply for_each_add_line_db in Htot as [Hdb Hlog].
    apply bind_inv in H as [(o & w2 & Ho & H)|(e' & Ho & _)].
    + unfold lift in Ho. inversion Ho; subst w2; clear Ho.
      apply bind_inv in H as [(oid & w3 & Hins & H)|(e' & Hins & _)].
      * unfold ret in H. discriminate H.
      * unfold create_document in Hins.
        destruct (db w1) eqn:E; [destruct (document_encodable _)|];
          inversion Hins; subst; (split; [congruence|exact Hlog]).
    + unfold lift in Ho. inversion Ho; subst. auto.
  - apply for_each_add_line_db in Htot. exact Htot.
Qed.

(** An order of a malformed product leaves the demo store alone. *)
Lemma create_order_raise_unchanged_witness :
  @Main.create_order plain_runtime
    {| Main.email := "pilot@example.com";
       Main.items := [ {| Main.product_id := "zzz"; Main.qty := 1 |} ] |}
    demo_world =
  (Raise (HTTPException 404 "Product zzz not found"), demo_world) /\
  db demo_world = db demo_world.
Proof.
  split; [reflexivity|].
  exact (proj1 (@create_order_raise_unchanged plain_runtime demo_world demo_world
                  {| Main.email := "pilot@example.com";
                     Main.items := [ {| Main.product_id := "zzz"; Main.qty := 1 |} ] |}
                  (HTTPException 404 "Product zzz not found") eq_refl)).
Defined.

(** X2. Whenever [create_order] returns, the response has status ["ok"],
    exactly one document has been appended to the [order] collection and
    every other collection (the products among them: no stock is taken, no
    price touched) is as it was; the document carries the email of the
    request, the status ["pending"], a total that is not below [0.0], and
    the identifier whose string is the [order_id] of the response; the
    insertion is the only write. *)
Theorem create_order_returns {RT : Runtime} (d : Database) (ops : list store_op)
    (payload : Main.CreateOrderRequest) (resp : Main.OrderCreated) (w' : World) :
  Main.create_order payload (world_of d ops) = (Return resp, w') ->
  exists d' doc oid t ops1,
    w' = world_of d' (ops1 ++ [InsertOne "order" doc])%list /\
    (forall op, In op ops1 -> In op ops \/ is_write op = false) /\
    collection d' "order" = (collection d "order" ++ [doc])%list /\
    (forall name, name <> "order" -> collection d' name = collection d name) /\
    Main.status resp = "ok" /\
    Main.order_id resp = ObjectIdOps.to_str oid /\
    dict_get "_id" doc = Some (VObjectId oid) /\
    dict_get "email" doc = Some (VStr (Main.email payload)) /\
    dict_get "status" doc = Some (VStr "pending") /\
    dict_get "total" doc = Some (VFloat t) /\
    PyFloat.leb PyFloat.f0 t = true.
Proof.
  unfold Main.create_order. intros H.
  apply bind_inv in H as [(total & w1 & Htot & H)|(e' & _ & He)]; [|discriminate].
  pose proof (for_each_add_line_db _ _ _ _ _ Htot) as [Hdb Hlog].
  destruct w1 as [db1 ops1]. simpl in Hdb, Hlog. subst db1.
  apply bind_inv in H as [(o & w2 & Ho & H)|(e' & _ & He)]; [|discriminate].
  unfold lift in Ho. inversion Ho as [[Hnew Hw2]]; subst w2; clear Ho.
  change {| db := Some d; oplog := ops1 |} with (world_of d ops1) in H.
  pose proof (create_document_run d ops1 "order" o) as Hins. cbv zeta in Hins.
  destruct (document_encodable (model_dump o));
    [|rewrite (bind_raise _ _ _ _ _ Hins) in H; discriminate].
  rewrite (bind_return _ _ _ _ _ Hins) in H. clear Hins.
  inversion H; subst; clear H.
  apply order_new_inv in Hnew as (Hemail & Htotal & Hstatus & Hge).
  eexists; eexists; exists (oid_of_counter (next_oid d)); exists (Order.total o);
    exists ops1.
  split; [reflexivity|]. split; [exact Hlog|].
  split; [apply collection_set_same|].
  split.
  { intros name Hne.
    rewrite (collection_set_other (collections d) "order" name _ _ (next_oid d) Hne).
    destruct d; reflexivity. }
  simpl. rewrite Hemail, Hstatus.
  repeat split; try reflexivity.
  rewrite Htotal. exact Hge.
Qed.

(** The empty cart on the demo store. *)
Lemma create_order_returns_witness :
  exists d' doc oid t ops1,
    snd (@Main.create_order plain_runtime
           {| Main.email := "pilot@example.com"; Main.items := [] |}
           (world_of demo_db [])) =
      world_of d' (ops1 ++ [InsertOne "order" doc])%list /\
    (forall op, In op ops1 -> In op [] \/ is_write op = false) /\
    collection d' "order" = (collection demo_db "order" ++ [doc])%list /\
    (forall name, name <> "order" -> collection d' name = collection demo_db name) /\
    "ok" = "ok" /\
    "000000000000000000000001" = ObjectIdOps.to_str oid /\
    dict_get "_id" doc = Some (VObjectId oid) /\
    dict_get "email" doc = Some (VStr "pilot@example.com") /\
    dict_get "status" doc = Some (VStr "pending") /\
    dict_get "total" doc = Some (VFloat t) /\
    PyFloat.leb PyFloat.f0 t = true.
Proof.
  exact (@create_order_returns plain_runtime demo_db []
           {| Main.email := "pilot@example.com"; Main.items := [] |}
           {| Main.status := "ok"; Main.order_id := "000000000000000000000001" |}
           _ eq_refl).
Defined.

(** X3. [create_order] never persists an order whose total is below zero:
    when the rounded total of a priced cart does not compare greater than
    or equal to [0.0] (a store price is negative, or the sum is NaN), the
    [Order] constructor raises a [ValidationError] that reports [total],
    and the database is unchanged. *)
Theorem create_order_negative_total {RT : Runtime} (d : Database)
    (ops : list store_op) (payload : Main.CreateOrderRequest)
    (lines : list (PyFloat.float * PyFloat.float)) :
  Forall2 (priced d) (Main.items payload) lines ->
  PyFloat.leb PyFloat.f0 (spec_total lines) = false ->
  exists errors ops',
    Main.create_order payload (world_of d ops) =
      (Raise (ValidationError errors), world_of d ops') /\
    In ["total"] (map fst errors) /\
    (forall op, In op ops' -> In op ops \/ is_write op = false).
Proof.
  intros Hp Hneg.
  destruct (for_each_add_line_priced d _ _ Hp PyFloat.f0 ops) as (ops1 & Hops1 & Hloop).
  fold (float_sum (map line_value lines)) in Hloop.
  assert (Hrep : reports (Order.validate
                            (Main.order_kwargs payload (float_sum (map line_value lines))))
                         ["total"]).
  { unfold Order.validate. apply reports_ap_l, reports_ap_r.
    unfold required, Main.order_kwargs.
    cbn [dict_get String.eqb Ascii.eqb Bool.eqb validate_float v_bind].
    unfold ge_float. fold (spec_total lines). rewrite Hneg. simpl; auto. }
  apply reports_construct in Hrep as (errors & Hnew & Hin).
  exists errors, ops1. split; [|split; auto].
  unfold Main.create_order, Main.order_total.
  rewrite (bind_return _ _ _ _ _ Hloop).
  fold (Order.new (Main.order_kwargs payload (float_sum (map line_value lines)))) in Hnew.
  rewrite Hnew. reflexivity.
Qed.

(** Two units of a product priced [-5.0]. *)
Lemma create_order_negative_total_witness :
  PyFloat.leb PyFloat.f0
    (spec_total [(PyFloat.nearest true 5 1, PyFloat.nearest false 2 1)]) = false /\
  exists errors ops',
    @Main.create_order plain_runtime
      {| Main.email := "pilot@example.com";
         Main.items := [ {| Main.product_id := oid_refund; Main.qty := 2 |} ] |}
      (world_of negative_price_db []) =
      (Raise (ValidationError errors), world_of negative_price_db ops') /\
    In ["total"] (map fst errors) /\
    (forall op, In op ops' -> In op [] \/ is_write op = false).
Proof.
  split; [reflexivity|].
  apply (@create_order_negative_total plain_runtime negative_price_db []
           {| Main.email := "pilot@example.com";
              Main.items := [ {| Main.product_id := oid_refund; Main.qty := 2 |} ] |}
           [(PyFloat.nearest true 5 1, PyFloat.nearest false 2 1)]).
  - repeat constructor.
    eexists; split; [vm_compute; reflexivity|]. split; vm_compute; reflexivity.
  - reflexivity.
Defined.

(** X4. With no database configured ([db] is [None]), subscripting it
    raises inside the [try] of the lookup, so an order with at least one
    item is answered 404 for its first item, with no store operation; an
    order with no item reaches the insertion, which raises. *)
Theorem create_order_no_database {RT : Runtime} (ops : list store_op)
    (email : string) (item : Main.CartItem) (rest : list Main.CartItem) :
  Main.create_order {| Main.email := email; Main.items := item :: rest |}
    {| db := None; oplog := ops |} =
    (Raise (HTTPException 404 ("Product " ++ Main.product_id item ++ " not found")),
     {| db := None; oplog := ops |}) /\
  Main.create_order {| Main.email := email; Main.items := [] |}
    {| db := None; oplog := ops |} =
    (Raise StoreUnavailable, {| db := None; oplog := ops |}).
Proof. split; reflexivity. Qed.

Lemma lookup_product_log {RT : Runtime} (d : Database) (ops : list store_op)
    (item : Main.CartItem) (doc : dict) :
  resolve d (Main.product_id item) = Some doc ->
  Main.lookup_product (Main.product_id item) (world_of d ops) =
    (Return (Some doc), world_of d (ops ++ lookup_log [item])%list).
Proof.
  unfold resolve, Main.lookup_product, lookup_log, world_of. simpl.
  destruct (ObjectIdOps.of_str (Main.product_id item)) as [oid|]; [|discriminate].
  intros ->. reflexivity.
Qed.

Lemma lookup_log_cons (item : Main.CartItem) (items : list Main.CartItem) :
  lookup_log (item :: items) = (lookup_log [item] ++ lookup_log items)%list.
Proof. unfold lookup_log. simpl. rewrite app_nil_r. reflexivity. Qed.

Lemma for_each_add_line_log {RT : Runtime} (d : Database)
    (items : list Main.CartItem) (lines : list (PyFloat.float * PyFloat.float)) :
  Forall2 (priced d) items lines ->
  forall (acc : PyFloat.float) (ops : list store_op),
  for_each Main.add_line items acc (world_of d ops) =
    (Return (fold_left PyFloat.add (map line_value lines) acc),
     world_of d (ops ++ lookup_log items)%list) /\
  List.length (lookup_log items) = List.length items.
Proof.
  induction 1 as [|item line items lines Hp _ IH]; intros acc ops.
  - simpl. rewrite app_nil_r. auto.
  - destruct Hp as (doc & Hres & Hprice & Hqty).
    destruct (IH (PyFloat.add acc (line_value line)) (ops ++ lookup_log [item])%list)
      as [Hrest Hlen].
    rewrite lookup_log_cons. split.
    + assert (Hline : Main.add_line acc item (world_of d ops) =
                        (Return (PyFloat.add acc (line_value line)),
                         world_of d (ops ++ lookup_log [item])%list)).
      { unfold Main.add_line.
        rewrite (bind_return _ _ _ _ _ (lookup_product_log d ops item doc Hres)).
        assert (Hnd : Main.not_doc (Some doc) = false).
        { rewrite <- Hres. rewrite not_doc_resolve, Hres. reflexivity. }
        rewrite Hnd. unfold bind, lift, ret.
        rewrite Hprice. unfold Main.mul_int. rewrite Hqty. reflexivity. }
      simpl for_each. rewrite (bind_return _ _ _ _ _ Hline).
      rewrite Hrest. rewrite <- app_assoc. reflexivity.
    + rewrite length_app, Hlen.
      unfold lookup_log, resolve in *. simpl.
      destruct (ObjectIdOps.of_str (Main.product_id item)); [reflexivity|discriminate].
Qed.

(** X5. Pricing a cart performs exactly one [find_one] on the product
    collection for each cart item, in cart order (an identifier that comes
    twice is looked up twice), and no other store operation. *)
Theorem order_total_lookups {RT : Runtime} (d : Database) (ops : list store_op)
    (items : list Main.CartItem) (lines : list (PyFloat.float * PyFloat.float)) :
  Forall2 (priced d) items lines ->
  Main.order_total items (world_of d ops) =
    (Return (float_sum (map line_value lines)),
     world_of d (ops ++ lookup_log items)%list) /\
  List.length (lookup_log items) = List.length items.
Proof.
  intros Hp. exact (for_each_add_line_log d items lines Hp PyFloat.f0 ops).
Qed.

(** The cart of one Raven and two motors: two lookups. *)
Lemma order_total_lookups_witness :
  Forall2 (@priced plain_runtime demo_db)
    [ {| Main.product_id := oid_raven; Main.qty := 1 |};
      {| Main.product_id := oid_motor; Main.qty := 2 |} ]
    [ (PyFloat.nearest false 499 1, PyFloat.nearest false 1 1);
      (PyFloat.nearest false 239 10, PyFloat.nearest false 2 1) ] /\
  List.length (lookup_log
                 [ {| Main.product_id := oid_raven; Main.qty := 1 |};
                   {| Main.product_id := oid_motor; Main.qty := 2 |} ]) = 2%nat.
Proof.
  assert (H : Forall2 (@priced plain_runtime demo_db)
    [ {| Main.product_id := oid_raven; Main.qty := 1 |};
      {| Main.product_id := oid_motor; Main.qty := 2 |} ]
    [ (PyFloat.nearest false 499 1, PyFloat.nearest false 1 1);
      (PyFloat.nearest false 239 10, PyFloat.nearest false 2 1) ]).
  { repeat constructor.
    - eexists; split; [vm_compute; reflexivity|]. split; vm_compute; reflexivity.
    - eexists; split; [vm_compute; reflexivity|]. split; vm_compute; reflexivity. }
  split; [exact H|].
  exact (proj2 (@order_total_lookups plain_runtime demo_db [] _ _ H)).
Defined.

Lemma validate_cart_items_inv {RT : Runtime} (l : loc) (items : list Main.CartItem) :
  forall (i : nat) (its : list (list (string * Z))),
  validate_items (validate_dict validate_int) l i
    (map (fun it => VDict [("product_id", VStr (Main.product_id it));
                           ("qty", VInt (Main.qty it))]) items) = Valid its ->
  Forall2 (fun item it =>
             exists z, lax_int (VStr (Main.product_id item)) = Some z /\
                       it = [("product_id", z); ("qty", Main.qty item)])
          items its.
Proof.
  induction items as [|item items IH]; intros i its H; cbn [map validate_items] in H.
  - inversion H; constructor.
  - apply v_ap_valid_inv in H as (f & its' & H & Hrest & ->).
    apply v_ap_valid_inv in H as (g & it & Hg & Hit & ->).
    inversion Hg; subst g; clear Hg.
    constructor; [|eapply IH; eauto].
    cbn [validate_dict validate_entries validate_int] in Hit.
    destruct (lax_int (VStr (Main.product_id item))) as [z|] eqn:Elax;
      simpl in Hit; inversion Hit; subst.
    exists z; auto.
Qed.

Lemma order_items_encodable (its : list (list (string * Z))) :
  bson_encodable (items_value its) = true ->
  Forall (Forall (fun kv => fits_int64 (snd kv))) its.
Proof.
  unfold items_value. cbn [bson_encodable].
  induction its as [|it its IH]; cbn [map forallb]; intros H; constructor.
  - apply andb_true_iff in H as [H _]. cbn [bson_encodable] in H.
    clear IH. induction it as [|[k z] it IH]; constructor.
    + cbn [map forallb snd fst bson_encodable] in H.
      apply andb_true_iff in H as [H _]. apply andb_true_iff in H as [H1 H2].
      apply Z.leb_le in H1, H2. unfold fits_int64; simpl. lia.
    + apply IH. cbn [map forallb] in H. apply andb_true_iff in H as [_ H]. exact H.
  - apply IH. apply andb_true_iff in H as [_ H]. exact H.
Qed.

(** X6. Whenever [create_order] returns, the item list of the persisted
    order holds, for each cart item, the integer its [product_id] was
    coerced to and its quantity, each within the 8 bytes of a BSON integer:
    an order is persisted only when every [product_id] reads as such an
    integer, and never with the string submitted. *)
Theorem create_order_persists_int_ids {RT : Runtime} (d : Database)
    (ops : list store_op) (payload : Main.CreateOrderRequest)
    (resp : Main.OrderCreated) (w' : World) :
  Main.create_order payload (world_of d ops) = (Return resp, w') ->
  exists d' doc its,
    db w' = Some d' /\
    collection d' "order" = (collection d "order" ++ [doc])%list /\
    dict_get "items" doc = Some (items_value its) /\
    Forall2 (fun item it =>
               exists z, lax_int (VStr (Main.product_id item)) = Some z /\
                         it = [("product_id", z); ("qty", Main.qty item)] /\
                         fits_int64 z /\ fits_int64 (Main.qty item))
            (Main.items payload) its.
Proof.
  unfold Main.create_order. intros H.
  apply bind_inv in H as [(total & w1 & Htot & H)|(e' & _ & He)]; [|discriminate].
  pose proof (for_each_add_line_db _ _ _ _ _ Htot) as [Hdb _].
  destruct w1 as [db1 ops1]. simpl in Hdb. subst db1.
  apply bind_inv in H as [(o & w2 & Ho & H)|(e' & _ & He)]; [|discriminate].
  unfold lift in Ho. inversion Ho as [[Hnew Hw2]]; subst w2; clear Ho.
  change {| db := Some d; oplog := ops1 |} with (world_of d ops1) in H.
  pose proof (create_document_run d ops1 "order" o) as Hins. cbv zeta in Hins.
  destruct (document_encodable (model_dump o)) eqn:Eenc;
    [|rewrite (bind_raise _ _ _ _ _ Hins) in H; discriminate].
  rewrite (bind_return _ _ _ _ _ Hins) in H. clear Hins.
  inversion H; subst; clear H.
  eexists; eexists; exists (Order.items o).
  split; [reflexivity|]. split; [apply collection_set_same|].
  split; [reflexivity|].
  assert (Hfit : Forall (Forall (fun kv => fits_int64 (snd kv))) (Order.items o)).
  { apply order_items_encodable.
    unfold document_encodable in Eenc.
    cbn [model_dump Order.dump forallb snd] in Eenc.
    apply andb_true_iff in Eenc as [_ Eenc].
    apply andb_true_iff in Eenc as [Eenc _]. exact Eenc. }
  unfold Order.new in Hnew.
  destruct (Order.validate (Main.order_kwargs payload total)) as [o'|es] eqn:Hv;
    [|discriminate].
  inversion Hnew; subst o'; clear Hnew.
  unfold Order.validate in Hv.
  repeat (apply v_ap_valid_inv in Hv as (? & ? & Hv & ? & ?)).
  inversion Hv; subst; simpl in Hfit |- *.
  match goal with
  | Hitems : required "items" _ _ = Valid _ |- _ =>
      unfold required, Main.order_kwargs in Hitems;
      cbn [dict_get String.eqb Ascii.eqb Bool.eqb validate_list] in Hitems;
      pose proof (validate_cart_items_inv _ _ _ _ Hitems) as Hids
  end.
  clear - Hids Hfit.
  induction Hids as [|item it items its (z & Hz & Hit) _ IH]; constructor.
  - inversion Hfit as [|? ? Hhd _]; subst.
    inversion Hhd as [|? ? Hz1 Htl]; subst. inversion Htl as [|? ? Hq1 _]; subst.
    exists z; repeat split; auto; simpl in *; unfold fits_int64 in *; lia.
  - apply IH. inversion Hfit; assumption.
Qed.

(** Three packs of the product whose identifier is all digits. *)
Lemma create_order_persists_int_ids_witness :
  exists d' doc its,
    db (snd (@Main.create_order plain_runtime
               {| Main.email := "pilot@example.com";
                  Main.items := [ {| Main.product_id := oid_digits; Main.qty := 3 |} ] |}
               (world_of digits_db []))) = Some d' /\
    collection d' "order" = (collection digits_db "order" ++ [doc])%list /\
    dict_get "items" doc = Some (items_value its) /\
    Forall2 (fun item it =>
               exists z, @lax_int plain_runtime (VStr (Main.product_id item)) = Some z /\
                         it = [("product_id", z); ("qty", Main.qty item)] /\
                         fits_int64 z /\ fits_int64 (Main.qty item))
            [ {| Main.product_id := oid_digits; Main.qty := 3 |} ] its.
Proof.
  exact (@create_order_persists_int_ids plain_runtime digits_db []
           {| Main.email := "pilot@example.com";
              Main.items := [ {| Main.product_id := oid_digits; Main.qty := 3 |} ] |}
           {| Main.status := "ok"; Main.order_id := "000000000000000000000001" |}
           _ eq_refl).
Defined.

(* ================================================================== *)
(** * From the listing to the order *)

Lemma matches_id (oid : ObjectId) (doc : dict) :
  matches [("_id", VObjectId oid)] doc = true <->
  dict_get "_id" doc = Some (VObjectId oid).
Proof.
  unfold matches. cbn [forallb fst snd]. rewrite andb_true_r.
  destruct (dict_get "_id" doc) as [v|]; [|split; discriminate].
  split.
  - destruct v; simpl; try discriminate.
    unfold ObjectIdOps.eqb. destruct (list_eq_dec _ _ _) as [E|]; [|discriminate].
    intros _. destruct o, oid; simpl in E; subst; reflexivity.
  - intros H; inversion H; subst. simpl. unfold ObjectIdOps.eqb.
    destruct (list_eq_dec _ _ _); congruence.
Qed.

(** X7. The [id] that [list_products] gives the record of a stored product
    is a [product_id] under which [create_order] finds that product: for a
    document of the product collection whose [_id] is a twelve-byte
    [ObjectId] that no other document carries, the identifier of its record
    resolves to the document itself. *)
Theorem listed_id_resolves {RT : Runtime} (d : Database) (doc : dict)
    (oid : ObjectId) (o : Main.DroneProductOut) :
  In doc (collection d "droneproduct") ->
  dict_get "_id" doc = Some (VObjectId oid) ->
  List.length (binary oid) = 12%nat ->
  (forall doc', In doc' (collection d "droneproduct") ->
                dict_get "_id" doc' = Some (VObjectId oid) -> doc' = doc) ->
  Main.reshape doc = Return o ->
  Main.id o = ObjectIdOps.to_str oid /\
  resolve d (Main.id o) = Some doc.
Proof.
  intros Hin Hid Hlen Huniq Hre.
  apply reshape_inv in Hre as [Ho _].
  assert (Hstr : Main.id o = ObjectIdOps.to_str oid).
  { rewrite Ho. unfold dict_get_default. rewrite Hid. reflexivity. }
  split; [exact Hstr|].
  rewrite Hstr. unfold resolve. rewrite (of_str_to_str oid Hlen). unfold find_one.
  destruct (find (matches [("_id", VObjectId oid)]) (collection d "droneproduct"))
    as [doc'|] eqn:Ef.
  - apply find_some in Ef as [Hin' Hm]. apply matches_id in Hm.
    f_equal. apply Huniq; assumption.
  - exfalso. apply (find_none _ _ Ef) in Hin.
    apply matches_id in Hid. congruence.
Qed.

(** The motor of the demo catalogue. *)
Lemma listed_id_resolves_witness :
  exists doc o,
    nth_error (collection demo_db "droneproduct") 2 = Some doc /\
    @Main.reshape plain_runtime doc = Return o /\
    Main.id o = oid_motor /\
    resolve demo_db (Main.id o) = Some doc.
Proof.
  eexists; eexists.
  split; [reflexivity|]. split; [vm_compute; reflexivity|]. split; [reflexivity|].
  refine (proj2 (@listed_id_resolves plain_runtime demo_db _
                   {| binary := [x65; xa1; xf0; xc2; xb3; xd4; xe5; xf6;
                                 x07; x18; x29; x3c] |} _ _ _ _ _ _)).
  - right; right; left; reflexivity.
  - reflexivity.
  - reflexivity.
  - intros doc' [<-|[<-|[<-|[]]]] H; try reflexivity; vm_compute in H; discriminate.
  - vm_compute; reflexivity.
Defined.

(* ================================================================== *)
(** * More on the catalogue query *)

Lemma matches_app (q1 q2 : dict) (doc : dict) :
  matches (q1 ++ q2)%list doc = matches q1 doc && matches q2 doc.
Proof. unfold matches. apply forallb_app. Qed.

Lemma matches_featured_query (category : option string) (b : bool) (doc : dict) :
  matches (Main.build_query category (Some b)) doc = true ->
  dict_get "featured" doc = Some (VBool b).
Proof.
  unfold Main.build_query. rewrite matches_app, andb_true_iff. intros [_ H].
  unfold matches in H. cbn [forallb fst snd] in H. rewrite andb_true_r in H.
  destruct (dict_get "featured" doc) as [v|]; [|discriminate].
  apply value_eqb_bool in H. congruence.
Qed.

Lemma validate_featured {RT : Runtime} (kwargs : dict) (p : DroneProduct.t) (b : bool) :
  DroneProduct.validate kwargs = Valid p ->
  dict_get "featured" kwargs = Some (VBool b) ->
  DroneProduct.featured p = b.
Proof.
  unfold DroneProduct.validate. intros H Hb.
  repeat (apply v_ap_valid_inv in H as (? & ? & H & ? & ?)).
  subst. unfold optional in *. rewrite Hb in *. simpl in *.
  match goal with H : Valid DroneProduct.Build_t = Valid _ |- _ =>
    inversion H; subst; clear H end.
  match goal with H : Valid b = Valid _ |- _ => inversion H; subst; clear H end.
  reflexivity.
Qed.

(** X8. The [featured] flag filters whenever it is supplied, [False]
    included ([is not None], not truthiness): every document selected has
    that flag, and every record returned has it. *)
Theorem list_products_featured {RT : Runtime} (d : Database) (ops : list store_op)
    (category : option string) (b : bool) (limit : option Z) :
  (forall doc, In doc (queried d category (Some b) limit) ->
               dict_get "featured" doc = Some (VBool b)) /\
  (forall outs,
     fst (Main.list_products category (Some b) limit (world_of d ops)) = Return outs ->
     Forall (fun o => DroneProduct.featured (Main.product o) = b) outs).
Proof.
  assert (Hq : forall doc, In doc (queried d category (Some b) limit) ->
                           dict_get "featured" doc = Some (VBool b)).
  { intros doc Hin. unfold queried in Hin. apply firstn_In in Hin.
    apply filter_In in Hin as [_ Hm]. exact (matches_featured_query _ _ _ Hm). }
  split; [exact Hq|].
  intros outs Houts.
  apply (proj2 (list_products_run d ops category (Some b) limit)) in Houts.
  revert Hq Houts. generalize (queried d category (Some b) limit).
  intros docs0 Hq Houts.
  induction Houts as [|doc o docs outs Ho _ IH]; constructor.
  - apply reshape_inv in Ho as [_ Hv].
    apply (validate_featured _ _ b Hv).
    rewrite dict_get_remove_other by discriminate. apply Hq; left; reflexivity.
  - apply IH. intros doc' Hin. apply Hq; right; exact Hin.
Qed.

(** The products of the demo catalogue that are not featured. *)
Example list_products_not_featured :
  option_map (map (fun o => DroneProduct.title (Main.product o)))
    (match fst (@Main.list_products plain_runtime None (Some false) None demo_world) with
     | Return outs => Some outs
     | Raise _ => None
     end) = Some ["2207 1950KV Pro Motor"].
Proof. vm_compute. reflexivity. Qed.

Lemma reshape_loop_first_failure {RT : Runtime} (bad : dict) (post : list dict)
    (e : exn) :
  Main.reshape bad = Raise e ->
  forall (pre : list dict) (acc : list Main.DroneProductOut) (w : World),
  Forall (fun doc => exists o, Main.reshape doc = Return o) pre ->
  fst (for_each (fun out d => o <- lift (Main.reshape d) ;; ret (out ++ [o])%list)
         (pre ++ bad :: post) acc w) = Raise e.
Proof.
  intros Hbad. induction pre as [|doc pre IH]; intros acc w Hpre.
  - simpl. unfold bind, lift. rewrite Hbad. reflexivity.
  - inversion Hpre as [|? ? (o & Ho) Hrest]; subst.
    simpl. unfold bind at 1. unfold bind at 1. unfold lift. rewrite Ho. simpl.
    apply IH. exact Hrest.
Qed.

(** X9. [list_products] is all or nothing: the first document of the
    store's answer that does not make a [DroneProductOut] decides the
    outcome, and its exception is raised instead of any list, whatever the
    documents after it. *)
Theorem list_products_first_failure {RT : Runtime} (d : Database)
    (ops : list store_op) (category : option string) (featured : option bool)
    (limit : option Z) (pre post : list dict) (bad : dict) (e : exn) :
  queried d category featured limit = (pre ++ bad :: post)%list ->
  Forall (fun doc => exists o, Main.reshape doc = Return o) pre ->
  Main.reshape bad = Raise e ->
  fst (Main.list_products category featured limit (world_of d ops)) = Raise e.
Proof.
  intros Hq Hpre Hbad.
  unfold Main.list_products. fold (effective_limit limit).
  unfold bind. rewrite get_documents_run.
  fold (queried d category featured limit). rewrite Hq.
  apply reshape_loop_first_failure; assumption.
Qed.

(** The catalogue with a product stored without a price: the listing fails
    on it. *)
Lemma list_products_first_failure_witness :
  fst (@Main.list_products plain_runtime None None None (world_of unpriced_db [])) =
  Raise (ValidationError [(["price"], "missing")]).
Proof.
  apply (@list_products_first_failure plain_runtime unpriced_db [] None None None
           demo_products [] unpriced_product).
  - reflexivity.
  - repeat constructor; eexists; vm_compute; reflexivity.
  - vm_compute; reflexivity.
Defined.

Lemma reshape_id_field {RT : Runtime} (doc : dict) :
  dict_has "id" doc = true -> Main.reshape doc = Raise TypeError.
Proof.
  unfold Main.reshape, dict_pop, Main.DroneProductOut_new, dict_has.
  rewrite dict_get_remove_other by discriminate.
  destruct (dict_get "id" doc); [reflexivity|discriminate].
Qed.

(** X10. A stored document that has a field named [id] breaks the listing:
    the field clashes with the [id] keyword of the [DroneProductOut] call,
    and [list_products] raises [TypeError] when it reaches that document. *)
Theorem list_products_id_field {RT : Runtime} (d : Database)
    (ops : list store_op) (category : option string) (featured : option bool)
    (limit : option Z) (pre post : list dict) (bad : dict) :
  queried d category featured limit = (pre ++ bad :: post)%list ->
  Forall (fun doc => exists o, Main.reshape doc = Return o) pre ->
  dict_has "id" bad = true ->
  fst (Main.list_products category featured limit (world_of d ops)) = Raise TypeError.
Proof.
  intros Hq Hpre Hbad.
  unfold Main.list_products. fold (effective_limit limit).
  unfold bind. rewrite get_documents_run.
  fold (queried d category featured limit). rewrite Hq.
  apply reshape_loop_first_failure; [apply reshape_id_field; exact Hbad|exact Hpre].
Qed.

(** The catalogue whose second document has an [id] field. *)
Lemma list_products_id_field_witness :
  fst (@Main.list_products plain_runtime None None None (world_of clash_db [])) =
  Raise TypeError.
Proof.
  apply (@list_products_id_field plain_runtime clash_db [] None None None
           [stored_product oid_raven "FPV 24/7 Raven 5" "custom-drones"
              (PyFloat.nearest false 499 1) true]
           []
           (stored_product oid_motor "2207 1950KV Pro Motor" "motors"
              (PyFloat.nearest false 239 10) false ++ [("id", VStr "sku-2207")])%list).
  - reflexivity.
  - repeat constructor; eexists; vm_compute; reflexivity.
  - reflexivity.
Defined.

Lemma dict_get_insert_other (k k' : string) (v : value) (pre post : dict) :
  k' <> k ->
  dict_get k' (pre ++ (k, v) :: post)%list = dict_get k' (pre ++ post)%list.
Proof.
  intros Hne. induction pre as [|[k0 v0] pre IH]; cbn [app dict_get].
  - destruct (String.eqb k' k) eqn:E; [apply String.eqb_eq in E; congruence|reflexivity].
  - destruct (String.eqb k' k0); [reflexivity|exact IH].
Qed.

Lemma dict_remove_insert (k r : string) (v : value) (pre post : dict) :
  k <> r ->
  dict_remove r (pre ++ (k, v) :: post)%list =
  (dict_remove r pre ++ (k, v) :: dict_remove r post)%list.
Proof.
  intros Hne. unfold dict_remove. rewrite filter_app. cbn [filter fst].
  destruct (String.eqb r k) eqn:E; [apply String.eqb_eq in E; congruence|reflexivity].
Qed.

Lemma dict_remove_app (r : string) (pre post : dict) :
  dict_remove r (pre ++ post)%list = (dict_remove r pre ++ dict_remove r post)%list.
Proof. apply filter_app. Qed.

(** The validation of a product reads its keyword arguments at the fields
    of the schema only. *)
Lemma validate_product_ext {RT : Runtime} (kw1 kw2 : dict) :
  (forall f, In f product_fields -> dict_get f kw1 = dict_get f kw2) ->
  DroneProduct.validate kw1 = DroneProduct.validate kw2.
Proof.
  intros H. unfold DroneProduct.validate, required, optional.
  rewrite (H "title"), (H "description"), (H "price"), (H "category"),
    (H "images"), (H "in_stock"), (H "stock_qty"), (H "rating"),
    (H "featured"), (H "tags"), (H "specs"); try reflexivity;
    unfold product_fields; simpl; tauto.
Qed.

(** X11. A field of a stored document that is not a field of the schema
    (a timestamp, say) is ignored: the record of the document is the one
    of the document without that field. *)
Theorem reshape_ignores_other_fields {RT : Runtime} (pre post : dict)
    (k : string) (v : value) :
  ~ In k product_fields ->
  k <> "_id" ->
  Main.reshape (pre ++ (k, v) :: post)%list = Main.reshape (pre ++ post)%list.
Proof.
  intros Hk Hid.
  assert (Hother : forall f, In f product_fields -> f <> k)
    by (intros f Hf ->; contradiction).
  unfold Main.reshape, dict_pop, dict_get_default.
  rewrite (dict_get_insert_other k "_id" v pre post) by congruence.
  rewrite (dict_remove_insert k "_id" v pre post Hid), dict_remove_app.
  unfold Main.DroneProductOut_new, dict_has.
  rewrite (dict_get_insert_other k "id" v) by (apply Hother; unfold product_fields; simpl; tauto).
  destruct (dict_get "id" (dict_remove "_id" pre ++ dict_remove "_id" post)%list);
    [reflexivity|].
  rewrite !validate_with_id.
  rewrite (validate_product_ext
             (dict_remove "_id" pre ++ (k, v) :: dict_remove "_id" post)%list
             (dict_remove "_id" pre ++ dict_remove "_id" post)%list).
  - reflexivity.
  - intros f Hf. apply dict_get_insert_other. apply Hother; exact Hf.
Qed.

(** The Raven document with a [created_at] field added. *)
Lemma reshape_ignores_other_fields_witness :
  @Main.reshape plain_runtime
    (stored_product oid_raven "FPV 24/7 Raven 5" "custom-drones"
       (PyFloat.nearest false 499 1) true ++ [("created_at", VInt 1730000000)])%list =
  @Main.reshape plain_runtime
    (stored_product oid_raven "FPV 24/7 Raven 5" "custom-drones"
       (PyFloat.nearest false 499 1) true ++ [])%list.
Proof.
  apply (@reshape_ignores_other_fields plain_runtime).
  - unfold product_fields. simpl.
    intros H; repeat (destruct H as [H|H]; [discriminate H|]); exact H.
  - discriminate.
Defined.

(* ================================================================== *)
(** * More on the schemas *)

Lemma reports_error_ap_l {A B} (vf : validated (A -> B)) (va : validated A)
    (err : error_detail) :
  reports_error vf err -> reports_error (vf <*> va) err.
Proof.
  destruct vf as [f|es]; [contradiction|].
  destruct va as [a|es']; simpl; auto.
  intros H. apply in_or_app; auto.
Qed.

Lemma reports_error_ap_r {A B} (vf : validated (A -> B)) (va : validated A)
    (err : error_detail) :
  reports_error va err -> reports_error (vf <*> va) err.
Proof.
  destruct va as [a|es']; [contradiction|].
  destruct vf as [f|es]; simpl; auto.
  intros H. apply in_or_app; auto.
Qed.

Lemma reports_error_construct {A} (v : validated A) (err : error_detail) :
  reports_error v err ->
  exists es, construct v = Raise (ValidationError es) /\ In err es.
Proof.
  destruct v as [a|es]; [contradiction|]. simpl. eauto.
Qed.

Lemma required_missing {RT : Runtime} {A} (name : string)
    (validator : loc -> value -> validated A) (kwargs : dict) :
  dict_get name kwargs = None ->
  reports_error (required name validator kwargs) ([name], "missing").
Proof. unfold required; intros ->; simpl; auto. Qed.

(** X13. The required fields are required: constructing a [DroneProduct]
    without [title], [price] or [category], or an [Order] without [email],
    [items] or [total], raises a [ValidationError] with a [missing] error
    at that field, whatever the other arguments; every missing field is
    reported. *)
Theorem required_fields {RT : Runtime} (kwargs : dict) :
  (dict_get "title" kwargs = None ->
   exists es, DroneProduct.new kwargs = Raise (ValidationError es) /\
              In (["title"], "missing") es) /\
  (dict_get "price" kwargs = None ->
   exists es, DroneProduct.new kwargs = Raise (ValidationError es) /\
              In (["price"], "missing") es) /\
  (dict_get "category" kwargs = None ->
   exists es, DroneProduct.new kwargs = Raise (ValidationError es) /\
              In (["category"], "missing") es) /\
  (dict_get "email" kwargs = None ->
   exists es, Order.new kwargs = Raise (ValidationError es) /\
              In (["email"], "missing") es) /\
  (dict_get "items" kwargs = None ->
   exists es, Order.new kwargs = Raise (ValidationError es) /\
              In (["items"], "missing") es) /\
  (dict_get "total" kwargs = None ->
   exists es, Order.new kwargs = Raise (ValidationError es) /\
              In (["total"], "missing") es).
Proof.
  repeat split; intros H; apply reports_error_construct.
  - unfold DroneProduct.validate.
    do 10 apply reports_error_ap_l. apply reports_error_ap_r.
    apply required_missing; exact H.
  - unfold DroneProduct.validate.
    do 8 apply reports_error_ap_l. apply reports_error_ap_r.
    apply required_missing; exact H.
  - unfold DroneProduct.validate.
    do 7 apply reports_error_ap_l. apply reports_error_ap_r.
    apply required_missing; exact H.
  - unfold Order.validate.
    do 3 apply reports_error_ap_l. apply reports_error_ap_r.
    apply required_missing; exact H.
  - unfold Order.validate.
    do 2 apply reports_error_ap_l. apply reports_error_ap_r.
    apply required_missing; exact H.
  - unfold Order.validate.
    do 1 apply reports_error_ap_l. apply reports_error_ap_r.
    apply required_missing; exact H.
Qed.

(** A product given a title only: price and category are both reported. *)
Lemma required_fields_witness :
  exists es,
    @DroneProduct.new plain_runtime [("title", VStr "Bench motor")] =
      Raise (ValidationError es) /\
    In (["price"], "missing") es /\ In (["category"], "missing") es.
Proof.
  destruct (proj1 (proj2 (@required_fields plain_runtime [("title", VStr "Bench motor")]))
              eq_refl) as (es & Hnew & Hprice).
  destruct (proj1 (proj2 (proj2 (@required_fields plain_runtime
                                   [("title", VStr "Bench motor")])))
              eq_refl) as (es' & Hnew' & Hcat).
  exists es. split; [exact Hnew|]. split; [exact Hprice|].
  rewrite Hnew in Hnew'. inversion Hnew'; subst. exact Hcat.
Defined.

(** X14. A [Category] needs a [slug] and a [name] (a [missing] error is
    reported at each one left out), its [description] and [icon] are [None]
    when omitted, and it is constructed again from its own dump. *)
Theorem Category_schema {RT : Runtime} :
  (forall kwargs,
     dict_get "slug" kwargs = None ->
     exists es, Category.new kwargs = Raise (ValidationError es) /\
                In (["slug"], "missing") es) /\
  (forall kwargs,
     dict_get "name" kwargs = None ->
     exists es, Category.new kwargs = Raise (ValidationError es) /\
                In (["name"], "missing") es) /\
  (forall slug name,
     Category.new [("slug", VStr slug); ("name", VStr name)] =
     Return {| Category.slug := slug; Category.name := name;
               Category.description := None; Category.icon := None |}) /\
  (forall c, Category.new (model_dump c) = Return c).
Proof.
  split; [|split; [|split]].
  - intros kwargs H. apply reports_error_construct. unfold Category.validate.
    do 3 apply reports_error_ap_l. apply reports_error_ap_r.
    apply required_missing; exact H.
  - intros kwargs H. apply reports_error_construct. unfold Category.validate.
    do 2 apply reports_error_ap_l. apply reports_error_ap_r.
    apply required_missing; exact H.
  - intros slug name. reflexivity.
  - intros [slug name [description|] [icon|]]; reflexivity.
Qed.

Lemma for_each_add_line_at_least_one {RT : Runtime} (items : list Main.CartItem) :
  forall (acc : PyFloat.float) (w : World),
    for_each Main.add_line (map at_least_one items) acc w =
    for_each Main.add_line items acc w.
Proof.
  induction items as [|item items IH]; intros acc w; [reflexivity|].
  cbn [map for_each].
  assert (Hline : Main.add_line acc (at_least_one item) = Main.add_line acc item).
  { unfold Main.add_line, at_least_one; cbn [Main.product_id Main.qty].
    rewrite Z.max_assoc, Z.max_id. reflexivity. }
  rewrite Hline. unfold bind.
  destruct (Main.add_line acc item w) as [[acc'|e] w1]; [apply IH|reflexivity].
Qed.

(** X15. The quantity of a cart item: a cart item needs a [product_id], its
    [qty] is 1 when omitted and has no lower bound (zero and negative
    integers are accepted as sent), and the total charges every item for at
    least one unit: a cart prices as the same cart with each quantity below
    one raised to one. *)
Theorem CartItem_quantities {RT : Runtime} :
  (forall kwargs,
     dict_get "product_id" kwargs = None ->
     exists es, CartItem_new kwargs = Raise (ValidationError es) /\
                In (["product_id"], "missing") es) /\
  (forall kwargs item,
     CartItem_new kwargs = Return item ->
     dict_get "qty" kwargs = None ->
     Main.qty item = 1) /\
  (forall product_id q,
     CartItem_new [("product_id", VStr product_id); ("qty", VInt q)] =
     Return {| Main.product_id := product_id; Main.qty := q |}) /\
  (forall items w,
     Main.order_total (map at_least_one items) w = Main.order_total items w).
Proof.
  split; [|split; [|split]].
  - intros kwargs H. apply reports_error_construct. unfold CartItem_validate.
    apply reports_error_ap_l, reports_error_ap_r.
    apply required_missing; exact H.
  - intros kwargs item Hnew Hq. unfold CartItem_new in Hnew.
    destruct (CartItem_validate kwargs) as [item'|es] eqn:Hv; [|discriminate].
    inversion Hnew; subst item'; clear Hnew.
    unfold CartItem_validate in Hv.
    repeat (apply v_ap_valid_inv in Hv as (? & ? & Hv & ? & ?)).
    inversion Hv; subst; simpl.
    match goal with H : optional "qty" _ _ _ = Valid _ |- _ =>
      apply (optional_omitted _ _ _ _ _ Hq) in H; subst end.
    reflexivity.
  - intros product_id q. reflexivity.
  - intros items w. unfold Main.order_total.
    apply for_each_add_line_at_least_one.
Qed.

(* ================================================================== *)
(** * Seeding *)

Lemma matches_empty (doc : dict) : matches [] doc = true.
Proof. reflexivity. Qed.

Lemma filter_matches_empty (docs : list dict) : filter (matches []) docs = docs.
Proof.
  induction docs as [|doc docs IH]; [reflexivity|].
  cbn [filter]. rewrite matches_empty, IH. reflexivity.
Qed.

Lemma construct_all_length {A} (calls : list (outcome A)) :
  forall xs, construct_all calls = Return xs -> List.length xs = List.length calls.
Proof.
  induction calls as [|[a|e] calls IH]; intros xs H; simpl in H.
  - inversion H; reflexivity.
  - destruct (construct_all calls) as [l|e]; [|discriminate].
    inversion H; subst. simpl. rewrite (IH l eq_refl). reflexivity.
  - discriminate.
Qed.

Lemma dict_get_set_same (k : string) (v : value) (d : dict) :
  dict_get k (dict_set k v d) = Some v.
Proof.
  induction d as [|[k0 v0] d IH]; cbn [dict_set dict_get].
  - rewrite String.eqb_refl. reflexivity.
  - destruct (String.eqb k k0) eqn:E; cbn [dict_get]; rewrite ?String.eqb_refl, ?E; auto.
Qed.

Lemma dict_get_set_other (k k' : string) (v : value) (d : dict) :
  k' <> k -> dict_get k' (dict_set k v d) = dict_get k' d.
Proof.
  intros Hne. apply String.eqb_neq in Hne.
  induction d as [|[k0 v0] d IH]; cbn [dict_set dict_get].
  - rewrite Hne. reflexivity.
  - destruct (String.eqb k k0) eqn:E; cbn [dict_get].
    + apply String.eqb_eq in E; subst k0. rewrite Hne. reflexivity.
    + destruct (String.eqb k' k0); [reflexivity|exact IH].
Qed.

(** The fields of a document after the [$set] of a category. *)
Lemma dict_update_category (doc : dict) (c : Category.t) :
  let doc' := dict_update doc (model_dump c) in
  dict_get "slug" doc' = Some (VStr (Category.slug c)) /\
  dict_get "name" doc' = Some (VStr (Category.name c)) /\
  dict_get "description" doc' =
    Some (Category.optional_str_value (Category.description c)) /\
  dict_get "icon" doc' = Some (Category.optional_str_value (Category.icon c)).
Proof.
  cbv zeta. unfold dict_update. cbn [model_dump Category.dump fold_left fst snd].
  repeat split;
    repeat (first [ rewrite dict_get_set_same; reflexivity
                  | rewrite dict_get_set_other by discriminate ]).
Qed.

Lemma matches_slug (s : string) (doc : dict) :
  matches [("slug", VStr s)] doc = true <-> dict_get "slug" doc = Some (VStr s).
Proof.
  unfold matches. cbn [forallb fst snd]. rewrite andb_true_r.
  destruct (dict_get "slug" doc) as [v|]; [|split; discriminate].
  split.
  - intros H. apply value_eqb_str in H. congruence.
  - intros H; inversion H; subst. apply value_eqb_str_refl.
Qed.

Lemma matches_other_slug (s s' : string) (doc : dict) :
  s' <> s -> dict_get "slug" doc = Some (VStr s) ->
  matches [("slug", VStr s')] doc = false.
Proof.
  intros Hne Hs. destruct (matches [("slug", VStr s')] doc) eqn:E; [|reflexivity].
  apply matches_slug in E. congruence.
Qed.

Lemma find_app_some {A} (f : A -> bool) (l1 l2 : list A) (a : A) :
  find f l1 = Some a -> find f (l1 ++ l2) = Some a.
Proof.
  induction l1 as [|x l1 IH]; [discriminate|].
  cbn [app find]. destruct (f x); auto.
Qed.

Lemma find_app_none {A} (f : A -> bool) (l1 l2 : list A) :
  find f l1 = None -> find f (l1 ++ l2) = find f l2.
Proof.
  induction l1 as [|x l1 IH]; [reflexivity|].
  cbn [app find]. destruct (f x); [discriminate|auto].
Qed.

Lemma find_cons {A} (f : A -> bool) (x : A) (l : list A) :
  find f (x :: l) = if f x then Some x else find f l.
Proof. reflexivity. Qed.

Lemma update_first_cons (query fields : dict) (doc : dict) (docs : list dict) :
  update_first query fields (doc :: docs) =
  if matches query doc then Some (dict_update doc fields :: docs)
  else option_map (cons doc) (update_first query fields docs).
Proof. reflexivity. Qed.

(** The first document under the slug of a category, after its update. *)
Lemma update_first_found (c : Category.t) (docs docs' : list dict) :
  update_first [("slug", VStr (Category.slug c))] (model_dump c) docs = Some docs' ->
  exists doc,
    find (matches [("slug", VStr (Category.slug c))]) docs' =
      Some (dict_update doc (model_dump c)).
Proof.
  revert docs'. induction docs as [|doc docs IH]; intros docs' H; [discriminate|].
  rewrite update_first_cons in H.
  destruct (matches [("slug", VStr (Category.slug c))] doc) eqn:Em.
  - assert (Hd : docs' = dict_update doc (model_dump c) :: docs) by congruence.
    subst docs'. clear H. exists doc. rewrite find_cons.
    rewrite (proj2 (matches_slug _ _) (proj1 (dict_update_category doc c))).
    reflexivity.
  - destruct (update_first _ _ docs) as [docs''|]; [|discriminate].
    cbn [option_map] in H.
    assert (Hd : docs' = doc :: docs'') by congruence. subst docs'. clear H. destruct (IH docs'' eq_refl) as (doc0 & Hf).
    exists doc0. rewrite find_cons. rewrite Em. exact Hf.
Qed.

Lemma update_first_none (query fields : dict) (docs : list dict) :
  update_first query fields docs = None -> find (matches query) docs = None.
Proof.
  induction docs as [|doc docs IH]; [reflexivity|].
  cbn [update_first find]. destruct (matches query doc); [discriminate|].
  destruct (update_first query fields docs); [discriminate|auto].
Qed.

(** The first document under another slug is the same before and after. *)
Lemma update_first_other (c : Category.t) (s' : string) (docs docs' : list dict) :
  s' <> Category.slug c ->
  update_first [("slug", VStr (Category.slug c))] (model_dump c) docs = Some docs' ->
  find (matches [("slug", VStr s')]) docs' = find (matches [("slug", VStr s')]) docs.
Proof.
  intros Hne. revert docs'. induction docs as [|doc docs IH]; intros docs' H;
    [discriminate|].
  rewrite update_first_cons in H.
  destruct (matches [("slug", VStr (Category.slug c))] doc) eqn:Em.
  - assert (Hd : docs' = dict_update doc (model_dump c) :: docs) by congruence.
    subst docs'. clear H. rewrite !find_cons.
    rewrite (matches_other_slug (Category.slug c) s' _ Hne
               (proj1 (dict_update_category doc c))).
    rewrite (matches_other_slug (Category.slug c) s' _ Hne
               (proj1 (matches_slug _ _) Em)).
    reflexivity.
  - destruct (update_first _ _ docs) as [docs''|]; [|discriminate].
    cbn [option_map] in H.
    assert (Hd : docs' = doc :: docs'') by congruence. subst docs'. clear H. rewrite !find_cons. rewrite (IH docs'' eq_refl). reflexivity.
Qed.

(** One upsert stores its category and keeps the categories stored under
    other slugs, and the other collections. *)
Lemma upsert_category_run (c : Category.t) (d : Database) (ops : list store_op) :
  exists d1,
    upsert_category c (world_of d ops) = (Return tt, world_of d1 ops) /\
    (forall name, name <> "category" -> collection d1 name = collection d name) /\
    category_stored d1 c /\
    (forall c', Category.slug c' <> Category.slug c ->
                category_stored d c' -> category_stored d1 c').
Proof.
  unfold upsert_category, update_one_upsert, world_of. cbn [db oplog].
  destruct (update_first [("slug", VStr (Category.slug c))] (model_dump c)
              (collection d "category")) as [docs|] eqn:Eup.
  - eexists. split; [reflexivity|]. split; [|split].
    + intros name Hne.
      rewrite (collection_set_other (collections d) "category" name _ _ (next_oid d) Hne).
      destruct d; reflexivity.
    + destruct (update_first_found c _ _ Eup) as (doc & Hf).
      exists (dict_update doc (model_dump c)).
      unfold find_one. rewrite collection_set_same.
      split; [exact Hf|]. apply (proj2 (dict_update_category doc c)).
    + intros c' Hne (doc & Hf & Hfields). exists doc. split; [|exact Hfields].
      unfold find_one in *. rewrite collection_set_same.
      rewrite (update_first_other c _ _ _ Hne Eup). exact Hf.
  - eexists. split; [reflexivity|]. split; [|split].
    + intros name Hne.
      rewrite (collection_set_other (collections d) "category" name _ _ (next_oid d) Hne).
      destruct d; reflexivity.
    + eexists. unfold find_one. rewrite collection_set_same.
      rewrite (find_app_none _ _ _ (update_first_none _ _ _ Eup)).
      cbn [find].
      rewrite (proj2 (matches_slug _ _) (proj1 (dict_update_category _ c))).
      split; [reflexivity|]. apply (proj2 (dict_update_category _ c)).
    + intros c' Hne (doc & Hf & Hfields). exists doc. split; [|exact Hfields].
      unfold find_one in *. rewrite collection_set_same.
      apply find_app_some. exact Hf.
Qed.

(** The upserts of categories with distinct slugs store each of them, keep
    the database configured and leave every other collection alone. *)
Lemma for_each_upsert_category (cats : list Category.t) :
  NoDup (map Category.slug cats) ->
  forall (d : Database) (ops : list store_op),
  exists d1,
    for_each (fun (u : unit) c => upsert_category c) cats tt (world_of d ops) =
      (Return tt, world_of d1 ops) /\
    (forall name, name <> "category" -> collection d1 name = collection d name) /\
    Forall (category_stored d1) cats /\
    (forall c', ~ In (Category.slug c') (map Category.slug cats) ->
                category_stored d c' -> category_stored d1 c').
Proof.
  induction cats as [|c cats IH]; intros Hnd d ops.
  - exists d. split; [reflexivity|]. split; [auto|]. split; [constructor|auto].
  - inversion Hnd as [|? ? Hnotin Hnd']; subst.
    destruct (upsert_category_run c d ops) as (d0 & Hrun0 & Hother0 & Hst0 & Hkeep0).
    destruct (IH Hnd' d0 ops) as (d1 & Hrun & Hother & Hst & Hkeep).
    exists d1. split; [|split; [|split]].
    + cbn [for_each]. rewrite (bind_return _ _ _ _ _ Hrun0). exact Hrun.
    + intros name Hne. rewrite (Hother name Hne). apply Hother0; exact Hne.
    + constructor; [apply Hkeep; assumption|exact Hst].
    + intros c' Hnot Hc'. apply Hkeep.
      * intros Hin. apply Hnot. right; exact Hin.
      * apply Hkeep0; [|exact Hc'].
        intros Heq. apply Hnot. left; symmetry; exact Heq.
Qed.

Lemma construct_all_inv {A B} (f : A -> outcome B) (l : list A) :
  forall xs, construct_all (map f l) = Return xs ->
             Forall2 (fun a x => f a = Return x) l xs.
Proof.
  induction l as [|a l IH]; intros xs H; cbn [map construct_all] in H.
  - inversion H; constructor.
  - destruct (f a) as [x|e] eqn:Ea; [|discriminate].
    destruct (construct_all (map f l)) as [xs'|e]; [|discriminate].
    inversion H; subst. constructor; auto.
Qed.

Lemma Forall2_with_In {A B} (R : A -> B -> Prop) (l : list A) (xs : list B) :
  Forall2 R l xs -> Forall2 (fun a x => In a l /\ R a x) l xs.
Proof.
  induction 1 as [|a x l xs Hax _ IH]; constructor.
  - split; [left; reflexivity|exact Hax].
  - eapply Forall2_impl; [|exact IH].
    intros a' x' [Hin HR]. split; [right; exact Hin|exact HR].
Qed.

(** A seed product that validates holds the keyword arguments it was given,
    and the store can encode its document. *)
Lemma seed_product_new {RT : Runtime} (kwargs : dict) (p : DroneProduct.t) :
  In kwargs seed_products ->
  DroneProduct.new kwargs = Return p ->
  document_encodable (model_dump p) = true /\
  forall oid, seeded_as kwargs (model_dump p ++ [("_id", VObjectId oid)])%list.
Proof.
  intros Hin Hnew. unfold seed_products in Hin.
  repeat (destruct Hin as [<-|Hin]); [| | |contradiction];
    cbv -[http_url] in Hnew;
    repeat match type of Hnew with
           | context [match http_url ?s with _ => _ end] =>
               destruct (http_url s) eqn:?
           end;
    inversion Hnew; subst p; clear Hnew;
    (split; [reflexivity|]); intros oid; (split; [|split]).
  all: try (eexists; reflexivity).
  all: try (eexists; eexists; split; [reflexivity|]; split; [reflexivity|];
            repeat constructor; eexists; eexists;
            (split; [reflexivity|]); (split; [reflexivity|]); assumption).
  all: intros k Hi Hid;
    cbn [model_dump DroneProduct.dump app dict_get DroneProduct.title
         DroneProduct.description DroneProduct.price DroneProduct.category
         DroneProduct.images DroneProduct.in_stock DroneProduct.stock_qty
         DroneProduct.rating DroneProduct.featured DroneProduct.tags
         DroneProduct.specs];
    repeat match goal with
           | |- context [String.eqb k ?s] =>
               let E := fresh "E" in
               destruct (String.eqb k s) eqn:E;
               [apply String.eqb_eq in E; first [contradiction|reflexivity]|]
           end;
    reflexivity.
Qed.

(** The insertions of the products append one document for each product, in
    order, to the product collection: the dump of the product and its new
    identifier. *)
Lemma for_each_insert_product (products : list DroneProduct.t) :
  Forall (fun p => document_encodable (model_dump p) = true) products ->
  forall (d : Database) (ops : list store_op),
  exists d2 ops2 docs,
    for_each (fun (u : unit) p => i <- create_document "droneproduct" p ;; ret tt)
             products tt (world_of d ops) = (Return tt, world_of d2 ops2) /\
    collection d2 "droneproduct" = (collection d "droneproduct" ++ docs)%list /\
    Forall2 (fun p doc => exists oid,
               doc = (model_dump p ++ [("_id", VObjectId oid)])%list)
            products docs /\
    (forall name, name <> "droneproduct" -> collection d2 name = collection d name).
Proof.
  induction products as [|p products IH]; intros Henc d ops.
  - exists d, ops, []. split; [reflexivity|]. split; [symmetry; apply app_nil_r|].
    split; [constructor|auto].
  - inversion Henc as [|? ? Hp Hrest]; subst.
    cbn [for_each]. unfold bind at 1.
    pose proof (create_document_run d ops "droneproduct" p) as Hins. cbv zeta in Hins.
    rewrite Hp in Hins.
    rewrite (bind_return _ _ _ _ _ Hins). clear Hins. unfold ret at 1.
    match goal with |- context [for_each _ products tt (world_of ?d0 ?ops0)] =>
      destruct (IH Hrest d0 ops0) as (d2 & ops2 & docs & Hrun & Hcoll & Hdocs & Hother) end.
    rewrite collection_set_same in Hcoll.
    eexists d2, ops2, (_ :: docs). split; [exact Hrun|]. split; [|split].
    + rewrite Hcoll, <- app_assoc. reflexivity.
    + constructor; [eexists; reflexivity|exact Hdocs].
    + intros name Hne. rewrite (Hother name Hne).
      rewrite (collection_set_other (collections d) "droneproduct" name _ _
                 (next_oid d) Hne).
      destruct d; reflexivity.
Qed.

Lemma seed_categories_construct {RT : Runtime} :
  exists cats,
    construct_all (map Category.new seed_categories) = Return cats /\
    NoDup (map Category.slug cats) /\
    map (@model_dump _ Category.dump) cats = seed_categories.
Proof.
  eexists. split; [reflexivity|]. split; [|reflexivity].
  cbn [map Category.slug].
  repeat (constructor; [simpl; intros H;
                        repeat (destruct H as [H|H]; [discriminate H|]); exact H|]).
  constructor.
Qed.

(** What [seed_demo] does on a configured store. *)
Lemma seed_demo_run {RT : Runtime} (d : Database) (ops : list store_op) :
  (collection d "droneproduct" <> [] /\
   seed_demo (world_of d ops) =
     (Return already_seeded, world_of d (ops ++ [Find "droneproduct" [] 1])%list)) \/
  (collection d "droneproduct" = [] /\
   exists d1,
     (forall name, name <> "category" -> collection d1 name = collection d name) /\
     (forall c, In (model_dump c) seed_categories -> category_stored d1 c) /\
     ((exists e,
         construct_all (map DroneProduct.new seed_products) = Raise e /\
         seed_demo (world_of d ops) =
           (Raise e, world_of d1 (ops ++ [Find "droneproduct" [] 1])%list)) \/
      (exists products d2 ops2 docs,
         construct_all (map DroneProduct.new seed_products) = Return products /\
         seed_demo (world_of d ops) =
           (Return [("status", VStr "ok");
                    ("inserted", VInt (Z.of_nat (List.length products)))],
            world_of d2 ops2) /\
         collection d2 "droneproduct" = (collection d1 "droneproduct" ++ docs)%list /\
         Forall2 seeded_as seed_products docs /\
         (forall name, name <> "droneproduct" ->
                       collection d2 name = collection d1 name)))).
Proof.
  assert (Hfind : find_limit "droneproduct" [] 1 (world_of d ops) =
                    (Return (firstn 1 (collection d "droneproduct")),
                     world_of d (ops ++ [Find "droneproduct" [] 1])%list)).
  { unfold find_limit, world_of, log. cbn [db oplog].
    rewrite filter_matches_empty. reflexivity. }
  unfold seed_demo. cbn [world_of db].
  change {| db := Some d; oplog := ops |} with (world_of d ops).
  rewrite (bind_return _ _ _ _ _ Hfind). clear Hfind.
  destruct (collection d "droneproduct") as [|doc docs0] eqn:Ecoll.
  - right. split; [reflexivity|]. cbn [firstn].
    destruct seed_categories_construct as (cats & Hcats & Hnd & Hdump).
    rewrite Hcats. rewrite (bind_return _ _ _ _ _ (lift_run (Return cats) _)).
    destruct (for_each_upsert_category cats Hnd d
                (ops ++ [Find "droneproduct" [] 1])%list)
      as (d1 & Hups & Hother & Hst & _).
    rewrite (bind_return _ _ _ _ _ Hups).
    exists d1. split; [exact Hother|].
    split.
    { intros c Hc. rewrite <- Hdump in Hc. apply in_map_iff in Hc as (c0 & Heq & Hin).
      assert (c0 = c).
      { destruct c0 as [s0 n0 [d0|] [i0|]], c as [s1 n1 [d1'|] [i1|]];
          simpl in Heq; inversion Heq; reflexivity. }
      subst c0. rewrite Forall_forall in Hst. apply Hst; exact Hin. }
    destruct (construct_all (map DroneProduct.new seed_products)) as [products|e] eqn:Eps.
    + right.
      rewrite (bind_return _ _ _ _ _ (lift_run (Return products) _)).
      pose proof (construct_all_inv _ _ _ Eps) as Hnew.
      assert (Hseed : Forall2 (fun kw p =>
                                 document_encodable (model_dump p) = true /\
                                 forall oid, seeded_as kw
                                   (model_dump p ++ [("_id", VObjectId oid)])%list)
                              seed_products products).
      { apply Forall2_with_In in Hnew.
        eapply Forall2_impl; [|exact Hnew].
        intros kw p0 [Hin Hkw]. apply seed_product_new; assumption. }
      assert (Henc : Forall (fun p => document_encodable (model_dump p) = true) products).
      { clear - Hseed. induction Hseed as [|? ? ? ? [H _] _ IH]; constructor; auto. }
      destruct (for_each_insert_product products Henc d1
                  (ops ++ [Find "droneproduct" [] 1])%list)
        as (d2 & ops2 & docs & Hrun & Hcoll & Hdocs & Hother2).
      rewrite (bind_return _ _ _ _ _ Hrun).
      exists products, d2, ops2, docs. repeat split; auto.
      clear - Hseed Hdocs. revert docs Hdocs.
      induction Hseed as [|kw p0 kws ps [_ Hkw] _ IH]; intros docs Hdocs;
        inversion Hdocs as [|? doc ? docs' (oid & Hdoc) Hrest]; subst; constructor.
      * apply Hkw.
      * apply IH. exact Hrest.
    + left. exists e. split; [reflexivity|].
      rewrite (bind_raise _ _ _ _ _ (lift_run (Raise e) _)). reflexivity.
  - left. split; [discriminate|]. reflexivity.
Qed.

Lemma seed_demo_already {RT : Runtime} (d : Database) (ops : list store_op) :
  collection d "droneproduct" <> [] ->
  seed_demo (world_of d ops) =
    (Return already_seeded, world_of d (ops ++ [Find "droneproduct" [] 1])%list).
Proof.
  intros Hne.
  destruct (seed_demo_run d ops) as [[_ H]|[Hempty _]]; [exact H|contradiction].
Qed.

(** X16. [seed_demo] guards its work: with no database configured it
    raises HTTP 500 "Database not configured"; on a store that holds at
    least one product it answers "Products already seeded" after a single
    [find], and writes nothing. *)
Theorem seed_demo_guards {RT : Runtime} :
  (forall ops,
     seed_demo {| db := None; oplog := ops |} =
       (Raise (HTTPException 500 "Database not configured"),
        {| db := None; oplog := ops |})) /\
  (forall d ops,
     collection d "droneproduct" <> [] ->
     seed_demo (world_of d ops) =
       (Return already_seeded, world_of d (ops ++ [Find "droneproduct" [] 1])%list)).
Proof.
  split; [reflexivity|].
  intros d ops Hne. apply seed_demo_already; exact Hne.
Qed.

(** The demo store is already seeded. *)
Lemma seed_demo_guards_witness :
  collection demo_db "droneproduct" <> [] /\
  @seed_demo plain_runtime (world_of demo_db []) =
    (Return already_seeded, world_of demo_db [Find "droneproduct" [] 1]).
Proof.
  split; [discriminate|].
  apply (proj2 (@seed_demo_guards plain_runtime) demo_db []). discriminate.
Defined.

(** X17. Seeding is idempotent: after a call of [seed_demo] that returned,
    a second call answers "Products already seeded" and leaves the database
    as the first call left it. *)
Theorem seed_demo_idempotent {RT : Runtime} (w w' : World) (r : dict) :
  seed_demo w = (Return r, w') ->
  exists ops'',
    seed_demo w' = (Return already_seeded, {| db := db w'; oplog := ops'' |}).
Proof.
  destruct w as [[d|] ops]; [|discriminate].
  change {| db := Some d; oplog := ops |} with (world_of d ops).
  intros H.
  destruct (seed_demo_run d ops) as [[Hne Hrun]|[Hempty (d1 & Hother & Hcase)]].
  - rewrite Hrun in H. inversion H; subst.
    eexists. apply seed_demo_already. exact Hne.
  - destruct Hcase as [_ [(e & _ & Hrun)|(products & d2 & ops2 & docs & Hps & Hrun & Hcoll & Hdocs & _)]].
    + rewrite Hrun in H. discriminate.
    + rewrite Hrun in H. inversion H; subst.
      eexists. apply seed_demo_already.
      rewrite Hcoll.
      inversion Hdocs; subst.
      intros Habs. apply app_eq_nil in Habs as [_ Habs]. discriminate.
Qed.

(** Seeding an empty store twice. *)
Lemma seed_demo_idempotent_witness :
  exists ops'',
    @seed_demo plain_runtime
      (snd (@seed_demo plain_runtime
              {| db := Some {| collections := []; next_oid := 1 |}; oplog := [] |})) =
    (Return already_seeded,
     {| db := db (snd (@seed_demo plain_runtime
                         {| db := Some {| collections := []; next_oid := 1 |};
                            oplog := [] |}));
        oplog := ops'' |}).
Proof.
  apply (@seed_demo_idempotent plain_runtime
           {| db := Some {| collections := []; next_oid := 1 |}; oplog := [] |}
           _ [("status", VStr "ok"); ("inserted", VInt 3)]).
  vm_compute. reflexivity.
Defined.

Lemma category_stored_ext (d d' : Database) (c : Category.t) :
  collection d' "category" = collection d "category" ->
  category_stored d c -> category_stored d' c.
Proof.
  intros Heq (doc & Hf & Hfields). exists doc. split; [|exact Hfields].
  unfold find_one in *. rewrite Heq. exact Hf.
Qed.

(** X18. Seeding a store that holds no product, when the three demo
    products validate (their image URLs are accepted): the answer is
    [{"status": "ok", "inserted": 3}]; the product collection holds exactly
    the three demo products, in order, each stored with every field as
    [seed_demo] gives it (title, description, price, category, stock,
    rating, flags, tags and specs), its images as validated and a new
    identifier; each of the five categories is stored under its slug with
    its name, description and icon, whatever the category collection held
    before; and no other collection is touched. *)
Theorem seed_demo_fresh {RT : Runtime} (d : Database) (ops : list store_op)
    (products : list DroneProduct.t) :
  collection d "droneproduct" = [] ->
  construct_all (map DroneProduct.new seed_products) = Return products ->
  exists d2 ops2,
    seed_demo (world_of d ops) =
      (Return [("status", VStr "ok"); ("inserted", VInt 3)], world_of d2 ops2) /\
    Forall2 seeded_as seed_products (collection d2 "droneproduct") /\
    map (dict_get "title") (collection d2 "droneproduct") =
      [Some (VStr "FPV 24/7 Raven 5"); Some (VStr "CineWhoop Mini");
       Some (VStr "2207 1950KV Pro Motor")] /\
    (forall c, In (model_dump c) seed_categories -> category_stored d2 c) /\
    (forall name, name <> "category" -> name <> "droneproduct" ->
                  collection d2 name = collection d name).
Proof.
  intros Hempty Hps.
  destruct (seed_demo_run d ops) as [[Hne _]|[_ (d1 & Hother & Hst & Hcase)]];
    [contradiction|].
  destruct Hcase as [(e & He & _)|(products' & d2 & ops2 & docs & Hps' & Hrun & Hcoll & Hdocs & Hother2)];
    [congruence|].
  rewrite Hps in Hps'. inversion Hps'; subst products'; clear Hps'.
  pose proof (construct_all_length _ _ Hps) as Hlen. rewrite length_map in Hlen.
  rewrite (Hother "droneproduct") in Hcoll by discriminate.
  rewrite Hempty in Hcoll. cbn [app] in Hcoll.
  exists d2, ops2. split; [|split; [|split; [|split]]].
  - rewrite Hrun. rewrite Hlen. reflexivity.
  - rewrite Hcoll. exact Hdocs.
  - rewrite Hcoll. clear - Hdocs. unfold seed_products in Hdocs.
    repeat match goal with
           | H : Forall2 _ (_ :: _) _ |- _ =>
               let Hd := fresh "Hd" in
               inversion H as [|? ? ? ? [Hd _] ?]; subst; clear H;
               specialize (Hd "title" ltac:(discriminate) ltac:(discriminate));
               cbn in Hd
           | H : Forall2 _ [] _ |- _ => inversion H; subst; clear H
           end.
    cbn [map]. congruence.
  - intros c Hc. apply (category_stored_ext d1 d2).
    + apply Hother2. discriminate.
    + apply Hst. exact Hc.
  - intros name Hc Hp. rewrite (Hother2 name Hp). apply Hother; exact Hc.
Qed.

(** Seeding the empty store. *)
Lemma seed_demo_fresh_witness :
  exists d2 ops2,
    @seed_demo plain_runtime (world_of {| collections := []; next_oid := 1 |} []) =
      (Return [("status", VStr "ok"); ("inserted", VInt 3)], world_of d2 ops2) /\
    Forall2 (@seeded_as plain_runtime) seed_products (collection d2 "droneproduct") /\
    map (dict_get "title") (collection d2 "droneproduct") =
      [Some (VStr "FPV 24/7 Raven 5"); Some (VStr "CineWhoop Mini");
       Some (VStr "2207 1950KV Pro Motor")] /\
    (forall c, In (model_dump c) seed_categories -> category_stored d2 c) /\
    (forall name, name <> "category" -> name <> "droneproduct" ->
                  collection d2 name =
                  collection {| collections := []; next_oid := 1 |} name).
Proof.
  refine (@seed_demo_fresh plain_runtime {| collections := []; next_oid := 1 |} []
            _ eq_refl _).
  vm_compute. reflexivity.
Defined.
